(** * The mock HTTP endpoint server of painlessMesh, [test/mock-http-server/server.py]

    A shallow embedding of [MockHTTPHandler] and of the parts of the Python
    runtime it calls, followed by the properties of the server that the
    specification states.

    Layout:
    - [Py]: Python values as the handler sees them: text, bytes, floats,
      exceptions, dictionaries, JSON values, with [str.strip], [str.split],
      [str.encode] and [bytes.decode];
    - [PyLib]: the library calls with a long definition ([int], [float],
      [repr] of a float, [urlparse], [parse_qs], the reason phrases of
      [http.server]), taken as an interface, and [CPython], an instance of it
      for text in the Latin-1 range, which is what [http.server] makes of a
      request line;
    - [Json]: [json.dumps];
    - [Http]: the part of [BaseHTTPRequestHandler] the handler drives (header
      buffer, [send_response], [send_header], [end_headers], [wfile.write])
      with [time.time] and [time.sleep], as a state and exception monad over
      a trace of events;
    - [Msg]: the header lookups of [email.message.Message];
    - [Mock]: the methods of [MockHTTPHandler] and the address of [main];
    - [Spec] and [Sample]: the vocabulary of the properties, and sample
      requests;
    - the facts, and the properties of the specification, C1 to C10;
    - [Shape] and further facts, and further properties of the handler, X1
      to X16: what a request can leave on the wire, what it reads, and how
      it fails.

    Console output ([print], [log_message]) is left out of the trace, and so
    are failures of the connection itself: no property below observes
    them. The protocol of the request is a parameter of the handler
    ([Protocol]): a request of HTTP/1.0 or later ([http_1]) wherever none
    is named, and HTTP/0.9 ([http_0_9]), for which the library sends no
    head at all, where C7 names it. *)

From Stdlib Require Import ZArith NArith QArith List String Ascii Bool Lia.
From Stdlib Require Import SpecFloat DecimalString.
Import ListNotations.

Local Open Scope Z_scope.
Local Open Scope list_scope.

(* ================================================================== *)
(** * Python values                                                    *)
(* ================================================================== *)

Module Py.

(** A Python [str] is a sequence of code points. *)
Definition str := list N.

(** A [str] literal: the characters of a Rocq string, read as code points
    0..255. *)
Definition lit (s : string) : str :=
  map N_of_ascii (list_ascii_of_string s).

Definition bytes := list Byte.byte.

Definition str_eqb (a b : str) : bool :=
  if list_eq_dec N.eq_dec a b then true else false.

(** [sep.join(parts)] *)
Fixpoint join (sep : str) (parts : list str) : str :=
  match parts with
  | [] => []
  | [p] => p
  | p :: rest => p ++ sep ++ join sep rest
  end.

(** [s.lstrip(c)], [s.rstrip(c)] and [s.strip(c)] for a one-character [c]. *)
Fixpoint lstrip (c : N) (s : str) : str :=
  match s with
  | x :: s' => if N.eqb x c then lstrip c s' else s
  | [] => []
  end.

Definition rstrip (c : N) (s : str) : str := rev (lstrip c (rev s)).

Definition strip (c : N) (s : str) : str := rstrip c (lstrip c s).

(** [s.split(c)] for a one-character separator: the result is never empty,
    and two adjacent separators enclose an empty string. *)
Fixpoint split (c : N) (s : str) : list str :=
  match s with
  | [] => [[]]
  | x :: s' =>
      if N.eqb x c then [] :: split c s'
      else match split c s' with
           | p :: ps => (x :: p) :: ps
           | [] => [[x]]
           end
  end.

(** [str(n)] of an [int]. *)
Definition str_of_int (z : Z) : str :=
  lit (NilZero.string_of_int (Z.to_int z)).

(** ** Floats: IEEE 754 binary64, as [SpecFloat] specifies them *)

Definition float := spec_float.
Definition prec : Z := 53.
Definition emax : Z := 1024.

Definition float_of_int (z : Z) : float := binary_normalize prec emax z 0 false.
Definition flt (a b : float) : bool := SFltb a b.
Definition fle (a b : float) : bool := SFleb a b.
Definition fsub (a b : float) : float := SFsub prec emax a b.

Definition is_nan (f : float) : bool :=
  match f with S754_nan => true | _ => false end.

(** The exact value of a finite float, as a rational (0 for the others). *)
Definition float_Q (f : float) : Q :=
  match f with
  | S754_finite s m e =>
      let v := match e with
               | Zneg p => Qmake (Zpos m) (2 ^ p)
               | _ => inject_Z (Zpos m * 2 ^ e)
               end in
      if s then Qopp v else v
  | _ => 0%Q
  end.

(** ** Exceptions *)

Inductive exn :=
| ValueError (msg : str)
| UnicodeEncodeError (msg : str)   (* a subclass of ValueError *)
| UnicodeDecodeError (msg : str)   (* a subclass of ValueError *)
| OverflowError (msg : str)
| IndexError (msg : str)
| MemoryError (msg : str)
| OSError (msg : str).

(** What [except ValueError] catches. *)
Definition is_ValueError (e : exn) : bool :=
  match e with
  | ValueError _ | UnicodeEncodeError _ | UnicodeDecodeError _ => true
  | _ => false
  end.

(** [str(e)] *)
Definition exn_str (e : exn) : str :=
  match e with
  | ValueError m | UnicodeEncodeError m | UnicodeDecodeError m
  | OverflowError m | IndexError m | MemoryError m | OSError m => m
  end.

(** The result of a call that may raise. *)
Inductive outcome (A : Type) :=
| Ret (a : A)
| Raise (e : exn).
Arguments Ret {A} a.
Arguments Raise {A} e.

(** The result of a conversion from text that raises nothing but a plain
    [ValueError]: the value, or the message of the error. *)
Inductive parse (A : Type) :=
| Parsed (a : A)
| Invalid (msg : str).
Arguments Parsed {A} a.
Arguments Invalid {A} msg.

Definition of_parse {A} (p : parse A) : outcome A :=
  match p with
  | Parsed a => Ret a
  | Invalid msg => Raise (ValueError msg)
  end.

(** ** [dict]: insertion-ordered, keys unique *)

Definition dict (V : Type) := list (str * V).

Fixpoint dict_get {V} (k : str) (d : dict V) : option V :=
  match d with
  | [] => None
  | (k', v) :: d' => if str_eqb k k' then Some v else dict_get k d'
  end.

(** [d[k] = v]: an existing key keeps its place. *)
Fixpoint dict_set {V} (k : str) (v : V) (d : dict V) : dict V :=
  match d with
  | [] => [(k, v)]
  | (k', v') :: d' =>
      if str_eqb k k' then (k', v) :: d' else (k', v') :: dict_set k v d'
  end.

(** [list(d.keys())] *)
Definition dict_keys {V} (d : dict V) : list str := map fst d.

(** ** [str.encode] and [bytes.decode] *)

Definition byte_of (n : N) : Byte.byte :=
  match Byte.of_N (n mod 256)%N with
  | Some b => b
  | None => Byte.x00
  end.

(** The UTF-8 bytes of one code point; [None] for a surrogate (and for a
    number that is no code point), which [encode] refuses. *)
Definition utf8_char (c : N) : option bytes :=
  (if c <? 128 then Some [byte_of c]
   else if c <? 2048 then
     Some [byte_of (192 + c / 64); byte_of (128 + c mod 64)]
   else if c <? 65536 then
     if (55296 <=? c) && (c <? 57344) then None
     else Some [byte_of (224 + c / 4096); byte_of (128 + (c / 64) mod 64);
                byte_of (128 + c mod 64)]
   else if c <? 1114112 then
     Some [byte_of (240 + c / 262144); byte_of (128 + (c / 4096) mod 64);
           byte_of (128 + (c / 64) mod 64); byte_of (128 + c mod 64)]
   else None)%N.

Fixpoint utf8_encode (s : str) : option bytes :=
  match s with
  | [] => Some []
  | c :: s' =>
      match utf8_char c, utf8_encode s' with
      | Some b, Some bs => Some (b ++ bs)
      | _, _ => None
      end
  end.

(** [s.encode("utf-8")]; the text of the error message is abridged. *)
Definition encode_utf8 (s : str) : outcome bytes :=
  match utf8_encode s with
  | Some b => Ret b
  | None => Raise (UnicodeEncodeError (lit "'utf-8' codec can't encode character"))
  end.

(** What [s.encode("latin-1", "strict")] accepts. *)
Definition latin1_ok (s : str) : bool := forallb (fun c => c <? 256)%N s.

Definition cont (b : N) : bool := ((128 <=? b) && (b <? 192))%N.
Definition between (lo b hi : N) : bool := ((lo <=? b) && (b <=? hi))%N.

(** Strict UTF-8 decoding: shortest forms only, no surrogates, at most
    U+10FFFF. *)
Fixpoint utf8_decode_N (bs : list N) : option str :=
  (match bs with
   | [] => Some []
   | b0 :: r0 =>
       if b0 <? 128 then option_map (cons b0) (utf8_decode_N r0)
       else match r0 with
       | b1 :: r1 =>
           if between 194 b0 223 then
             if cont b1
             then option_map (cons ((b0 - 192) * 64 + (b1 - 128))) (utf8_decode_N r1)
             else None
           else match r1 with
           | b2 :: r2 =>
               if between 224 b0 239 then
                 if (if b0 =? 224 then between 160 b1 191
                     else if b0 =? 237 then between 128 b1 159
                     else cont b1) && cont b2
                 then option_map
                        (cons ((b0 - 224) * 4096 + (b1 - 128) * 64 + (b2 - 128)))
                        (utf8_decode_N r2)
                 else None
               else match r2 with
               | b3 :: r3 =>
                   if between 240 b0 244 then
                     if (if b0 =? 240 then between 144 b1 191
                         else if b0 =? 244 then between 128 b1 143
                         else cont b1) && cont b2 && cont b3
                     then option_map
                            (cons ((b0 - 240) * 262144 + (b1 - 128) * 4096
                                   + (b2 - 128) * 64 + (b3 - 128)))
                            (utf8_decode_N r3)
                     else None
                   else None
               | [] => None
               end
           | [] => None
           end
       | [] => None
       end
   end)%N.

(** [b.decode("utf-8")]; the text of the error message is abridged. *)
Definition decode_utf8 (b : bytes) : outcome str :=
  match utf8_decode_N (map Byte.to_N b) with
  | Some s => Ret s
  | None => Raise (UnicodeDecodeError (lit "'utf-8' codec can't decode byte"))
  end.

(** ** JSON-serialisable values *)

#[warnings="-register-all"]
Inductive json :=
| JNull                              (* None *)
| JBool (b : bool)
| JInt (z : Z)
| JFloat (f : float)
| JStr (s : str)
| JList (l : list json)
| JObj (kv : list (str * json)).     (* a dict with str keys *)

(** Lower-case hexadecimal, four digits: [format(n, "04x")] for n < 65536. *)
Definition hex_digit (n : N) : N :=
  (if n <? 10 then 48 + n else 87 + n)%N.

Definition hex4 (n : N) : str :=
  [hex_digit ((n / 4096) mod 16); hex_digit ((n / 256) mod 16);
   hex_digit ((n / 16) mod 16); hex_digit (n mod 16)]%N.

(** One character of a JSON string under [ensure_ascii=True]. *)
Definition json_escape_char (c : N) : str :=
  (if c =? 34 then [92; 34]
   else if c =? 92 then lit "\\"
   else if c =? 10 then lit "\n"
   else if c =? 13 then lit "\r"
   else if c =? 9 then lit "\t"
   else if c =? 8 then lit "\b"
   else if c =? 12 then lit "\f"
   else if (32 <=? c) && (c <=? 126) then [c]
   else if c <? 65536 then lit "\u" ++ hex4 c
   else let n := c - 65536 in
        lit "\u" ++ hex4 (55296 + (n / 1024) mod 1024)
        ++ lit "\u" ++ hex4 (56320 + n mod 1024))%N.

Definition json_string (s : str) : str :=
  [34%N] ++ flat_map json_escape_char s ++ [34%N].

End Py.

Import Py.

(* ================================================================== *)
(** * Library calls taken as an interface                              *)
(* ================================================================== *)

(** The six-field result of [urllib.parse.urlparse]. *)
Record ParseResult := {
  pr_scheme : str;
  pr_netloc : str;
  pr_path : str;
  pr_params : str;
  pr_query : str;
  pr_fragment : str
}.

(** The handler calls these; none of them is code of the repository, and
    their definitions are long (number syntax, shortest float printing, URL
    grammar). What the handler does with their results does not depend on
    how they compute them. Results typed [string] are ASCII text. *)
Class PyLib := {
  (** [int(s)] for a [str] *)
  py_int : str -> parse Z;
  (** [float(s)] for a [str] *)
  py_float : str -> parse float;
  (** [float.__repr__], which is also [str(f)] and what an f-string prints. *)
  float_repr : float -> string;
  (** [urllib.parse.urlparse(url)] *)
  urlparse : str -> parse ParseResult;
  (** [urllib.parse.parse_qs(qs)] *)
  parse_qs : str -> dict (list str);
  (** [BaseHTTPRequestHandler.responses[code][0]], the reason phrase. *)
  responses : Z -> option string;
  (** [self.version_string()] *)
  version_string : string;
  (** whether the runtime has the storage for a [bytes] object of that many
      bytes (where it has not, the allocation raises [MemoryError]) *)
  allocates : Z -> bool
}.

(** The protocol of the request, [self.request_version], which the library
    sets from the request line before it calls a method of the handler. The
    methods of the library that the handler calls make one test of it,
    [request_version != 'HTTP/0.9']: a request line without a version is an
    HTTP/0.9 request, and gets no status line and no header. *)
Class Protocol := {
  version_0_9 : bool               (* request_version == 'HTTP/0.9' *)
}.

(** A request of HTTP/1.0 or later. It is the protocol of every statement
    that names no other. *)
#[global] Instance http_1 : Protocol := {| version_0_9 := false |}.

(** A request line without a version, as in [GET /health]. *)
Definition http_0_9 : Protocol := {| version_0_9 := true |}.

(** What a request finds outside the handler object. *)
Record world := {
  (** [os.environ] while the request is handled *)
  environ : dict str;
  (** the value the k-th call of [time.time()] returns, k = 0, 1, ... *)
  clock : nat -> float;
  (** [self.date_time_string()] *)
  date_time_string : string;
  (** the global [server_start_time] that [main] has set *)
  server_start_time : float
}.

(** The attributes of the handler object ([self]) that the methods read. *)
Record request := {
  path : str;                     (* self.path: the request target *)
  headers : list (str * str);     (* self.headers, in order *)
  rfile : bytes;                  (* what self.rfile delivers until EOF *)
  client_address : str * Z        (* self.client_address *)
}.

(** [os.getenv(key, default)] *)
Definition getenv (w : world) (key : string) (default : string) : str :=
  match dict_get (lit key) (environ w) with
  | Some v => v
  | None => lit default
  end.

(* ================================================================== *)
(** * CPython 3.11 as an instance                                      *)
(* ================================================================== *)

(** The library calls as CPython 3.11 computes them, for text whose code
    points are below 256: decimal digits and letters outside that range
    (which [int], [float] and [repr] also know) are not recognised here. The
    instance serves to run the handler on concrete requests. *)
Module CPython.

(** White space that [int] and [float] strip: the C locale's below 128,
    Unicode's above. *)
Definition is_space (c : N) : bool :=
  (between 9 c 13 || (c =? 32) || (c =? 133) || (c =? 160) || (c =? 5760)
   || between 8192 c 8202 || (c =? 8232) || (c =? 8233) || (c =? 8239)
   || (c =? 8287) || (c =? 12288))%N.

Definition is_digit (c : N) : bool := between 48 c 57.

Fixpoint drop_spaces (s : str) : str :=
  match s with
  | c :: s' => if is_space c then drop_spaces s' else s
  | [] => []
  end.

Definition strip_spaces (s : str) : str :=
  rev (drop_spaces (rev (drop_spaces s))).

(** Underscores may stand between two digits only. [prev] is the character
    before [s], 0 at the start. *)
Fixpoint underscores_ok (prev : N) (s : str) : bool :=
  match s with
  | [] => negb (prev =? 95)%N
  | c :: s' =>
      (if (c =? 95)%N then is_digit prev
       else negb (prev =? 95)%N || is_digit c)
      && underscores_ok c s'
  end.

Definition without_underscores (s : str) : str :=
  filter (fun c => negb (c =? 95)%N) s.

(** The longest prefix of digits, as their values, and the rest. *)
Fixpoint take_digits (s : str) : list Z * str :=
  match s with
  | c :: s' =>
      if is_digit c
      then let (ds, r) := take_digits s' in (Z.of_N (c - 48) :: ds, r)
      else ([], s)
  | [] => ([], [])
  end.

Definition of_digits (ds : list Z) : Z :=
  fold_left (fun acc d => 10 * acc + d) ds 0.

(** An optional sign: [true] for minus. *)
Definition take_sign (s : str) : bool * str :=
  match s with
  | 45%N :: s' => (true, s')
  | 43%N :: s' => (false, s')
  | _ => (false, s)
  end.

(** [repr(s)] of a [str]. *)
Definition hex2 (n : N) : str := [hex_digit ((n / 16) mod 16); hex_digit (n mod 16)]%N.

Definition printable (c : N) : bool :=
  (between 32 c 126 || between 161 c 172 || (174 <=? c))%N.

Definition repr_char (quote c : N) : str :=
  (if (c =? quote) || (c =? 92) then [92; c]
   else if c =? 9 then lit "\t"
   else if c =? 10 then lit "\n"
   else if c =? 13 then lit "\r"
   else if printable c then [c]
   else if c <? 256 then lit "\x" ++ hex2 c
   else if c <? 65536 then lit "\u" ++ hex4 c
   else lit "\U" ++ hex4 (c / 65536) ++ hex4 (c mod 65536))%N.

Definition str_repr (s : str) : str :=
  let quote := if existsb (N.eqb 39) s && negb (existsb (N.eqb 34) s)
               then 34%N else 39%N in
  [quote] ++ flat_map (repr_char quote) s ++ [quote].

(** ** [int(s)] *)

Definition int_error (s : str) : str :=
  lit "invalid literal for int() with base 10: " ++ str_repr s.

Definition py_int (s : str) : parse Z :=
  let (neg, body) := take_sign (strip_spaces s) in
  if underscores_ok 0 body then
    match take_digits (without_underscores body) with
    | (d :: ds, []) =>
        if (4300 <? List.length (d :: ds))%nat then
          Invalid
            (lit "Exceeds the limit (4300 digits) for integer string conversion: value has "
             ++ str_of_int (Z.of_nat (List.length (d :: ds)))
             ++ lit " digits; use sys.set_int_max_str_digits() to increase the limit")
        else Parsed (if neg then - of_digits (d :: ds) else of_digits (d :: ds))
    | _ => Invalid (int_error s)
    end
  else Invalid (int_error s).

(** ** [float(s)] *)

Definition float_error (s : str) : str :=
  lit "could not convert string to float: " ++ str_repr s.

(** ASCII letters without case. *)
Definition fold_case (s : str) : str :=
  map (fun c => if between 65 c 90 then (c + 32)%N else c) s.

Definition pow10 (n : Z) : Z := 10 ^ n.

(** The float nearest to [m * 10^e], ties to even. A value of [nd] digits
    at or above 10^309 is beyond the largest float; one below 10^-324 is
    less than half the smallest. *)
Definition decimal_to_float (neg : bool) (m e : Z) : float :=
  if m <=? 0 then S754_zero neg
  else
    let nd := Z.of_nat (List.length (str_of_int m)) in
    if 309 <=? nd - 1 + e then S754_infinity neg
    else if nd + e <=? -324 then S754_zero neg
    else if 0 <=? e then binary_round prec emax neg (Z.to_pos (m * pow10 e)) 0
    else
      let '(q, e', loc) := SFdiv_core_binary prec emax m 0 (pow10 (- e)) 0 in
      binary_round_aux prec emax neg q e' loc.

Definition py_float (s : str) : parse float :=
  let t := strip_spaces s in
  if underscores_ok 0 t then
    let (neg, body) := take_sign (without_underscores t) in
    let low := fold_case body in
    if str_eqb low (lit "inf") || str_eqb low (lit "infinity")
    then Parsed (S754_infinity neg)
    else if str_eqb low (lit "nan") then Parsed S754_nan
    else
      let (ip, r1) := take_digits body in
      let (fp, r2) := match r1 with
                      | 46%N :: r => take_digits r
                      | _ => ([], r1)
                      end in
      let m := of_digits (ip ++ fp) in
      let scale := Z.of_nat (List.length fp) in
      match ip ++ fp, r2 with
      | [], _ => Invalid (float_error s)
      | _, [] => Parsed (decimal_to_float neg m (- scale))
      | _, c :: r3 =>
          if ((c =? 101) || (c =? 69))%N then
            let (eneg, r4) := take_sign r3 in
            match take_digits r4 with
            | (d :: ds, []) =>
                let x := of_digits (d :: ds) in
                Parsed (decimal_to_float neg m ((if eneg then - x else x) - scale))
            | _ => Invalid (float_error s)
            end
          else Invalid (float_error s)
      end
  else Invalid (float_error s).

(** ** [repr(f)] of a float: the shortest digits that read back as [f] *)

(** The integer nearest to [n / d], ties to even ([n >= 0], [d > 0]). *)
Definition round_div (n d : Z) : Z :=
  let (q, r) := Z.div_eucl n d in
  match 2 * r ?= d with
  | Lt => q
  | Gt => q + 1
  | Eq => if Z.even q then q else q + 1
  end.

(** [num / den * 10^k], rounded to an integer. *)
Definition scaled (num den k : Z) : Z :=
  if 0 <=? k then round_div (num * pow10 k) den
  else round_div num (den * pow10 (- k)).

(** Is [num / den >= 10^k]? *)
Definition at_least_pow10 (num den k : Z) : bool :=
  if 0 <=? k then den * pow10 k <=? num else den <=? num * pow10 (- k).

(** The least [k' >= k] with [num / den < 10^k']. *)
Fixpoint find_decpt (fuel : nat) (num den k : Z) : Z :=
  match fuel with
  | O => k
  | S fuel' =>
      if at_least_pow10 num den k then find_decpt fuel' num den (k + 1) else k
  end.

Definition float_same (a b : float) : bool :=
  match SFcompare a b with Some Eq => true | _ => false end.

(** With [n] = 17 - [fuel] + 1 digits onwards: the first count of digits at
    which the nearest decimal reads back as [x]; the digits as an integer
    and the position of the decimal point. *)
Fixpoint shortest (fuel : nat) (n : Z) (x : float) (num den k : Z) : Z * Z :=
  let d := scaled num den (n - k) in
  let '(d, k') := if d =? pow10 n then (pow10 (n - 1), k + 1) else (d, k) in
  match fuel with
  | O => (d, k')
  | S fuel' =>
      if float_same (decimal_to_float false d (k' - n)) x then (d, k')
      else shortest fuel' (n + 1) x num den k
  end.

Definition zeros (n : Z) : str := repeat 48%N (Z.to_nat n).

(** The digits [ds] with the decimal point after the first [decpt] of them,
    in the layout of [repr]: an exponent from 1e16 and below 1e-4. *)
Definition layout (ds : str) (decpt : Z) : str :=
  let nd := Z.of_nat (List.length ds) in
  if (decpt <=? -4) || (16 <? decpt) then
    let e := decpt - 1 in
    let ex := str_of_int (Z.abs e) in
    firstn 1 ds
    ++ (match skipn 1 ds with [] => [] | r => lit "." ++ r end)
    ++ lit "e" ++ (if e <? 0 then lit "-" else lit "+")
    ++ (if Z.abs e <? 10 then lit "0" else []) ++ ex
  else if decpt <=? 0 then lit "0." ++ zeros (- decpt) ++ ds
  else if nd <=? decpt then ds ++ zeros (decpt - nd) ++ lit ".0"
  else firstn (Z.to_nat decpt) ds ++ lit "." ++ skipn (Z.to_nat decpt) ds.

Definition float_repr_str (f : float) : str :=
  match f with
  | S754_nan => lit "nan"
  | S754_infinity s => if s then lit "-inf" else lit "inf"
  | S754_zero s => if s then lit "-0.0" else lit "0.0"
  | S754_finite s m e =>
      let num := if 0 <=? e then Zpos m * 2 ^ e else Zpos m in
      let den := if 0 <=? e then 1 else 2 ^ (- e) in
      let bits := Zdigits2 (Zpos m) + e in
      let k := find_decpt 6 num den (((bits - 1) * 30103) / 100000 - 1) in
      let '(d, k') := shortest 16 1 (S754_finite false m e) num den k in
      (if s then lit "-" else [])
      ++ layout (rev (lstrip 48 (rev (str_of_int d)))) k'
  end.

Definition to_string (s : str) : string :=
  string_of_list_ascii (map ascii_of_N s).

Definition float_repr (f : float) : string := to_string (float_repr_str f).

(** ** [urllib.parse] *)

(** [s.partition(c)] when [c] occurs: the text before its first occurrence
    and the text after it. *)
Fixpoint break_at (c : N) (s : str) : option (str * str) :=
  match s with
  | [] => None
  | x :: s' =>
      if (x =? c)%N then Some ([], s')
      else match break_at c s' with
           | Some (a, b) => Some (x :: a, b)
           | None => None
           end
  end.

(** The same at the last occurrence. *)
Definition break_last (c : N) (s : str) : option (str * str) :=
  match break_at c (rev s) with
  | Some (a, b) => Some (rev b, rev a)
  | None => None
  end.

(** [url.lstrip(...)] of the C0 controls and the space. *)
Fixpoint lstrip_c0 (s : str) : str :=
  match s with
  | c :: s' => if (c <=? 32)%N then lstrip_c0 s' else s
  | [] => []
  end.

Definition scheme_char (c : N) : bool :=
  (between 97 c 122 || between 65 c 90 || between 48 c 57
   || (c =? 43) || (c =? 45) || (c =? 46))%N.

Definition uses_params : list string :=
  [ EmptyString; "ftp"; "hdl"; "prospero"; "http"; "imap"; "https"; "shttp";
    "rtsp"; "rtspu"; "sip"; "sips"; "mms"; "sftp"; "tel" ]%string.

(** The scheme before the first colon, if there is one. *)
Definition split_scheme (url : str) : str * str :=
  match url, break_at 58 url with
  | c0 :: _, Some (c :: cs, rest) =>
      if (between 65 c0 90 || between 97 c0 122) && forallb scheme_char (c :: cs)
      then (fold_case (c :: cs), rest)
      else ([], url)
  | _, _ => ([], url)
  end.

(** [_splitnetloc(url, 2)]: up to the first of [/], [?] and [#]. *)
Fixpoint split_netloc (s : str) : str * str :=
  match s with
  | [] => ([], [])
  | c :: s' =>
      if ((c =? 47) || (c =? 63) || (c =? 35))%N then ([], s)
      else let (a, b) := split_netloc s' in (c :: a, b)
  end.

Definition _splitparams (url : str) : str * str :=
  match break_last 47 url with
  | Some (dir, last) =>
      match break_at 59 last with
      | Some (name, params) => (dir ++ [47%N] ++ name, params)
      | None => (url, [])
      end
  | None =>
      match break_at 59 url with
      | Some (name, params) => (name, params)
      | None => (url, [])
      end
  end.

(** [urlparse(url)]. A network location with a bracket in it is refused
    here, where the library goes on to validate a bracketed address and
    accepts a well-formed one: the instance is not to be run on such a
    target. *)
Definition urlparse (url : str) : parse ParseResult :=
  let url := lstrip_c0 url in
  let url := filter (fun c => negb ((c =? 9) || (c =? 13) || (c =? 10))%N) url in
  let (scheme, url) := split_scheme url in
  let (netloc, url) := match url with
                       | 47%N :: 47%N :: r => split_netloc r
                       | _ => ([], url)
                       end in
  if existsb (fun c => (c =? 91) || (c =? 93))%N netloc then
    Invalid (lit "Invalid IPv6 URL")
  else
    let (url, fragment) := match break_at 35 url with
                           | Some (a, b) => (a, b)
                           | None => (url, [])
                           end in
    let (url, query) := match break_at 63 url with
                        | Some (a, b) => (a, b)
                        | None => (url, [])
                        end in
    let (url, params) :=
      if existsb (fun u => str_eqb (lit u) scheme) uses_params
         && existsb (N.eqb 59) url
      then _splitparams url else (url, []) in
    Parsed {| pr_scheme := scheme; pr_netloc := netloc; pr_path := url;
           pr_params := params; pr_query := query; pr_fragment := fragment |}.

(** [b.decode("utf-8", "replace")]: each ill-formed run, cut where it stops
    being the start of a character, becomes U+FFFD. *)
Definition second_ok (b0 b1 : N) : bool :=
  (if b0 =? 224 then between 160 b1 191
   else if b0 =? 237 then between 128 b1 159
   else if b0 =? 240 then between 144 b1 191
   else if b0 =? 244 then between 128 b1 143
   else cont b1)%N.

Fixpoint utf8_decode_replace (bs : list N) : str :=
  (match bs with
   | [] => []
   | b0 :: r0 =>
       if b0 <? 128 then b0 :: utf8_decode_replace r0
       else if between 194 b0 223 then
         match r0 with
         | b1 :: r1 =>
             if cont b1
             then ((b0 - 192) * 64 + (b1 - 128)) :: utf8_decode_replace r1
             else 65533 :: utf8_decode_replace r0
         | [] => [65533]
         end
       else if between 224 b0 239 then
         match r0 with
         | b1 :: r1 =>
             if second_ok b0 b1 then
               match r1 with
               | b2 :: r2 =>
                   if cont b2
                   then ((b0 - 224) * 4096 + (b1 - 128) * 64 + (b2 - 128))
                        :: utf8_decode_replace r2
                   else 65533 :: utf8_decode_replace r1
               | [] => [65533]
               end
             else 65533 :: utf8_decode_replace r0
         | [] => [65533]
         end
       else if between 240 b0 244 then
         match r0 with
         | b1 :: r1 =>
             if second_ok b0 b1 then
               match r1 with
               | b2 :: r2 =>
                   if cont b2 then
                     match r2 with
                     | b3 :: r3 =>
                         if cont b3
                         then ((b0 - 240) * 262144 + (b1 - 128) * 4096
                               + (b2 - 128) * 64 + (b3 - 128))
                              :: utf8_decode_replace r3
                         else 65533 :: utf8_decode_replace r2
                     | [] => [65533]
                     end
                   else 65533 :: utf8_decode_replace r1
               | [] => [65533]
               end
             else 65533 :: utf8_decode_replace r0
         | [] => [65533]
         end
       else 65533 :: utf8_decode_replace r0
   end)%N.

Definition hex_value (c : N) : option N :=
  (if between 48 c 57 then Some (c - 48)
   else if between 97 c 102 then Some (c - 87)
   else if between 65 c 70 then Some (c - 55)
   else None)%N.

(** [unquote(s)]: within each run of ASCII characters, [%xx] stands for a
    byte, and the bytes of the run are decoded together; [pending] holds
    the bytes of the run so far, last first. *)
Fixpoint unquote_run (pending : list N) (s : str) : str :=
  let flush := utf8_decode_replace (rev pending) in
  match s with
  | [] => flush
  | c :: s' =>
      if (128 <=? c)%N then flush ++ c :: unquote_run [] s'
      else
        match s' with
        | h1 :: h2 :: s'' =>
            match (c =? 37)%N, hex_value h1, hex_value h2 with
            | true, Some v1, Some v2 => unquote_run ((16 * v1 + v2)%N :: pending) s''
            | _, _, _ => unquote_run (c :: pending) s'
            end
        | _ => unquote_run (c :: pending) s'
        end
  end.

Definition unquote (s : str) : str := unquote_run [] s.

(** [parsed_result[name].append(value)], or a new entry. *)
Fixpoint dict_append (name value : str) (d : dict (list str)) : dict (list str) :=
  match d with
  | [] => [(name, [value])]
  | (k, vs) :: d' =>
      if str_eqb name k then (k, vs ++ [value]) :: d'
      else (k, vs) :: dict_append name value d'
  end.

Definition plus_to_space (s : str) : str :=
  map (fun c => if (c =? 43)%N then 32%N else c) s.

(** [parse_qs(qs)]: fields without [=] or with an empty value are
    skipped. *)
Definition parse_qs (qs : str) : dict (list str) :=
  fold_left
    (fun d name_value =>
            match break_at 61 name_value with
            | Some (name, c :: value) =>
                dict_append (unquote (plus_to_space name))
                            (unquote (plus_to_space (c :: value))) d
            | _ => d
            end)
    (split 38 qs) [].

(** ** [http.server] *)

Definition responses_table : list (Z * string) :=
  [
    (100, "Continue");
    (101, "Switching Protocols");
    (102, "Processing");
    (103, "Early Hints");
    (200, "OK");
    (201, "Created");
    (202, "Accepted");
    (203, "Non-Authoritative Information");
    (204, "No Content");
    (205, "Reset Content");
    (206, "Partial Content");
    (207, "Multi-Status");
    (208, "Already Reported");
    (226, "IM Used");
    (300, "Multiple Choices");
    (301, "Moved Permanently");
    (302, "Found");
    (303, "See Other");
    (304, "Not Modified");
    (305, "Use Proxy");
    (307, "Temporary Redirect");
    (308, "Permanent Redirect");
    (400, "Bad Request");
    (401, "Unauthorized");
    (402, "Payment Required");
    (403, "Forbidden");
    (404, "Not Found");
    (405, "Method Not Allowed");
    (406, "Not Acceptable");
    (407, "Proxy Authentication Required");
    (408, "Request Timeout");
    (409, "Conflict");
    (410, "Gone");
    (411, "Length Required");
    (412, "Precondition Failed");
    (413, "Request Entity Too Large");
    (414, "Request-URI Too Long");
    (415, "Unsupported Media Type");
    (416, "Requested Range Not Satisfiable");
    (417, "Expectation Failed");
    (418, "I'm a Teapot");
    (421, "Misdirected Request");
    (422, "Unprocessable Entity");
    (423, "Locked");
    (424, "Failed Dependency");
    (425, "Too Early");
    (426, "Upgrade Required");
    (428, "Precondition Required");
    (429, "Too Many Requests");
    (431, "Request Header Fields Too Large");
    (451, "Unavailable For Legal Reasons");
    (500, "Internal Server Error");
    (501, "Not Implemented");
    (502, "Bad Gateway");
    (503, "Service Unavailable");
    (504, "Gateway Timeout");
    (505, "HTTP Version Not Supported");
    (506, "Variant Also Negotiates");
    (507, "Insufficient Storage");
    (508, "Loop Detected");
    (510, "Not Extended");
    (511, "Network Authentication Required")
  ]%string.

Definition responses (code : Z) : option string :=
  option_map snd (find (fun r => fst r =? code) responses_table).

(** The instance is a machine that has storage for a [bytes] object of up
    to 2^30 bytes. *)
Definition allocates (n : Z) : bool := n <=? 2 ^ 30.

Definition lib : PyLib :=
  Build_PyLib py_int py_float float_repr urlparse parse_qs responses
              "BaseHTTP/0.6 Python/3.11.2" allocates.

End CPython.

(* ================================================================== *)
(** * [json.dumps]                                                     *)
(* ================================================================== *)

Module Json.
Section Dumps.
Context {lib : PyLib}.

(** The encoder's [floatstr]. *)
Definition floatstr (f : float) : str :=
  match f with
  | S754_nan => lit "NaN"
  | S754_infinity false => lit "Infinity"
  | S754_infinity true => lit "-Infinity"
  | _ => lit (float_repr f)
  end.

Definition spaces (n : nat) : str := repeat 32%N n.

(** The text between two items, before the first and after the last one,
    at nesting depth [lvl]; [indent = None] is the compact default. *)
Definition item_sep (indent : option nat) (lvl : nat) : str :=
  match indent with
  | None => lit ", "
  | Some n => lit "," ++ [10%N] ++ spaces (n * lvl)
  end.

Definition lead (indent : option nat) (lvl : nat) : str :=
  match indent with
  | None => []
  | Some n => [10%N] ++ spaces (n * lvl)
  end.

(** [json.dumps(v, indent=indent)], at depth [lvl] (0 at the top). *)
Fixpoint dumps_at (indent : option nat) (lvl : nat) (v : json) : str :=
  match v with
  | JNull => lit "null"
  | JBool true => lit "true"
  | JBool false => lit "false"
  | JInt z => str_of_int z
  | JFloat f => floatstr f
  | JStr s => json_string s
  | JList [] => lit "[]"
  | JList l =>
      lit "[" ++ lead indent (S lvl)
      ++ join (item_sep indent (S lvl)) (map (dumps_at indent (S lvl)) l)
      ++ lead indent lvl ++ lit "]"
  | JObj [] => lit "{}"
  | JObj kv =>
      lit "{" ++ lead indent (S lvl)
      ++ join (item_sep indent (S lvl))
           (map (fun p => match p with
                          | (k, x) => json_string k ++ lit ": "
                                      ++ dumps_at indent (S lvl) x
                          end) kv)
      ++ lead indent lvl ++ lit "}"
  end.

Definition dumps (v : json) : str := dumps_at None 0 v.
Definition dumps_indent (n : nat) (v : json) : str := dumps_at (Some n) 0 v.

End Dumps.
End Json.

(* ================================================================== *)
(** * The handler's effects                                            *)
(* ================================================================== *)

Module Http.

(** One buffered line of the response head. *)
Inductive hline :=
| StatusLine (version : str) (code : Z) (message : str)
| Header (keyword value : str).

(** What a request does that the client or the clock can observe. *)
Inductive event :=
| Sleep (secs : float)            (* time.sleep(secs) returned *)
| WriteHead (lines : list hline)  (* flush_headers: the lines, then the blank line *)
| WriteBody (data : bytes).       (* self.wfile.write(data) *)

Record hstate := {
  _headers_buffer : list hline;
  trace : list event;             (* oldest first *)
  time_calls : nat                (* calls of time.time() so far *)
}.

Definition initial : hstate :=
  {| _headers_buffer := []; trace := []; time_calls := 0 |}.

(** State and exception: a raised exception keeps the state it was raised
    in (what was written stays written). *)
Definition M (A : Type) : Type := hstate -> outcome A * hstate.

Definition ret {A} (a : A) : M A := fun st => (Ret a, st).

Definition bind {A B} (m : M A) (k : A -> M B) : M B :=
  fun st =>
    match m st with
    | (Ret a, st') => k a st'
    | (Raise e, st') => (Raise e, st')
    end.

Definition raise {A} (e : exn) : M A := fun st => (Raise e, st).

(** A call of a function that may raise. *)
Definition call {A} (o : outcome A) : M A := fun st => (o, st).

(** [try: m  except <caught>: h e] *)
Definition try_except {A} (m : M A) (caught : exn -> bool) (h : exn -> M A) : M A :=
  fun st =>
    match m st with
    | (Raise e, st') => if caught e then h e st' else (Raise e, st')
    | r => r
    end.

Definition emit (e : event) : M unit :=
  fun st => (Ret tt, {| _headers_buffer := _headers_buffer st;
                        trace := trace st ++ [e];
                        time_calls := time_calls st |}).

Declare Scope py_scope.
Delimit Scope py_scope with py.
Notation "x <- m ;; k" := (bind m (fun x => k))
  (at level 61, m at next level, right associativity) : py_scope.
Notation "m ;; k" := (bind m (fun _ => k))
  (at level 61, right associativity) : py_scope.
Local Open Scope py_scope.

Section Api.
Context {lib : PyLib} {proto : Protocol} (w : world).

(** [time.time()] *)
Definition time_time : M float :=
  fun st => (Ret (clock w (time_calls st)),
             {| _headers_buffer := _headers_buffer st;
                trace := trace st;
                time_calls := S (time_calls st) |}).

(** [time.sleep] converts its argument to a count of nanoseconds in 64
    bits, [secs * 1e9] in binary64, and accepts a count from -2^63 to 2^63.
    [wrap_point] is the one float whose count is 2^63 itself, which the
    conversion to a 64-bit integer wraps to the least one (on x86-64), a
    negative wait; [convert_limit], the next float, is the least whose
    count is refused. *)
Definition wrap_point : float := S754_finite false 4835703278458517 (-19).
Definition convert_limit : float := S754_finite false 4835703278458518 (-19).

(** The wait up to which the sleep call of the platform is taken to
    succeed. Linux refuses a deadline of 9223372036 s after boot or later
    ([EINVAL]), so that a longer wait ends by an [OSError]; a wait that is
    shorter by less than the time since boot is refused too, which is left
    out here: no wait below [sleep_limit] is refused. *)
Definition sleep_limit : float := float_of_int 9223372036.

(** [time.sleep(secs)]: the argument is converted first, then its sign is
    checked, then the platform is asked to wait. *)
Definition time_sleep (secs : float) : M unit :=
  if is_nan secs then
    raise (ValueError (lit "Invalid value NaN (not a number)"))
  else if fle convert_limit (SFabs secs) then
    raise (OverflowError (lit "timestamp too large to convert to C _PyTime_t"))
  else if flt secs (float_of_int 0) || SFeqb secs wrap_point then
    raise (ValueError (lit "sleep length must be non-negative"))
  else if flt sleep_limit secs then
    raise (OSError (lit "[Errno 22] Invalid argument"))
  else emit (Sleep secs).

Definition protocol_version : str := lit "HTTP/1.0".

Definition buffer_line (l : hline) : M unit :=
  fun st => (Ret tt, {| _headers_buffer := _headers_buffer st ++ [l];
                        trace := trace st;
                        time_calls := time_calls st |}).

(** [s.encode("latin-1", "strict")] of a line about to be buffered. *)
Definition check_latin1 (s : str) : M unit :=
  if latin1_ok s then ret tt
  else raise (UnicodeEncodeError (lit "'latin-1' codec can't encode character")).

(** [self.send_header(keyword, value)]: nothing for an HTTP/0.9
    request. *)
Definition send_header (keyword value : str) : M unit :=
  if version_0_9 then ret tt
  else
    check_latin1 (keyword ++ value) ;;
    buffer_line (Header keyword value).

(** [self.send_response_only(code)]: the status line with the table's
    reason phrase; nothing for an HTTP/0.9 request. *)
Definition send_response_only (code : Z) : M unit :=
  if version_0_9 then ret tt
  else
    let message := match responses code with
                   | Some phrase => lit phrase
                   | None => []
                   end in
    check_latin1 message ;;
    buffer_line (StatusLine protocol_version code message).

(** [self.send_response(code)]: the status line, then the library's own
    Server and Date headers. *)
Definition send_response (code : Z) : M unit :=
  send_response_only code ;;
  send_header (lit "Server") (lit version_string) ;;
  send_header (lit "Date") (lit (date_time_string w)).

(** [self.end_headers()]: the buffer goes out in one write and is emptied;
    nothing for an HTTP/0.9 request. *)
Definition end_headers : M unit :=
  if version_0_9 then ret tt
  else
    fun st => (Ret tt, {| _headers_buffer := [];
                          trace := trace st ++ [WriteHead (_headers_buffer st)];
                          time_calls := time_calls st |}).

(** [self.wfile.write(data)] *)
Definition wfile_write (data : bytes) : M unit := emit (WriteBody data).

End Api.

(** Running a method from the state of a fresh handler object. *)
Definition run {A} (m : M A) : outcome A * hstate := m initial.

End Http.

(* ================================================================== *)
(** * [self.headers]: an [email.message.Message]                       *)
(* ================================================================== *)

Module Msg.

(** [c.lower()] for a code point below 256 (header names are decoded as
    ISO-8859-1); other code points are left alone. *)
Definition lower_char (c : N) : N :=
  (if (65 <=? c) && (c <=? 90) then c + 32
   else if (192 <=? c) && (c <=? 222) && negb (c =? 215) then c + 32
   else c)%N.

Definition lower (s : str) : str := map lower_char s.

(** [msg.get(name)]: the value of the first header of that name, names
    compared without case. *)
Fixpoint get (name : str) (msg : list (str * str)) : option str :=
  match msg with
  | [] => None
  | (k, v) :: msg' =>
      if str_eqb (lower k) (lower name) then Some v else get name msg'
  end.

(** [dict(msg)]: for each name of [msg.keys()], in order, [d[name] =
    msg[name]]. *)
Definition to_dict (msg : list (str * str)) : dict str :=
  fold_left
    (fun d k => match get k msg with
                | Some v => dict_set k v d
                | None => d
                end)
    (map fst msg) [].

End Msg.

(* ================================================================== *)
(** * [MockHTTPHandler]                                                *)
(* ================================================================== *)

Module Mock.
Import Http.
Local Open Scope py_scope.

Definition slash : N := 47.

(** The default of [_send_response]'s [content_type]. *)
Definition application_json : str := lit "application/json".

Section Handler.
Context {lib : PyLib} {proto : Protocol} (w : world) (self : request).

(** [_send_response(status_code, content_type, body)], lines 47-64. *)
Definition _send_response (status_code : Z) (content_type : str)
    (body : option str) : M unit :=
  send_response w status_code ;;
  send_header (lit "Content-Type") content_type ;;
  send_header (lit "Access-Control-Allow-Origin") (lit "*") ;;
  send_header (lit "Server") (lit "painlessMesh-MockServer/1.0") ;;
  body <- match body with
          | Some b => ret b
          | None =>
              now <- time_time w ;;
              ret (Json.dumps (JObj
                [ (lit "status", JInt status_code);
                  (lit "message", JStr (match responses status_code with
                                        | Some phrase => lit phrase
                                        | None => lit "Unknown"
                                        end));
                  (lit "timestamp", JFloat now) ]))
          end ;;
  body_bytes <- call (encode_utf8 body) ;;
  send_header (lit "Content-Length")
              (str_of_int (Z.of_nat (List.length body_bytes))) ;;
  end_headers ;;
  wfile_write body_bytes.

(** [parsed.path.strip("/").split("/")] *)
Definition path_parts_of (parsed_path : str) : list str :=
  split slash (strip slash parsed_path).

(** [_parse_path()], lines 66-71. *)
Definition _parse_path : M (list str * dict (list str)) :=
  parsed <- call (of_parse (urlparse (path self))) ;;
  let path_parts := path_parts_of (pr_path parsed) in
  let query_params := parse_qs (pr_query parsed) in
  ret (path_parts, query_params).

(** [self.rfile.read(n)] for [n > 0], the stream being a buffered reader:
    the size is converted to a C [ssize_t], a [bytes] object of that size
    is allocated, and the stream delivers [n] bytes, or fewer when it ends
    first. *)
Definition rfile_read (n : Z) : outcome bytes :=
  if 2 ^ 63 <=? n then
    Raise (OverflowError (lit "cannot fit 'int' into an index-sized integer"))
  else if 2 ^ 63 - 33 <=? n then
    Raise (OverflowError (lit "byte string is too large"))
  else if allocates n then Ret (firstn (Z.to_nat n) (rfile self))
  else Raise (MemoryError []).

(** [_read_body()], lines 73-78. *)
Definition _read_body : M str :=
  content_length <- match Msg.get (lit "Content-Length") (headers self) with
                    | Some v => call (of_parse (py_int v))
                    | None => ret 0          (* int(0) *)
                    end ;;
  if 0 <? content_length
  then data <- call (rfile_read content_length) ;; call (decode_utf8 data)
  else ret [].

(** [do_OPTIONS()], lines 88-94. *)
Definition do_OPTIONS : M unit :=
  send_response w 200 ;;
  send_header (lit "Access-Control-Allow-Origin") (lit "*") ;;
  send_header (lit "Access-Control-Allow-Methods") (lit "GET, POST, OPTIONS") ;;
  send_header (lit "Access-Control-Allow-Headers") (lit "Content-Type") ;;
  end_headers.

(** [_handle_default()], lines 124-132. *)
Definition _handle_default : M unit :=
  status <- call (of_parse (py_int (getenv w "MOCK_HTTP_STATUS" "200"))) ;;
  now <- time_time w ;;
  let response := JObj
    [ (lit "message", JStr (lit "painlessMesh Mock HTTP Server"));
      (lit "status", JStr (lit "ok"));
      (lit "timestamp", JFloat now) ] in
  _send_response status application_json (Some (Json.dumps response)).

(** The dict [_handle_status] answers a valid code with. *)
Definition status_response (status_code : Z) (now : float) : json :=
  JObj
    [ (lit "requested_status", JInt status_code);
      (lit "message",
       JStr (lit "Mock response with status " ++ str_of_int status_code));
      (lit "timestamp", JFloat now) ].

(** The dict [_handle_status] answers anything else with. *)
Definition status_error (code_str : str) : json :=
  JObj
    [ (lit "error", JStr (lit "Invalid status code"));
      (lit "provided", JStr code_str) ].

(** [_handle_status(code_str)], lines 134-151. *)
Definition _handle_status (code_str : str) : M unit :=
  try_except
    (status_code <- call (of_parse (py_int code_str)) ;;
     (if (status_code <? 100) || (599 <? status_code)
      then raise (ValueError (lit "Invalid status code"))
      else ret tt) ;;
     now <- time_time w ;;
     _send_response status_code application_json
       (Some (Json.dumps (status_response status_code now))))
    is_ValueError
    (fun _ =>
       _send_response 400 application_json
         (Some (Json.dumps (status_error code_str)))).

(** The dict [_handle_delay] answers with after the wait. *)
Definition delay_response (delay now : float) : json :=
  JObj
    [ (lit "message",
       JStr (lit "Response delayed by " ++ lit (float_repr delay)
             ++ lit " seconds"));
      (lit "delay", JFloat delay);
      (lit "timestamp", JFloat now) ].

(** The dict [_handle_delay] answers a refused request with. *)
Definition delay_error (e : exn) (delay_str : str) : json :=
  JObj
    [ (lit "error", JStr (lit "Invalid delay: " ++ exn_str e));
      (lit "provided", JStr delay_str) ].

(** [_handle_delay(delay_str)], lines 153-171. *)
Definition _handle_delay (delay_str : str) : M unit :=
  try_except
    (delay <- call (of_parse (py_float delay_str)) ;;
     (if flt delay (float_of_int 0) || flt (float_of_int 300) delay
      then raise (ValueError (lit "Delay out of range"))
      else ret tt) ;;
     time_sleep delay ;;
     now <- time_time w ;;
     _send_response 200 application_json
       (Some (Json.dumps (delay_response delay now))))
    is_ValueError
    (fun e =>
       _send_response 400 application_json
         (Some (Json.dumps (delay_error e delay_str)))).

(** [_handle_timeout()], lines 173-180; the bare [except] catches
    everything. *)
Definition _handle_timeout : M unit :=
  try_except (time_sleep (float_of_int 3600)) (fun _ => true) (fun _ => ret tt).

(** The dict [_handle_echo] answers with. *)
Definition echo_response (method : str) (query_params : dict (list str))
    (body : option str) (now : float) : json :=
  JObj
    [ (lit "method", JStr method);
      (lit "path", JStr (path self));
      (lit "headers",
       JObj (map (fun kv => (fst kv, JStr (snd kv))) (Msg.to_dict (headers self))));
      (lit "query_params",
       JObj (map (fun kv => (fst kv, JList (map JStr (snd kv)))) query_params));
      (lit "body", match body with Some b => JStr b | None => JNull end);
      (lit "client", JStr (fst (client_address self)));
      (lit "timestamp", JFloat now) ].

(** [_handle_echo(method, query_params, body)], lines 182-193. *)
Definition _handle_echo (method : str) (query_params : dict (list str))
    (body : option str) : M unit :=
  now <- time_time w ;;
  _send_response 200 application_json
    (Some (Json.dumps_indent 2 (echo_response method query_params body now))).

(** [query_params.get(key, [None])[0]] *)
Definition get_first (query_params : dict (list str)) (key : string)
    : M (option str) :=
  match dict_get (lit key) query_params with
  | None => ret None
  | Some (v :: _) => ret (Some v)
  | Some [] => raise (IndexError (lit "list index out of range"))
  end.

(** [text[:50] + "..." if len(text) > 50 else text] *)
Definition shorten (text : str) : str :=
  if (50 <? List.length text)%nat then firstn 50 text ++ lit "..." else text.

Definition whatsapp_error (query_params : dict (list str)) : json :=
  JObj
    [ (lit "error", JStr (lit "Missing required parameters"));
      (lit "required", JList [JStr (lit "phone"); JStr (lit "apikey");
                              JStr (lit "text")]);
      (lit "provided", JList (map JStr (dict_keys query_params))) ].

Definition whatsapp_response (phone text : str) (now : float) : json :=
  JObj
    [ (lit "message", JStr (lit "WhatsApp message queued successfully"));
      (lit "phone", JStr phone);
      (lit "text", JStr (shorten text));
      (lit "timestamp", JFloat now) ].

(** [_handle_whatsapp(query_params)], lines 195-218. The test
    [not phone or not apikey or not text] fails exactly when the three are
    non-empty strings. *)
Definition _handle_whatsapp (query_params : dict (list str)) : M unit :=
  phone <- get_first query_params "phone" ;;
  apikey <- get_first query_params "apikey" ;;
  text <- get_first query_params "text" ;;
  match phone, apikey, text with
  | Some ((_ :: _) as phone), Some (_ :: _), Some ((_ :: _) as text) =>
      now <- time_time w ;;
      _send_response 200 application_json
        (Some (Json.dumps (whatsapp_response phone text now)))
  | _, _, _ =>
      _send_response 400 application_json
        (Some (Json.dumps (whatsapp_error query_params)))
  end.

(** [_handle_health()], lines 220-229. *)
Definition _handle_health : M unit :=
  t1 <- time_time w ;;
  t2 <- time_time w ;;
  let response := JObj
    [ (lit "status", JStr (lit "healthy"));
      (lit "server", JStr (lit "painlessMesh-MockServer"));
      (lit "version", JStr (lit "1.0.0"));
      (lit "uptime", JFloat (fsub t1 (server_start_time w)));
      (lit "timestamp", JFloat t2) ] in
  _send_response 200 application_json (Some (Json.dumps response)).

(** [_handle_not_found()], lines 231-246. *)
Definition _handle_not_found : M unit :=
  let response := JObj
    [ (lit "error", JStr (lit "Endpoint not found"));
      (lit "path", JStr (path self));
      (lit "available_endpoints",
       JList (map (fun s => JStr (lit s))
                [ "/"; "/status/{code}"; "/delay/{seconds}"; "/timeout";
                  "/echo"; "/whatsapp"; "/health" ]%string)) ] in
  _send_response 404 application_json (Some (Json.dumps response)).

(** The [if]/[elif] chain of [_handle_request], lines 106-122. *)
Definition dispatch (method : str) (path_parts : list str)
    (query_params : dict (list str)) (body : option str) : M unit :=
  match path_parts with
  | [] => _handle_default
  | p0 :: rest =>
      if str_eqb p0 [] then _handle_default
      else if str_eqb p0 (lit "status") && (1 <? List.length path_parts)%nat
      then _handle_status (hd [] rest)
      else if str_eqb p0 (lit "delay") && (1 <? List.length path_parts)%nat
      then _handle_delay (hd [] rest)
      else if str_eqb p0 (lit "timeout") then _handle_timeout
      else if str_eqb p0 (lit "echo") then _handle_echo method query_params body
      else if str_eqb p0 (lit "whatsapp") then _handle_whatsapp query_params
      else if str_eqb p0 (lit "health") then _handle_health
      else _handle_not_found
  end.

(** The first two lines of [_handle_request], 98-99: the path, and the
    body of a POST. *)
Definition read_request (method : str)
    : M (list str * dict (list str) * option str) :=
  pq <- _parse_path ;;
  body <- (if str_eqb method (lit "POST")
           then b <- _read_body ;; ret (Some b)
           else ret None) ;;
  ret (pq, body).

(** The delay of the environment, lines 101-104. *)
Definition apply_default_delay : M unit :=
  default_delay <- call (of_parse (py_float (getenv w "MOCK_HTTP_DELAY" "0"))) ;;
  if flt (float_of_int 0) default_delay
  then time_sleep default_delay
  else ret tt.

(** [_handle_request(method)], lines 96-122. *)
Definition _handle_request (method : str) : M unit :=
  r <- read_request method ;;
  apply_default_delay ;;
  dispatch method (fst (fst r)) (snd (fst r)) (snd r).

(** [do_GET()] and [do_POST()], lines 80-86. *)
Definition do_GET : M unit := _handle_request (lit "GET").
Definition do_POST : M unit := _handle_request (lit "POST").

End Handler.

(** [main]'s listening address, lines 260-276: the defaults of [--host]
    and [--port] are read from the environment when the parser is built,
    and a flag given on the command line replaces its default. *)
Definition server_address {lib : PyLib} (w0 : world)
    (flag_host : option str) (flag_port : option Z) : outcome (str * Z) :=
  match of_parse (py_int (getenv w0 "MOCK_HTTP_PORT" "8080")) with
  | Raise e => Raise e
  | Ret default_port =>
      let default_host := getenv w0 "MOCK_HTTP_HOST" "0.0.0.0" in
      Ret (match flag_host with Some h => h | None => default_host end,
           match flag_port with Some p => p | None => default_port end)
  end.

(** One request, handled by a new handler object: the library calls the
    method named after the request's command ([None]: a command the class
    has no method for, and any command but GET on a request line without a
    version, which the library answers itself). *)
Definition handle {lib : PyLib} {proto : Protocol} (w : world) (self : request)
    (command : string)
    : option (outcome unit * hstate) :=
  if version_0_9 && negb (String.eqb command "GET") then None
  else if String.eqb command "GET" then Some (run (do_GET w self))
  else if String.eqb command "POST" then Some (run (do_POST w self))
  else if String.eqb command "OPTIONS" then Some (run (do_OPTIONS w))
  else None.

End Mock.

(* ================================================================== *)
(** * The vocabulary of the properties                                 *)
(* ================================================================== *)

Module Spec.
Import Http.

(** The bytes of a text that encodes (no bytes for one that does not). *)
Definition utf8_bytes (text : str) : bytes :=
  match utf8_encode text with
  | Some b => b
  | None => []
  end.

Section Vocabulary.
Context {lib : PyLib} (w : world).

Definition reason (status_code : Z) : str :=
  match responses status_code with
  | Some phrase => lit phrase
  | None => []
  end.

(** The lines [_send_response] buffers for a body of [data]. *)
Definition response_head (status_code : Z) (content_type : str) (data : bytes)
    : list hline :=
  [ StatusLine protocol_version status_code (reason status_code);
    Header (lit "Server") (lit version_string);
    Header (lit "Date") (lit (date_time_string w));
    Header (lit "Content-Type") content_type;
    Header (lit "Access-Control-Allow-Origin") (lit "*");
    Header (lit "Server") (lit "painlessMesh-MockServer/1.0");
    Header (lit "Content-Length") (str_of_int (Z.of_nat (List.length data))) ].

(** The text [_send_response] sends: the body it is given, or the default
    it builds at the [ticks]-th reading of the clock. *)
Definition body_text (status_code : Z) (body : option str) (ticks : nat) : str :=
  match body with
  | Some b => b
  | None =>
      Json.dumps (JObj
        [ (lit "status", JInt status_code);
          (lit "message", JStr (match responses status_code with
                                | Some phrase => lit phrase
                                | None => lit "Unknown"
                                end));
          (lit "timestamp", JFloat (clock w ticks)) ])
  end.

(** One JSON response on the wire: the head, then the body. *)
Definition reply (status_code : Z) (text : str) : list event :=
  [ WriteHead (response_head status_code Mock.application_json (utf8_bytes text));
    WriteBody (utf8_bytes text) ].

(** A handler in state [st] answers with one JSON response after [ticks]
    more readings of the clock, and returns. *)
Definition replied (st : hstate) (status_code : Z) (text : str) (ticks : nat)
    : outcome unit * hstate :=
  (Ret tt,
   {| _headers_buffer := [];
      trace := trace st
               ++ [ WriteHead (_headers_buffer st
                               ++ response_head status_code Mock.application_json
                                    (utf8_bytes text));
                    WriteBody (utf8_bytes text) ];
      time_calls := ticks + time_calls st |}).

(** The state of a handler that has done [events], called [time.time()]
    [ticks] times and has nothing left in its buffer. *)
Definition finished (events : list event) (ticks : nat) : outcome unit * hstate :=
  (Ret tt, {| _headers_buffer := []; trace := events; time_calls := ticks |}).

End Vocabulary.

(** The state after a wait of [secs]. *)
Definition slept (st : hstate) (secs : float) : hstate :=
  {| _headers_buffer := _headers_buffer st;
     trace := trace st ++ [Sleep secs];
     time_calls := time_calls st |}.

(** The wait that a delay of [d] in the environment makes. *)
Definition default_wait (d : float) : list event :=
  if flt (float_of_int 0) d then [Sleep d] else [].

(** What a response of the helper carries. *)
Definition envelope (content_type : str) (lines : list hline) (data : bytes) : Prop :=
  In (Header (lit "Content-Length") (str_of_int (Z.of_nat (List.length data)))) lines
  /\ In (Header (lit "Access-Control-Allow-Origin") (lit "*")) lines
  /\ In (Header (lit "Content-Type") content_type) lines
  /\ In (Header (lit "Server") (lit "painlessMesh-MockServer/1.0")) lines.

(** A trace in which every head written is followed by its body and
    carries the envelope of a JSON response. *)
Inductive framed : list event -> Prop :=
| framed_nil : framed []
| framed_sleep secs tr : framed tr -> framed (Sleep secs :: tr)
| framed_reply lines data tr :
    envelope Mock.application_json lines data ->
    framed tr ->
    framed (WriteHead lines :: WriteBody data :: tr).

Definition nonempty (s : str) : bool :=
  match s with
  | [] => false
  | _ :: _ => true
  end.

(** The segments as the specification words them: the non-empty components
    of the path split on [/]. *)
Definition spec_segments (p : str) : list str :=
  filter nonempty (split Mock.slash p).

(** A query mapping in which every key has a value. *)
Definition no_empty_list (d : dict (list str)) : Prop :=
  Forall (fun kv => snd kv <> []) d.

(** A query parameter that is not supplied, or whose first value is the
    empty string. *)
Definition missing_or_empty (query_params : dict (list str)) (key : string) : Prop :=
  dict_get (lit key) query_params = None
  \/ exists more, dict_get (lit key) query_params = Some ([] :: more).

(** A method that only adds framed events to the trace, however it
    ends. *)
Definition adds_framed {A} (m : M A) : Prop :=
  forall st, exists tr, trace (snd (m st)) = trace st ++ tr /\ framed tr.

(** The waits of a trace, and their sum in seconds. *)
Definition suspensions (tr : list event) : list float :=
  flat_map (fun e => match e with Sleep secs => [secs] | _ => [] end) tr.

Definition total_suspension (tr : list event) : Q :=
  fold_right (fun secs acc => (float_Q secs + acc)%Q) 0%Q (suspensions tr).

(** What a trace sends to the client. *)
Definition written (tr : list event) : list event :=
  filter (fun e => match e with Sleep _ => false | _ => true end) tr.

(** The keys of a JSON object and the value under a key. *)
Definition json_keys (v : json) : list str :=
  match v with
  | JObj kv => map fst kv
  | _ => []
  end.

Definition json_field (key : str) (v : json) : option json :=
  match v with
  | JObj kv => dict_get key kv
  | _ => None
  end.

(** The status codes a trace puts on the wire, in order. *)
Definition statuses (tr : list event) : list Z :=
  flat_map (fun e => match e with
                     | WriteHead lines =>
                         flat_map (fun l => match l with
                                            | StatusLine _ code _ => [code]
                                            | Header _ _ => []
                                            end) lines
                     | _ => []
                     end) tr.

(** The configuration as the specification words it: four values, read
    once from the environment and the flags of the process start. *)
Record spec_ServerConfig := {
  host : str;
  port : Z;
  default_delay_seconds : float;
  default_status : Z
}.

Definition spec_startup_config {lib : PyLib} (w0 : world)
    (flag_host : option str) (flag_port : option Z) : outcome spec_ServerConfig :=
  match Mock.server_address w0 flag_host flag_port,
        py_float (getenv w0 "MOCK_HTTP_DELAY" "0"),
        py_int (getenv w0 "MOCK_HTTP_STATUS" "200") with
  | Ret (h, p), Parsed d, Parsed s =>
      Ret {| host := h; port := p; default_delay_seconds := d; default_status := s |}
  | Raise e, _, _ => Raise e
  | _, Invalid msg, _ => Raise (ValueError msg)
  | _, _, Invalid msg => Raise (ValueError msg)
  end.

End Spec.

(* ================================================================== *)
(** * Sample requests                                                  *)
(* ================================================================== *)

Module Sample.

(** A clock that starts at 1.7e9 s and advances one second a reading. *)
Definition ticking (k : nat) : float := float_of_int (1700000000 + Z.of_nat k).

(** A world with the environment [env]. *)
Definition world_of (env : dict str) : world :=
  {| environ := env;
     clock := ticking;
     date_time_string := "Tue, 03 Nov 2026 10:00:00 GMT";
     server_start_time := float_of_int 1699999000 |}.

(** No variable set: no delay, status 200 at the root. *)
Definition w : world := world_of [].

(** A request without body. *)
Definition bare (target : string) : request :=
  {| path := lit target;
     headers := [(lit "Host", lit "mock:8080")];
     rfile := [];
     client_address := (lit "127.0.0.1", 50000) |}.

(** A request that carries [data], with the length [declared]. *)
Definition carrying (target : string) (declared : string) (data : string)
    : request :=
  {| path := lit target;
     headers := [(lit "Host", lit "mock:8080");
                 (lit "content-length", lit declared)];
     rfile := map byte_of (lit data);
     client_address := (lit "127.0.0.1", 50000) |}.

End Sample.

(* ================================================================== *)
(** * The vocabulary of the further properties                         *)
(* ================================================================== *)

Module Shape.
Import Http Spec.

(** The world [w] with another environment. *)
Definition with_environ (w : world) (env : dict str) : world :=
  {| environ := env;
     clock := clock w;
     date_time_string := date_time_string w;
     server_start_time := server_start_time w |}.

(** The request [self] with other bytes on the wire. *)
Definition with_rfile (self : request) (data : bytes) : request :=
  {| path := path self;
     headers := headers self;
     rfile := data;
     client_address := client_address self |}.

(** The first segments that the routes of [_handle_request] name. *)
Definition route_names : list string :=
  [ "status"; "delay"; "timeout"; "echo"; "whatsapp"; "health" ]%string.

(** Segments that no route takes: a first segment that is not empty and is
    none of the names, or [status] or [delay] with nothing after it. *)
Definition unrouted (parts : list str) : Prop :=
  match parts with
  | [] => False
  | p0 :: rest =>
      p0 <> []
      /\ ((forall name, In name route_names -> p0 <> lit name)
          \/ ((p0 = lit "status" \/ p0 = lit "delay") /\ rest = []))
  end.

Section Routes.
Context {lib : PyLib} (w : world).

(** What a route leaves on the trace, with the way it ends: nothing when
    it raises; the wait of the timeout scenario; one response; or one
    response after the wait of the delay scenario. *)
Inductive route_trace : outcome unit -> list event -> Prop :=
| route_raises e : route_trace (Raise e) []
| route_hangs : route_trace (Ret tt) [Sleep (float_of_int 3600)]
| route_replies code text : route_trace (Ret tt) (reply w code text)
| route_delays secs text :
    fle (float_of_int 0) secs = true ->
    fle secs (float_of_int 300) = true ->
    route_trace (Ret tt) (Sleep secs :: reply w 200 text).

(** A method that, run by a handler with an empty buffer, adds the trace
    of a route and leaves the buffer empty. *)
Definition routes (m : M unit) : Prop :=
  forall st, _headers_buffer st = [] ->
    exists tr, _headers_buffer (snd (m st)) = []
               /\ trace (snd (m st)) = trace st ++ tr
               /\ route_trace (fst (m st)) tr.

(** The ways a route other than the root ends, [st] being the handler
    before it: by an exception, the handler unchanged; after the wait of
    the timeout scenario; with one response whose status is between 100 and
    599; or with a response of status 200 after a wait. *)
Definition ends_in_range (r : outcome unit * hstate) (st : hstate) : Prop :=
  (exists e, r = (Raise e, st))
  \/ r = (Ret tt, slept st (float_of_int 3600))
  \/ (exists code text ticks,
        100 <= code <= 599 /\ r = replied w st code text ticks)
  \/ (exists d text ticks, r = replied w (slept st d) 200 text ticks).

(** What the delay of the environment leaves on the trace before the
    routes: nothing, or one wait of a number above zero. *)
Definition delay_trace (pre : list event) : Prop :=
  pre = [] \/ exists d, pre = [Sleep d] /\ flt (float_of_int 0) d = true.

End Routes.

(** A finite binary64 number, which is what [time.time()] returns. *)
Definition reading (f : float) : bool :=
  match f with
  | S754_zero _ => true
  | S754_finite _ m e => bounded prec emax m e
  | _ => false
  end.

(** The keys of a list of headers, each once, in the order of their first
    occurrence. *)
Fixpoint first_occurrences (seen : list str) (names : list str) : list str :=
  match names with
  | [] => []
  | k :: names' =>
      if existsb (str_eqb k) seen then first_occurrences seen names'
      else k :: first_occurrences (seen ++ [k]) names'
  end.

End Shape.

(* ================================================================== *)
(** * Facts about the Python layer                                     *)
(* ================================================================== *)

Module PyFacts.

Lemma latin1_app (a b : str) : latin1_ok (a ++ b) = latin1_ok a && latin1_ok b.
Proof. apply forallb_app. Qed.

Lemma latin1_lit (s : string) : latin1_ok (lit s) = true.
Proof.
  unfold lit. induction s as [|a s IH]; simpl; auto.
  rewrite IH, andb_true_r. apply N.ltb_lt, N_ascii_bounded.
Qed.

Lemma latin1_str_of_int (z : Z) : latin1_ok (str_of_int z) = true.
Proof. apply latin1_lit. Qed.

Lemma latin1_repeat (c : N) (n : nat) : (c < 256)%N -> latin1_ok (repeat c n) = true.
Proof.
  intros Hc. induction n; simpl; auto.
  rewrite IHn, andb_true_r. now apply N.ltb_lt.
Qed.

Lemma latin1_flat_map (f : N -> str) (s : str) :
  (forall c, latin1_ok (f c) = true) -> latin1_ok (flat_map f s) = true.
Proof.
  intros Hf. induction s; simpl; auto.
  now rewrite latin1_app, Hf, IHs.
Qed.

Lemma latin1_join (sep : str) (parts : list str) :
  latin1_ok sep = true ->
  Forall (fun p => latin1_ok p = true) parts ->
  latin1_ok (join sep parts) = true.
Proof.
  intros Hsep Hparts. induction Hparts as [|p ps Hp Hps IH]; simpl; auto.
  destruct ps; auto.
  now rewrite !latin1_app, Hp, Hsep, IH.
Qed.

Lemma hex_digit_small (n : N) : (n < 16)%N -> (hex_digit n < 256)%N.
Proof.
  intros Hn. unfold hex_digit. destruct (n <? 10)%N; lia.
Qed.

Lemma latin1_hex4 (n : N) : latin1_ok (hex4 n) = true.
Proof.
  unfold hex4, latin1_ok. simpl.
  rewrite !andb_true_iff.
  repeat split; try apply N.ltb_lt; try apply hex_digit_small;
    apply N.mod_lt; discriminate.
Qed.

Lemma latin1_escape (c : N) : latin1_ok (json_escape_char c) = true.
Proof.
  unfold json_escape_char.
  repeat match goal with
         | |- context [if (c =? ?k)%N then _ else _] =>
             destruct (c =? k)%N; [reflexivity|]
         end.
  destruct ((32 <=? c)%N && (c <=? 126)%N) eqn:Hp.
  - apply andb_true_iff in Hp as [_ Hc]. apply N.leb_le in Hc.
    simpl. rewrite andb_true_r. apply N.ltb_lt. lia.
  - destruct (c <? 65536)%N;
      now rewrite ?latin1_app, ?latin1_lit, ?latin1_hex4.
Qed.

Lemma latin1_json_string (s : str) : latin1_ok (json_string s) = true.
Proof.
  unfold json_string.
  rewrite !latin1_app, latin1_flat_map by apply latin1_escape. reflexivity.
Qed.

(** Text in the Latin-1 range always encodes. *)
Lemma utf8_char_latin1 (c : N) : (c < 256)%N -> exists b, utf8_char c = Some b.
Proof.
  intros Hc. unfold utf8_char.
  destruct (c <? 128)%N; [eauto|].
  assert (H : (c <? 2048)%N = true) by (apply N.ltb_lt; lia).
  rewrite H. eauto.
Qed.

Lemma utf8_encode_latin1 (s : str) :
  latin1_ok s = true -> exists b, utf8_encode s = Some b.
Proof.
  induction s as [|c s IH]; simpl; [eauto|].
  intros H. apply andb_true_iff in H as [Hc Hs].
  apply N.ltb_lt in Hc.
  destruct (utf8_char_latin1 c Hc) as [b ->].
  destruct (IH Hs) as [bs ->]. eauto.
Qed.

Lemma encode_latin1 (s : str) :
  latin1_ok s = true -> encode_utf8 s = Ret (Spec.utf8_bytes s).
Proof.
  intros H. destruct (utf8_encode_latin1 s H) as [b Hb].
  unfold encode_utf8, Spec.utf8_bytes. now rewrite Hb.
Qed.

(** Induction on JSON values, through the lists they hold. *)
Lemma json_ind_nested (P : json -> Prop) :
  P JNull ->
  (forall b, P (JBool b)) ->
  (forall z, P (JInt z)) ->
  (forall f, P (JFloat f)) ->
  (forall s, P (JStr s)) ->
  (forall l, Forall P l -> P (JList l)) ->
  (forall kv, Forall (fun p => P (snd p)) kv -> P (JObj kv)) ->
  forall v, P v.
Proof.
  intros Hnull Hbool Hint Hfloat Hstr Hlist Hobj.
  fix IH 1.
  intros [ | b | z | f | s | l | kv ];
    [ exact Hnull | apply Hbool | apply Hint | apply Hfloat | apply Hstr | | ].
  - apply Hlist. induction l as [|x l IHl]; constructor; [apply IH | exact IHl].
  - apply Hobj. induction kv as [|[k x] kv IHkv]; constructor;
      [apply IH | exact IHkv].
Qed.

Section Dumps.
Context {lib : PyLib}.

Lemma latin1_floatstr (f : float) : latin1_ok (Json.floatstr f) = true.
Proof. destruct f as [ | [|] | | ]; apply latin1_lit. Qed.

Lemma latin1_lead (indent : option nat) (lvl : nat) :
  latin1_ok (Json.lead indent lvl) = true.
Proof.
  destruct indent; simpl; auto.
  apply latin1_repeat. reflexivity.
Qed.

Lemma latin1_item_sep (indent : option nat) (lvl : nat) :
  latin1_ok (Json.item_sep indent lvl) = true.
Proof.
  destruct indent; simpl; auto.
  apply latin1_repeat. reflexivity.
Qed.

(** [json.dumps] writes ASCII escapes for everything else, so its text is
    in the Latin-1 range whatever the value holds. *)
Lemma dumps_at_list (indent : option nat) (lvl : nat) (x : json) (l : list json) :
  Json.dumps_at indent lvl (JList (x :: l))
  = lit "[" ++ Json.lead indent (S lvl)
    ++ join (Json.item_sep indent (S lvl))
         (map (Json.dumps_at indent (S lvl)) (x :: l))
    ++ Json.lead indent lvl ++ lit "]".
Proof. reflexivity. Qed.

Lemma dumps_at_obj (indent : option nat) (lvl : nat) (p : str * json)
    (kv : list (str * json)) :
  Json.dumps_at indent lvl (JObj (p :: kv))
  = lit "{" ++ Json.lead indent (S lvl)
    ++ join (Json.item_sep indent (S lvl))
         (map (fun p => json_string (fst p) ++ lit ": "
                        ++ Json.dumps_at indent (S lvl) (snd p)) (p :: kv))
    ++ Json.lead indent lvl ++ lit "}".
Proof.
  cbn [Json.dumps_at]. do 2 f_equal. f_equal. f_equal.
  apply map_ext. now intros [k x].
Qed.

(** [json.dumps] writes ASCII escapes for everything else, so its text is
    in the Latin-1 range whatever the value holds. *)
Lemma latin1_dumps_at (indent : option nat) (v : json) :
  forall lvl, latin1_ok (Json.dumps_at indent lvl v) = true.
Proof.
  pattern v. apply json_ind_nested; clear v.
  - reflexivity.
  - intros [|] lvl; reflexivity.
  - intros z lvl. apply latin1_str_of_int.
  - intros f lvl. apply latin1_floatstr.
  - intros s lvl. apply latin1_json_string.
  - intros l IHl lvl.
    destruct l as [|x l]; [reflexivity|].
    rewrite dumps_at_list, !latin1_app, !latin1_lead, latin1_join;
      auto using latin1_item_sep.
    apply Forall_map. revert IHl. apply Forall_impl. auto.
  - intros kv IHkv lvl.
    destruct kv as [|p kv]; [reflexivity|].
    rewrite dumps_at_obj, !latin1_app, !latin1_lead, latin1_join;
      auto using latin1_item_sep.
    apply Forall_map. revert IHkv. apply Forall_impl.
    intros [k x] Hx. cbn [fst snd] in *.
    now rewrite !latin1_app, latin1_json_string, Hx.
Qed.

Lemma encode_dumps_at (indent : option nat) (lvl : nat) (v : json) :
  encode_utf8 (Json.dumps_at indent lvl v)
  = Ret (Spec.utf8_bytes (Json.dumps_at indent lvl v)).
Proof. apply encode_latin1, latin1_dumps_at. Qed.

End Dumps.

End PyFacts.

(* ================================================================== *)
(** * Facts about [strip] and [split]                                  *)
(* ================================================================== *)

Module SplitFacts.
Import Spec.

Lemma split_not_nil (c : N) (s : str) : split c s <> [].
Proof.
  induction s as [|x s IH]; simpl; [discriminate|].
  destruct (x =? c)%N; [discriminate|].
  destruct (split c s); discriminate.
Qed.

Lemma join_cons (sep a b : str) (l : list str) :
  join sep (a :: b :: l) = a ++ sep ++ join sep (b :: l).
Proof. reflexivity. Qed.

Lemma join_split (c : N) (s : str) : join [c] (split c s) = s.
Proof.
  induction s as [|x s IH]; simpl; [reflexivity|].
  destruct (split c s) as [|p ps] eqn:Es; [now apply split_not_nil in Es|].
  destruct (x =? c)%N eqn:E.
  - apply N.eqb_eq in E. subst x.
    now rewrite join_cons, IH.
  - destruct ps as [|q ps].
    + simpl in *. now rewrite IH.
    + rewrite join_cons. rewrite join_cons in IH. simpl. now rewrite <- IH.
Qed.

Lemma split_snoc (c : N) (s : str) : split c (s ++ [c]) = split c s ++ [[]].
Proof.
  induction s as [|x s IH]; simpl.
  - now rewrite N.eqb_refl.
  - destruct (x =? c)%N; rewrite IH; [reflexivity|].
    destruct (split c s) as [|p ps] eqn:Es; [now apply split_not_nil in Es|].
    reflexivity.
Qed.

Lemma lstrip_repeat (c : N) (s : str) :
  exists n, s = repeat c n ++ lstrip c s.
Proof.
  induction s as [|x s [n IH]]; [now exists 0%nat|]. simpl.
  destruct (x =? c)%N eqn:E.
  - apply N.eqb_eq in E. subst x. exists (S n). simpl. now rewrite <- IH.
  - now exists 0%nat.
Qed.

Lemma lstrip_head (c x : N) (s r : str) : lstrip c s = x :: r -> x <> c.
Proof.
  induction s as [|y s IH]; simpl; [discriminate|].
  destruct (y =? c)%N eqn:E; [exact IH|].
  intros H. injection H as -> _. now apply N.eqb_neq.
Qed.

Lemma rev_repeat (c : N) (n : nat) : rev (repeat c n) = repeat c n.
Proof.
  induction n; simpl; [reflexivity|].
  now rewrite IHn, <- repeat_cons.
Qed.

Lemma rstrip_repeat (c : N) (s : str) :
  exists n, s = rstrip c s ++ repeat c n.
Proof.
  unfold rstrip. destruct (lstrip_repeat c (rev s)) as [n H].
  exists n. rewrite <- (rev_involutive s) at 1.
  rewrite H at 1. now rewrite rev_app_distr, rev_repeat.
Qed.

Lemma rstrip_last (c x : N) (s r : str) : rstrip c s = r ++ [x] -> x <> c.
Proof.
  unfold rstrip. intros H.
  apply (f_equal (@rev N)) in H.
  rewrite rev_involutive, rev_app_distr in H. simpl in H.
  exact (lstrip_head c x _ _ H).
Qed.

Lemma filter_split_leading (c : N) (n : nat) (s : str) :
  filter nonempty (split c (repeat c n ++ s)) = filter nonempty (split c s).
Proof.
  induction n; simpl; [reflexivity|].
  now rewrite N.eqb_refl.
Qed.

Lemma filter_split_trailing (c : N) (n : nat) (s : str) :
  filter nonempty (split c (s ++ repeat c n)) = filter nonempty (split c s).
Proof.
  induction n; simpl.
  - now rewrite app_nil_r.
  - rewrite repeat_cons, app_assoc, split_snoc, filter_app, IHn. simpl.
    apply app_nil_r.
Qed.

Lemma split_head (c x : N) (s : str) : x <> c -> hd [] (split c (x :: s)) <> [].
Proof.
  intros Hx. simpl. apply N.eqb_neq in Hx. rewrite Hx.
  destruct (split c s); discriminate.
Qed.

Lemma split_last (c x : N) (s : str) : x <> c -> last (split c (s ++ [x])) [] <> [].
Proof.
  intros Hx. apply N.eqb_neq in Hx.
  induction s as [|y s IH]; simpl.
  - rewrite Hx. discriminate.
  - destruct (split c (s ++ [x])) as [|p ps] eqn:Es;
      [now apply split_not_nil in Es|].
    destruct (y =? c)%N.
    + exact IH.
    + destruct ps; [discriminate | exact IH].
Qed.

End SplitFacts.

(* ================================================================== *)
(** * Facts about the order of floats                                  *)
(* ================================================================== *)

Module FloatFacts.

Lemma compare_antisym (a b : float) :
  SFcompare b a = option_map CompOpp (SFcompare a b).
Proof.
  destruct a as [sa|sa| |sa ma ea], b as [sb|sb| |sb mb eb]; simpl;
    try destruct sa; try destruct sb; try reflexivity;
    rewrite (Z.compare_antisym ea eb);
    destruct (ea ?= eb); simpl; try reflexivity;
    rewrite (Pos.compare_cont_antisym ma mb Eq); simpl;
    now rewrite ?CompOpp_involutive.
Qed.

Lemma compare_total (a b : float) :
  is_nan a = false -> is_nan b = false -> SFcompare a b <> None.
Proof. destruct a, b; simpl; congruence. Qed.

Lemma flt_of_fle (a b : float) : fle a b = true -> flt b a = false.
Proof.
  unfold fle, flt, SFleb, SFltb. rewrite (compare_antisym a b).
  destruct (SFcompare a b) as [[| |]|]; simpl; congruence.
Qed.

(** Two floats that are numbers compare one way or the other. *)
Lemma flt_of_not_fle (a b : float) :
  is_nan a = false -> is_nan b = false -> fle a b = false -> flt b a = true.
Proof.
  intros Ha Hb. pose proof (compare_total a b Ha Hb) as Ht.
  unfold fle, flt, SFleb, SFltb. rewrite (compare_antisym a b).
  destruct (SFcompare a b) as [c|]; [|congruence].
  destruct c; simpl; congruence.
Qed.

Lemma fle_not_nan (a b : float) :
  fle a b = true -> is_nan a = false /\ is_nan b = false.
Proof. destruct a, b; simpl; auto; discriminate. Qed.

Lemma fle_trans (a b c : float) :
  fle a b = true -> fle b c = true -> fle a c = true.
Proof.
  unfold fle, SFleb.
  destruct a as [sa|sa| |sa ma ea], b as [sb|sb| |sb mb eb],
           c as [sc|sc| |sc mc ec]; simpl;
    try destruct sa; try destruct sb; try destruct sc; simpl;
    try congruence; try reflexivity.
  all: repeat match goal with
       | |- context [(?x ?= ?y)%Z] => destruct (Z.compare_spec x y); subst
       | |- context [Pos.compare_cont Eq ?x ?y] =>
           change (Pos.compare_cont Eq x y) with (Pos.compare x y);
           destruct (Pos.compare_spec x y); subst
       end; simpl; try congruence; try reflexivity; try lia.
Qed.

Lemma limit_above_3600 : fle (float_of_int 3600) Http.sleep_limit = true.
Proof. reflexivity. Qed.

Lemma limit_above_300 : fle (float_of_int 300) Http.sleep_limit = true.
Proof. reflexivity. Qed.

Lemma fle_of_flt (a b : float) : flt a b = true -> fle a b = true.
Proof.
  unfold flt, fle, SFltb, SFleb.
  destruct (SFcompare a b) as [[| |]|]; congruence.
Qed.

Lemma feq_fle (a b : float) : SFeqb a b = true -> fle b a = true.
Proof.
  unfold SFeqb, fle, SFleb. rewrite (compare_antisym a b).
  destruct (SFcompare a b) as [[| |]|]; simpl; congruence.
Qed.

(** The count of nanoseconds of a float that is at least zero and at most
    the limit is converted, and does not wrap. *)
Lemma converts_within_limit (v : float) :
  fle (float_of_int 0) v = true -> fle v Http.sleep_limit = true ->
  fle Http.convert_limit (SFabs v) = false /\ SFeqb v Http.wrap_point = false.
Proof.
  intros H0 Hl.
  assert (Habs : SFabs v = v \/ SFabs v = float_of_int 0).
  { destruct v as [s|s| |s m e]; try discriminate.
    - now right.
    - destruct s; [discriminate | now left].
    - destruct s; [discriminate | now left]. }
  split.
  - destruct (fle Http.convert_limit (SFabs v)) eqn:E; [|reflexivity].
    destruct Habs as [Ha|Ha]; rewrite Ha in E; [|discriminate].
    pose proof (fle_trans _ _ _ E Hl). discriminate.
  - destruct (SFeqb v Http.wrap_point) eqn:E; [|reflexivity].
    pose proof (fle_trans _ _ _ (feq_fle _ _ E) Hl). discriminate.
Qed.

(** The two floats at the end of the conversion: the count of nanoseconds
    of the float below [wrap_point] is under 2^63, that of [wrap_point] is
    2^63, and that of [convert_limit] is over. *)
Lemma conversion_ends :
  flt (SFmul prec emax (S754_finite false 4835703278458516 (-19))
         (float_of_int 1000000000))
      (float_of_int (2 ^ 63)) = true
  /\ SFmul prec emax Http.wrap_point (float_of_int 1000000000)
     = float_of_int (2 ^ 63)
  /\ flt (float_of_int (2 ^ 63))
         (SFmul prec emax Http.convert_limit (float_of_int 1000000000)) = true.
Proof. repeat split; vm_compute; reflexivity. Qed.

End FloatFacts.

(* ================================================================== *)
(** * Facts about the CPython instance                                 *)
(* ================================================================== *)

Module CPythonFacts.
Import Spec.

Lemma dict_append_no_empty (name value : str) (d : dict (list str)) :
  no_empty_list d -> no_empty_list (CPython.dict_append name value d).
Proof.
  unfold no_empty_list.
  induction 1 as [|[k vs] d Hk Hd IH]; simpl.
  - repeat constructor. discriminate.
  - destruct (str_eqb name k); constructor; auto.
    simpl. intros H. now apply app_eq_nil in H as [_ H].
Qed.

Lemma fold_left_no_empty (f : dict (list str) -> str -> dict (list str))
    (fields : list str) :
  (forall d x, no_empty_list d -> no_empty_list (f d x)) ->
  forall d, no_empty_list d -> no_empty_list (fold_left f fields d).
Proof.
  intros Hf. induction fields as [|x fields IH]; simpl; auto.
Qed.

Lemma dict_get_no_empty (d : dict (list str)) (key : str) :
  no_empty_list d -> dict_get key d <> Some [].
Proof.
  induction 1 as [|[k vs] d Hk Hd IH]; simpl; [discriminate|].
  destruct (str_eqb key k); [|exact IH].
  simpl in Hk. congruence.
Qed.

(** [parse_qs] builds no empty list of values. *)
Lemma parse_qs_no_empty (qs key : str) :
  dict_get key (CPython.parse_qs qs) <> Some [].
Proof.
  apply dict_get_no_empty. unfold CPython.parse_qs.
  apply fold_left_no_empty; [|constructor].
  intros d x Hd.
  destruct (CPython.break_at 61 x) as [[name [|c value]]|]; auto.
  now apply dict_append_no_empty.
Qed.

End CPythonFacts.

(* ================================================================== *)
(** * Facts about the handler's effects                                *)
(* ================================================================== *)

Module HttpFacts.
Import Http Spec PyFacts.
Local Open Scope py_scope.

Lemma bind_ret {A B} (m : M A) (k : A -> M B) st a st' :
  m st = (Ret a, st') -> bind m k st = k a st'.
Proof. unfold bind. now intros ->. Qed.

Lemma bind_raise {A B} (m : M A) (k : A -> M B) st e st' :
  m st = (Raise e, st') -> bind m k st = (Raise e, st').
Proof. unfold bind. now intros ->. Qed.

Lemma try_ret {A} (m : M A) caught h st a st' :
  m st = (Ret a, st') -> try_except m caught h st = (Ret a, st').
Proof. unfold try_except. now intros ->. Qed.

Lemma try_caught {A} (m : M A) caught h st e st' :
  m st = (Raise e, st') -> caught e = true ->
  try_except m caught h st = h e st'.
Proof. unfold try_except. now intros -> ->. Qed.

Lemma try_passed {A} (m : M A) caught h st e st' :
  m st = (Raise e, st') -> caught e = false ->
  try_except m caught h st = (Raise e, st').
Proof. unfold try_except. now intros -> ->. Qed.

Section Api.
Context {lib : PyLib} (w : world).

Lemma latin1_reason (code : Z) : latin1_ok (reason code) = true.
Proof. unfold reason. destruct (responses code); auto using latin1_lit. Qed.

Lemma send_header_ok (keyword : string) (value : str) st :
  latin1_ok value = true ->
  send_header (lit keyword) value st
  = (Ret tt, {| _headers_buffer := _headers_buffer st ++ [Header (lit keyword) value];
                trace := trace st;
                time_calls := time_calls st |}).
Proof.
  intros Hv. unfold send_header, check_latin1. cbn [version_0_9 http_1].
  now rewrite latin1_app, latin1_lit, Hv.
Qed.

Lemma send_header_bad (keyword : string) (value : str) st :
  latin1_ok value = false ->
  exists e, send_header (lit keyword) value st = (Raise e, st).
Proof.
  intros Hv. unfold send_header, check_latin1. cbn [version_0_9 http_1].
  rewrite latin1_app, latin1_lit, Hv. unfold bind, raise. simpl. eauto.
Qed.

Lemma send_response_ok (code : Z) st :
  send_response w code st
  = (Ret tt, {| _headers_buffer :=
                  _headers_buffer st
                  ++ [ StatusLine protocol_version code (reason code);
                       Header (lit "Server") (lit version_string);
                       Header (lit "Date") (lit (date_time_string w)) ];
                trace := trace st;
                time_calls := time_calls st |}).
Proof.
  unfold send_response.
  assert (Hline : send_response_only code st
                  = (Ret tt,
                     {| _headers_buffer :=
                          _headers_buffer st
                          ++ [StatusLine protocol_version code (reason code)];
                        trace := trace st;
                        time_calls := time_calls st |})).
  { unfold send_response_only. cbn [version_0_9 http_1]. fold (reason code).
    unfold check_latin1. rewrite latin1_reason. reflexivity. }
  erewrite bind_ret by exact Hline.
  erewrite bind_ret by (apply send_header_ok, latin1_lit).
  rewrite send_header_ok by apply latin1_lit.
  cbn [_headers_buffer trace time_calls].
  now rewrite <- !app_assoc.
Qed.

(** [time.sleep] takes every float from zero to the limit. *)
Lemma time_sleep_accepts (secs : float) st :
  fle (float_of_int 0) secs = true -> fle secs sleep_limit = true ->
  time_sleep secs st = emit (Sleep secs) st.
Proof.
  intros H0 Hl. unfold time_sleep.
  destruct (FloatFacts.fle_not_nan _ _ H0) as [_ ->].
  destruct (FloatFacts.converts_within_limit secs H0 Hl) as [-> ->].
  rewrite (FloatFacts.flt_of_fle _ _ H0).
  now rewrite (FloatFacts.flt_of_fle _ _ Hl).
Qed.

(** Whatever it does, it writes nothing and leaves the buffer alone. *)
Lemma time_sleep_quiet (secs : float) st :
  exists o tr,
    time_sleep secs st
    = (o, {| _headers_buffer := _headers_buffer st;
             trace := trace st ++ tr;
             time_calls := time_calls st |})
    /\ (tr = [] \/ tr = [Sleep secs]).
Proof.
  assert (Hraise : forall e : exn,
             exists o tr,
               (Raise e : outcome unit, st)
               = (o, {| _headers_buffer := _headers_buffer st;
                        trace := trace st ++ tr;
                        time_calls := time_calls st |})
               /\ (tr = [] \/ tr = [Sleep secs])).
  { intros e. exists (Raise e), []. rewrite app_nil_r. destruct st. auto. }
  unfold time_sleep, raise, emit.
  destruct (is_nan secs); [apply Hraise|].
  destruct (fle convert_limit (SFabs secs)); [apply Hraise|].
  destruct (flt secs (float_of_int 0) || SFeqb secs wrap_point); [apply Hraise|].
  destruct (flt sleep_limit secs); [apply Hraise|].
  eexists _, [Sleep secs]. split; [reflexivity|auto].
Qed.

End Api.
End HttpFacts.

(* ================================================================== *)
(** * Facts about [_send_response]                                     *)
(* ================================================================== *)

Module SendFacts.
Import Http Spec PyFacts HttpFacts Mock.
Local Open Scope py_scope.

Section Helper.
Context {lib : PyLib} (w : world).

Lemma body_ready (code : Z) (body : option str) st :
  (match body with
   | Some b => ret b
   | None =>
       now <- time_time w ;;
       ret (Json.dumps (JObj
         [ (lit "status", JInt code);
           (lit "message", JStr (match responses code with
                                 | Some phrase => lit phrase
                                 | None => lit "Unknown"
                                 end));
           (lit "timestamp", JFloat now) ]))
   end) st
  = (Ret (body_text w code body (time_calls st)),
     {| _headers_buffer := _headers_buffer st;
        trace := trace st;
        time_calls := match body with
                      | Some _ => time_calls st
                      | None => S (time_calls st)
                      end |}).
Proof. destruct body; destruct st; reflexivity. Qed.

(** The helper on a content type in the Latin-1 range and a text that
    encodes: the buffered lines and the body go out, in that order. *)
Lemma _send_response_ok (code : Z) (ct : str) (body : option str) st (data : bytes) :
  latin1_ok ct = true ->
  utf8_encode (body_text w code body (time_calls st)) = Some data ->
  _send_response w code ct body st
  = (Ret tt,
     {| _headers_buffer := [];
        trace := trace st
                 ++ [ WriteHead (_headers_buffer st ++ response_head w code ct data);
                      WriteBody data ];
        time_calls := match body with
                      | Some _ => time_calls st
                      | None => S (time_calls st)
                      end |}).
Proof.
  intros Hct Hdata. unfold _send_response.
  erewrite bind_ret by apply send_response_ok.
  erewrite bind_ret by (apply send_header_ok; exact Hct).
  erewrite bind_ret by (apply send_header_ok; reflexivity).
  erewrite bind_ret by (apply send_header_ok; reflexivity).
  erewrite bind_ret by apply body_ready.
  cbn [_headers_buffer trace time_calls].
  unfold call at 1, encode_utf8. rewrite Hdata.
  unfold bind at 1.
  erewrite bind_ret by (apply send_header_ok, latin1_str_of_int).
  unfold end_headers, wfile_write, emit, bind.
  cbn [version_0_9 http_1 _headers_buffer trace time_calls].
  unfold response_head. now rewrite <- !app_assoc.
Qed.

(** Otherwise it raises before anything is written. *)
Lemma _send_response_raises (code : Z) (ct : str) (body : option str) st :
  latin1_ok ct = false
  \/ utf8_encode (body_text w code body (time_calls st)) = None ->
  exists e st', _send_response w code ct body st = (Raise e, st')
                /\ trace st' = trace st.
Proof.
  intros H. unfold _send_response.
  erewrite bind_ret by apply send_response_ok.
  destruct (latin1_ok ct) eqn:Hct.
  - destruct H as [H|H]; [discriminate|].
    erewrite bind_ret by (apply send_header_ok; exact Hct).
    erewrite bind_ret by (apply send_header_ok; reflexivity).
    erewrite bind_ret by (apply send_header_ok; reflexivity).
    erewrite bind_ret by apply body_ready.
    cbn [_headers_buffer trace time_calls].
    unfold call at 1, encode_utf8. rewrite H.
    unfold bind at 1. eauto.
  - destruct (send_header_bad "Content-Type" ct
                {| _headers_buffer :=
                     _headers_buffer st
                     ++ [ StatusLine protocol_version code (reason code);
                          Header (lit "Server") (lit version_string);
                          Header (lit "Date") (lit (date_time_string w)) ];
                   trace := trace st;
                   time_calls := time_calls st |} Hct) as [e He].
    erewrite bind_raise by exact He. eauto.
Qed.

(** A JSON text goes out under any status. *)
Lemma send_json (code : Z) (indent : option nat) (v : json) st :
  _send_response w code application_json (Some (Json.dumps_at indent 0 v)) st
  = (Ret tt,
     {| _headers_buffer := [];
        trace := trace st
                 ++ [ WriteHead (_headers_buffer st
                                 ++ response_head w code application_json
                                      (utf8_bytes (Json.dumps_at indent 0 v)));
                      WriteBody (utf8_bytes (Json.dumps_at indent 0 v)) ];
        time_calls := time_calls st |}).
Proof.
  destruct (utf8_encode_latin1 _ (latin1_dumps_at indent v 0)) as [data Hdata].
  unfold utf8_bytes. rewrite Hdata.
  now apply (_send_response_ok code application_json (Some _) st data).
Qed.

End Helper.
End SendFacts.

(* ================================================================== *)
(** * The scenarios, from any state of the handler                     *)
(* ================================================================== *)

Module ScenarioFacts.
Import Http Spec PyFacts HttpFacts SendFacts Mock.
Local Open Scope py_scope.

Section Scenarios.
Context {lib : PyLib} (w : world) (self : request).

Lemma send_json_replied (code : Z) (v : json) st :
  _send_response w code application_json (Some (Json.dumps v)) st
  = replied w st code (Json.dumps v) 0.
Proof. apply send_json. Qed.

Lemma _handle_status_valid (code_str : str) (code : Z) st :
  py_int code_str = Parsed code -> 100 <= code <= 599 ->
  _handle_status w code_str st
  = replied w st code
      (Json.dumps (status_response code (clock w (time_calls st)))) 1.
Proof.
  intros Hp Hr. unfold _handle_status. apply try_ret.
  unfold call at 1. rewrite Hp. unfold bind at 1. cbn [of_parse].
  replace ((code <? 100) || (599 <? code)) with false
    by (symmetry; apply orb_false_iff; split; apply Z.ltb_ge; lia).
  erewrite bind_ret by reflexivity.
  erewrite bind_ret by reflexivity.
  now rewrite send_json_replied.
Qed.

Lemma _handle_status_invalid (code_str : str) st :
  (forall code, py_int code_str = Parsed code -> code < 100 \/ 599 < code) ->
  _handle_status w code_str st
  = replied w st 400 (Json.dumps (status_error code_str)) 0.
Proof.
  intros Hp. unfold _handle_status.
  destruct (py_int code_str) as [code|msg] eqn:E.
  - erewrite try_caught with (e := ValueError (lit "Invalid status code")) (st' := st);
      [apply send_json_replied | | reflexivity].
    unfold call at 1. unfold bind at 1. cbn [of_parse].
    replace ((code <? 100) || (599 <? code)) with true; [reflexivity|].
    symmetry. apply orb_true_iff.
    destruct (Hp code eq_refl); [left|right]; apply Z.ltb_lt; lia.
  - erewrite try_caught with (e := ValueError msg) (st' := st);
      [apply send_json_replied | | reflexivity].
    reflexivity.
Qed.

Lemma _handle_delay_valid (delay_str : str) (delay : float) st :
  py_float delay_str = Parsed delay ->
  fle (float_of_int 0) delay = true -> fle delay (float_of_int 300) = true ->
  _handle_delay w delay_str st
  = replied w (slept st delay) 200
      (Json.dumps (delay_response delay (clock w (time_calls st)))) 1.
Proof.
  intros Hp H0 H300. unfold _handle_delay. apply try_ret.
  unfold call at 1. rewrite Hp. unfold bind at 1. cbn [of_parse].
  rewrite (FloatFacts.flt_of_fle _ _ H0), (FloatFacts.flt_of_fle _ _ H300).
  cbn [orb].
  erewrite bind_ret by reflexivity.
  erewrite bind_ret
    by (apply time_sleep_accepts;
        [exact H0 | exact (FloatFacts.fle_trans _ _ _ H300 FloatFacts.limit_above_300)]).
  erewrite bind_ret by reflexivity.
  now rewrite send_json_replied.
Qed.

Lemma _handle_delay_invalid (delay_str : str) st :
  (forall delay, py_float delay_str = Parsed delay ->
     ~ (fle (float_of_int 0) delay = true /\ fle delay (float_of_int 300) = true)) ->
  exists e,
    _handle_delay w delay_str st
    = replied w st 400 (Json.dumps (delay_error e delay_str)) 0.
Proof.
  intros Hp. unfold _handle_delay.
  destruct (py_float delay_str) as [delay|msg] eqn:E.
  - destruct (flt delay (float_of_int 0) || flt (float_of_int 300) delay) eqn:Hout.
    + exists (ValueError (lit "Delay out of range")).
      erewrite try_caught with (st' := st);
        [apply send_json_replied | | reflexivity].
      unfold call at 1. unfold bind at 1. cbn [of_parse]. now rewrite Hout.
    + apply orb_false_iff in Hout as [Hlo Hhi].
      assert (Hnan : is_nan delay = true).
      { destruct (is_nan delay) eqn:Hn; [reflexivity|]. exfalso.
        apply (Hp delay eq_refl). split.
        - destruct (fle (float_of_int 0) delay) eqn:H; [reflexivity|].
          rewrite (FloatFacts.flt_of_not_fle (float_of_int 0) delay eq_refl Hn H)
            in Hlo.
          discriminate.
        - destruct (fle delay (float_of_int 300)) eqn:H; [reflexivity|].
          rewrite (FloatFacts.flt_of_not_fle delay (float_of_int 300) Hn eq_refl H)
            in Hhi.
          discriminate. }
      exists (ValueError (lit "Invalid value NaN (not a number)")).
      erewrite try_caught with (st' := st);
        [apply send_json_replied | | reflexivity].
      unfold call at 1. unfold bind at 1. cbn [of_parse].
      rewrite Hlo, Hhi. cbn [orb].
      erewrite bind_ret by reflexivity.
      unfold time_sleep. now rewrite Hnan.
  - exists (ValueError msg).
    erewrite try_caught with (st' := st);
      [apply send_json_replied | | reflexivity].
    reflexivity.
Qed.

Lemma _handle_timeout_run st :
  _handle_timeout st = (Ret tt, slept st (float_of_int 3600)).
Proof.
  unfold _handle_timeout. apply try_ret.
  now rewrite time_sleep_accepts.
Qed.

Lemma _handle_echo_run (method : str) (query_params : dict (list str))
    (body : option str) st :
  _handle_echo w self method query_params body st
  = replied w st 200
      (Json.dumps_indent 2
         (echo_response self method query_params body (clock w (time_calls st))))
      1.
Proof.
  unfold _handle_echo.
  erewrite bind_ret by reflexivity.
  unfold Json.dumps_indent. now rewrite send_json.
Qed.

(** Reading the request changes nothing in the handler. *)
Lemma _read_body_pure st : exists o, _read_body self st = (o, st).
Proof.
  unfold _read_body, bind, call, ret.
  destruct (Msg.get _ _) as [v|].
  - destruct (of_parse (py_int v)) as [n|e]; [|eauto].
    destruct (0 <? n); [|eauto].
    destruct (rfile_read self n); eauto.
  - cbn. eauto.
Qed.

Lemma read_request_pure (method : str) st :
  exists o, read_request self method st = (o, st).
Proof.
  unfold read_request, _parse_path, bind, call, ret.
  destruct (of_parse (urlparse (path self))) as [parsed|e]; [|eauto].
  destruct (str_eqb method (lit "POST")); [|eauto].
  destruct (_read_body_pure st) as [[b|e] ->]; eauto.
Qed.

(** The delay of the environment: a wait or nothing, and nothing
    written. *)
Lemma apply_default_delay_quiet st :
  exists o tr,
    apply_default_delay w st
    = (o, {| _headers_buffer := _headers_buffer st;
             trace := trace st ++ tr;
             time_calls := time_calls st |})
    /\ written tr = [].
Proof.
  unfold apply_default_delay, bind, call.
  destruct (of_parse (py_float _)) as [d|e].
  - destruct (flt (float_of_int 0) d).
    + destruct (time_sleep_quiet d st) as (o & tr & -> & [-> | ->]); eauto.
    + exists (Ret tt), []. rewrite app_nil_r. destruct st. auto.
  - exists (Raise e), []. rewrite app_nil_r. destruct st. auto.
Qed.

Lemma apply_default_delay_run (d : float) st :
  py_float (getenv w "MOCK_HTTP_DELAY" "0") = Parsed d ->
  fle (float_of_int 0) d = true -> fle d sleep_limit = true ->
  apply_default_delay w st
  = (Ret tt, {| _headers_buffer := _headers_buffer st;
                trace := trace st ++ default_wait d;
                time_calls := time_calls st |}).
Proof.
  intros Hp H0 Hl. unfold apply_default_delay, default_wait.
  unfold call at 1. rewrite Hp. unfold bind at 1. cbn [of_parse].
  destruct (flt (float_of_int 0) d).
  - now rewrite time_sleep_accepts.
  - rewrite app_nil_r. now destruct st.
Qed.

(** A delay that is no more than the longest wait is waited when it is
    above zero, and ignored when it is not. *)
Lemma apply_default_delay_within (d : float) st :
  py_float (getenv w "MOCK_HTTP_DELAY" "0") = Parsed d ->
  flt sleep_limit d = false ->
  apply_default_delay w st
  = (Ret tt, {| _headers_buffer := _headers_buffer st;
                trace := trace st ++ default_wait d;
                time_calls := time_calls st |}).
Proof.
  intros Hp Hl. destruct (flt (float_of_int 0) d) eqn:H0.
  - pose proof (FloatFacts.fle_of_flt _ _ H0) as H0'.
    apply apply_default_delay_run; [exact Hp | exact H0' |].
    destruct (fle d sleep_limit) eqn:E; [reflexivity|].
    destruct (FloatFacts.fle_not_nan _ _ H0') as [_ Hn].
    rewrite (FloatFacts.flt_of_not_fle d sleep_limit Hn eq_refl E) in Hl.
    discriminate.
  - unfold apply_default_delay, default_wait, bind, call.
    rewrite Hp. cbn [of_parse]. rewrite H0, app_nil_r. now destruct st.
Qed.

Lemma _read_body_absent st :
  Msg.get (lit "Content-Length") (headers self) = None ->
  _read_body self st = (Ret [], st).
Proof. intros H. unfold _read_body. now rewrite H. Qed.

Lemma _read_body_declared (v : str) (n : Z) st :
  Msg.get (lit "Content-Length") (headers self) = Some v ->
  py_int v = Parsed n ->
  _read_body self st
  = (if 0 <? n
     then match rfile_read self n with
          | Ret data => decode_utf8 data
          | Raise e => Raise e
          end
     else Ret [],
     st).
Proof.
  intros Hv Hn. unfold _read_body. rewrite Hv.
  unfold call at 1. rewrite Hn. unfold bind at 1. cbn [of_parse].
  destruct (0 <? n); [|reflexivity].
  unfold bind, call. now destruct (rfile_read self n).
Qed.

(** A read that converts and is granted its storage. *)
Lemma rfile_read_granted (n : Z) :
  n < 2 ^ 63 - 33 -> allocates n = true ->
  rfile_read self n = Ret (firstn (Z.to_nat n) (rfile self)).
Proof.
  intros Hn Ha. unfold rfile_read.
  replace (2 ^ 63 <=? n) with false by (symmetry; apply Z.leb_gt; lia).
  replace (2 ^ 63 - 33 <=? n) with false by (symmetry; apply Z.leb_gt; lia).
  now rewrite Ha.
Qed.

Lemma read_request_get (method : str) (parsed : ParseResult) st :
  urlparse (path self) = Parsed parsed ->
  str_eqb method (lit "POST") = false ->
  read_request self method st
  = (Ret (path_parts_of (pr_path parsed), parse_qs (pr_query parsed), None), st).
Proof.
  intros Hp Hm. unfold read_request, _parse_path, bind, call, ret.
  now rewrite Hp, Hm.
Qed.

Lemma read_request_post (parsed : ParseResult) (text : str) st :
  urlparse (path self) = Parsed parsed ->
  _read_body self st = (Ret text, st) ->
  read_request self (lit "POST") st
  = (Ret (path_parts_of (pr_path parsed), parse_qs (pr_query parsed), Some text),
     st).
Proof.
  intros Hp Hb. unfold read_request.
  erewrite bind_ret
    by (unfold _parse_path, call; rewrite Hp; reflexivity).
  change (str_eqb (lit "POST") (lit "POST")) with true. cbv iota.
  erewrite bind_ret by (erewrite bind_ret by exact Hb; reflexivity).
  reflexivity.
Qed.

Lemma get_first_run (query_params : dict (list str)) (key : string) st :
  dict_get (lit key) query_params <> Some [] ->
  get_first query_params key st
  = (Ret (match dict_get (lit key) query_params with
          | Some (v :: _) => Some v
          | _ => None
          end), st).
Proof.
  intros H. unfold get_first.
  destruct (dict_get _ _) as [[|v l]|]; try reflexivity. congruence.
Qed.

Lemma _handle_whatsapp_ok (query_params : dict (list str))
    (phone apikey text : str) (lp la lt : list str) st :
  dict_get (lit "phone") query_params = Some (phone :: lp) ->
  dict_get (lit "apikey") query_params = Some (apikey :: la) ->
  dict_get (lit "text") query_params = Some (text :: lt) ->
  phone <> [] -> apikey <> [] -> text <> [] ->
  _handle_whatsapp w query_params st
  = replied w st 200
      (Json.dumps (whatsapp_response phone text (clock w (time_calls st)))) 1.
Proof.
  intros Hp Ha Ht Np Na Nt. unfold _handle_whatsapp.
  erewrite bind_ret by (apply get_first_run; congruence).
  erewrite bind_ret by (apply get_first_run; congruence).
  erewrite bind_ret by (apply get_first_run; congruence).
  rewrite Hp, Ha, Ht.
  destruct phone; [congruence|]. destruct apikey; [congruence|].
  destruct text; [congruence|].
  erewrite bind_ret by reflexivity.
  now rewrite send_json_replied.
Qed.

Lemma _handle_whatsapp_missing (query_params : dict (list str)) st :
  (forall key, dict_get key query_params <> Some []) ->
  missing_or_empty query_params "phone"
  \/ missing_or_empty query_params "apikey"
  \/ missing_or_empty query_params "text" ->
  _handle_whatsapp w query_params st
  = replied w st 400 (Json.dumps (whatsapp_error query_params)) 0.
Proof.
  intros Hwf Hm. unfold _handle_whatsapp.
  erewrite bind_ret by (apply get_first_run, Hwf).
  erewrite bind_ret by (apply get_first_run, Hwf).
  erewrite bind_ret by (apply get_first_run, Hwf).
  unfold missing_or_empty in Hm.
  destruct (dict_get (lit "phone") query_params) as [[|[|c p] lp]|] eqn:Ep;
    try apply send_json_replied;
    destruct (dict_get (lit "apikey") query_params) as [[|[|c' a] la]|] eqn:Ea;
    try apply send_json_replied;
    destruct (dict_get (lit "text") query_params) as [[|[|c'' t] lt]|] eqn:Et;
    try apply send_json_replied.
  exfalso.
  destruct Hm as [[H|[m H]]|[[H|[m H]]|[H|[m H]]]]; congruence.
Qed.

(** [_handle_request] is its three parts in a row. *)
Lemma _handle_request_run (method : str) parts query_params body st st' :
  read_request self method st = (Ret (parts, query_params, body), st) ->
  apply_default_delay w st = (Ret tt, st') ->
  _handle_request w self method st
  = dispatch w self method parts query_params body st'.
Proof.
  intros Hread Hdelay. unfold _handle_request.
  erewrite bind_ret by exact Hread.
  erewrite bind_ret by exact Hdelay.
  reflexivity.
Qed.

(** A request that does not reach the routes writes nothing. *)
Lemma _handle_request_cases (method : str) :
  (exists e tr, run (_handle_request w self method)
                = (Raise e, {| _headers_buffer := []; trace := tr; time_calls := 0 |})
                /\ written tr = [])
  \/ (exists parts query_params body tr,
        read_request self method initial = (Ret (parts, query_params, body), initial)
        /\ written tr = []
        /\ run (_handle_request w self method)
           = dispatch w self method parts query_params body
               {| _headers_buffer := []; trace := tr; time_calls := 0 |}).
Proof.
  unfold run, _handle_request.
  destruct (read_request_pure method initial) as [[[[parts qp] body]|e] Hread].
  - destruct (apply_default_delay_quiet initial) as (o & tr & Hdelay & Htr).
    destruct o as [[]|e].
    + right. exists parts, qp, body, tr. repeat split; auto.
      erewrite bind_ret by exact Hread.
      erewrite bind_ret by exact Hdelay. reflexivity.
    + left. exists e, tr. split; auto.
      erewrite bind_ret by exact Hread.
      erewrite bind_raise by exact Hdelay. reflexivity.
  - left. exists e, []. split; auto.
    erewrite bind_raise by exact Hread. reflexivity.
Qed.

Lemma _handle_default_run (status : Z) st :
  py_int (getenv w "MOCK_HTTP_STATUS" "200") = Parsed status ->
  _handle_default w st
  = replied w st status
      (Json.dumps (JObj
         [ (lit "message", JStr (lit "painlessMesh Mock HTTP Server"));
           (lit "status", JStr (lit "ok"));
           (lit "timestamp", JFloat (clock w (time_calls st))) ])) 1.
Proof.
  intros Hs. unfold _handle_default.
  unfold call at 1. rewrite Hs. unfold bind at 1. cbn [of_parse].
  erewrite bind_ret by reflexivity.
  now rewrite send_json_replied.
Qed.

End Scenarios.

Lemma str_eqb_refl (a : str) : str_eqb a a = true.
Proof. unfold str_eqb. destruct (list_eq_dec N.eq_dec a a); congruence. Qed.

Lemma str_eqb_neq (a b : str) : a <> b -> str_eqb a b = false.
Proof. unfold str_eqb. destruct (list_eq_dec N.eq_dec a b); congruence. Qed.

Lemma str_eqb_eq (a b : str) : str_eqb a b = true -> a = b.
Proof. unfold str_eqb. destruct (list_eq_dec N.eq_dec a b); congruence. Qed.

(** A float from zero up that is not above zero is a zero. *)
Lemma default_wait_total (d : float) :
  fle (float_of_int 0) d = true ->
  (total_suspension (default_wait d) == float_Q d)%Q.
Proof.
  unfold default_wait, total_suspension.
  destruct d as [s|s| |s m e]; try discriminate; try reflexivity.
  - destruct s; [discriminate|]. intros _. reflexivity.
  - destruct s; [discriminate|]. intros _.
    cbn [flt SFltb SFcompare float_of_int binary_normalize suspensions
         flat_map app fold_right].
    apply Qplus_0_r.
Qed.

Lemma suspensions_app (a b : list event) :
  suspensions (a ++ b) = suspensions a ++ suspensions b.
Proof. apply flat_map_app. Qed.

Lemma total_suspension_app (a b : list event) :
  (total_suspension (a ++ b) == total_suspension a + total_suspension b)%Q.
Proof.
  unfold total_suspension. rewrite suspensions_app.
  induction (suspensions a) as [|x xs IH]; simpl.
  - now rewrite Qplus_0_l.
  - rewrite IH. apply Qplus_assoc.
Qed.

Lemma written_app (a b : list event) : written (a ++ b) = written a ++ written b.
Proof. apply filter_app. Qed.

Lemma statuses_app (a b : list event) : statuses (a ++ b) = statuses a ++ statuses b.
Proof. apply flat_map_app. Qed.

Lemma written_default_wait (d : float) : written (default_wait d) = [].
Proof. unfold default_wait. now destruct (flt _ _). Qed.

Lemma statuses_default_wait (d : float) : statuses (default_wait d) = [].
Proof. unfold default_wait. now destruct (flt _ _). Qed.

End ScenarioFacts.

(* ================================================================== *)
(** * Every response is framed                                         *)
(* ================================================================== *)

Module FramedFacts.
Import Http Spec PyFacts HttpFacts SendFacts Mock.
Local Open Scope py_scope.

Lemma framed_app (a b : list event) : framed a -> framed b -> framed (a ++ b).
Proof. induction 1; simpl; auto using framed. Qed.

Lemma adds_nothing {A} (m : M A) :
  (forall st, trace (snd (m st)) = trace st) -> adds_framed m.
Proof.
  intros H st. exists []. rewrite app_nil_r. split; [apply H | constructor].
Qed.

Lemma adds_ret {A} (a : A) : adds_framed (ret a).
Proof. now apply adds_nothing. Qed.

Lemma adds_raise {A} (e : exn) : adds_framed (@raise A e).
Proof. now apply adds_nothing. Qed.

Lemma adds_call {A} (o : outcome A) : adds_framed (call o).
Proof. now apply adds_nothing. Qed.

Lemma adds_bind {A B} (m : M A) (k : A -> M B) :
  adds_framed m -> (forall a, adds_framed (k a)) -> adds_framed (bind m k).
Proof.
  intros Hm Hk st. unfold bind.
  destruct (Hm st) as (tr1 & E1 & F1).
  destruct (m st) as [[a|e] st1]; cbn [snd] in *.
  - destruct (Hk a st1) as (tr2 & E2 & F2).
    exists (tr1 ++ tr2). split; [|now apply framed_app].
    now rewrite E2, E1, app_assoc.
  - eauto.
Qed.

Lemma adds_try {A} (m : M A) caught (h : exn -> M A) :
  adds_framed m -> (forall e, adds_framed (h e)) ->
  adds_framed (try_except m caught h).
Proof.
  intros Hm Hh st. unfold try_except.
  destruct (Hm st) as (tr1 & E1 & F1).
  destruct (m st) as [[a|e] st1]; cbn [snd] in *; [eauto|].
  destruct (caught e); cbn [snd]; [|eauto].
  destruct (Hh e st1) as (tr2 & E2 & F2).
  exists (tr1 ++ tr2). split; [|now apply framed_app].
  now rewrite E2, E1, app_assoc.
Qed.

Lemma adds_time_sleep (secs : float) : adds_framed (time_sleep secs).
Proof.
  intros st.
  destruct (time_sleep_quiet secs st) as (o & tr & -> & [-> | ->]);
    eexists; (split; [reflexivity|]); repeat constructor.
Qed.

Section Handlers.
Context {lib : PyLib} (w : world) (self : request).

Lemma adds_time_time : adds_framed (time_time w).
Proof. now apply adds_nothing. Qed.

Lemma envelope_head (code : Z) (ct : str) (data : bytes) (buffered : list hline) :
  envelope ct (buffered ++ response_head w code ct data) data.
Proof.
  unfold envelope, response_head.
  repeat split; apply in_or_app; right; simpl; auto 10.
Qed.

(** The helper writes a head with its envelope and the body, or nothing. *)
Lemma _send_response_cases (code : Z) (ct : str) (body : option str) st :
  match _send_response w code ct body st with
  | (Ret _, st') =>
      exists lines data,
        trace st' = trace st ++ [WriteHead lines; WriteBody data]
        /\ utf8_encode (body_text w code body (time_calls st)) = Some data
        /\ envelope ct lines data
  | (Raise _, st') => trace st' = trace st
  end.
Proof.
  destruct (latin1_ok ct) eqn:Hct.
  - destruct (utf8_encode (body_text w code body (time_calls st))) as [data|] eqn:Hd.
    + rewrite (_send_response_ok w code ct body st data Hct Hd).
      eexists _, data. split; [reflexivity|]. split; [reflexivity|].
      apply envelope_head.
    + destruct (_send_response_raises w code ct body st (or_intror Hd))
        as (e & st' & -> & Ht). exact Ht.
  - destruct (_send_response_raises w code ct body st (or_introl Hct))
      as (e & st' & -> & Ht). exact Ht.
Qed.

Lemma adds_send (code : Z) (body : option str) :
  adds_framed (_send_response w code application_json body).
Proof.
  intros st. pose proof (_send_response_cases code application_json body st) as H.
  destruct (_send_response w code application_json body st) as [[[]|e] st'];
    cbn [snd].
  - destruct H as (lines & data & Ht & _ & Henv).
    exists [WriteHead lines; WriteBody data]. split; [exact Ht|].
    apply framed_reply; [exact Henv | constructor].
  - exists []. rewrite app_nil_r. split; [exact H | constructor].
Qed.

Ltac adds :=
  repeat match goal with
         | |- forall _, _ => intro
         | |- adds_framed (ret _) => apply adds_ret
         | |- adds_framed (raise _) => apply adds_raise
         | |- adds_framed (call _) => apply adds_call
         | |- adds_framed (time_time _) => apply adds_time_time
         | |- adds_framed (time_sleep _) => apply adds_time_sleep
         | |- adds_framed (_send_response _ _ application_json _) => apply adds_send
         | |- adds_framed (bind _ _) => apply adds_bind
         | |- adds_framed (try_except _ _ _) => apply adds_try
         | |- adds_framed (if ?c then _ else _) => destruct c
         | |- adds_framed (match ?x with _ => _ end) => destruct x
         end.

Lemma adds_default : adds_framed (_handle_default w).
Proof. unfold _handle_default. adds. Qed.

Lemma adds_status (code_str : str) : adds_framed (_handle_status w code_str).
Proof. unfold _handle_status. adds. Qed.

Lemma adds_delay (delay_str : str) : adds_framed (_handle_delay w delay_str).
Proof. unfold _handle_delay. adds. Qed.

Lemma adds_timeout : adds_framed _handle_timeout.
Proof. unfold _handle_timeout. adds. Qed.

Lemma adds_echo (method : str) (query_params : dict (list str)) (body : option str) :
  adds_framed (_handle_echo w self method query_params body).
Proof. unfold _handle_echo. adds. Qed.

Lemma adds_whatsapp (query_params : dict (list str)) :
  adds_framed (_handle_whatsapp w query_params).
Proof. unfold _handle_whatsapp, get_first. adds. Qed.

Lemma adds_health : adds_framed (_handle_health w).
Proof. unfold _handle_health. adds. Qed.

Lemma adds_not_found : adds_framed (_handle_not_found w self).
Proof. unfold _handle_not_found. adds. Qed.

Lemma adds_dispatch (method : str) (parts : list str)
    (query_params : dict (list str)) (body : option str) :
  adds_framed (dispatch w self method parts query_params body).
Proof.
  unfold dispatch.
  adds;
    auto using adds_default, adds_status, adds_delay, adds_timeout, adds_echo,
      adds_whatsapp, adds_health, adds_not_found.
Qed.

Lemma adds_handle_request (method : str) :
  adds_framed (_handle_request w self method).
Proof.
  unfold _handle_request, read_request, _parse_path, _read_body,
    apply_default_delay.
  adds; apply adds_dispatch.
Qed.

End Handlers.
End FramedFacts.

(* ================================================================== *)
(** * The properties of the specification                              *)
(* ================================================================== *)

Import Http Spec Mock.

Section StatusScenario.
Context {lib : PyLib} (w : world).

(** C1. For every path segment [code_str]: when it parses as an integer
    [code] with 100 <= code <= 599, the status scenario writes one response
    whose status line carries exactly [code] and whose body is the JSON
    object with the keys [requested_status] (equal to [code]), [message] and
    [timestamp]; when it does not parse, or parses to a value outside
    [100, 599], the scenario writes one response of status 400 whose body is
    [{error: "Invalid status code", provided: code_str}]. *)
Theorem status_scenario (code_str : str) :
  (forall code, py_int code_str = Parsed code -> 100 <= code <= 599 ->
     exists message,
       run (_handle_status w code_str)
       = finished
           (reply w code
              (Json.dumps (JObj [ (lit "requested_status", JInt code);
                                  (lit "message", JStr message);
                                  (lit "timestamp", JFloat (clock w 0)) ])))
           1)
  /\
  ((forall code, py_int code_str = Parsed code -> code < 100 \/ 599 < code) ->
     run (_handle_status w code_str)
     = finished
         (reply w 400
            (Json.dumps (JObj [ (lit "error", JStr (lit "Invalid status code"));
                                (lit "provided", JStr code_str) ])))
         0).
Proof.
  split.
  - intros code Hp Hr. eexists. unfold run.
    rewrite (ScenarioFacts._handle_status_valid w code_str code initial Hp Hr).
    reflexivity.
  - intros Hp. unfold run.
    rewrite (ScenarioFacts._handle_status_invalid w code_str initial Hp).
    reflexivity.
Qed.

End StatusScenario.

(** The theorem at the segments [404] and [abc] of CPython. *)
Lemma status_scenario_witness :
  (exists message,
     run (@_handle_status CPython.lib http_1 Sample.w (lit "404"))
     = finished
         (@reply CPython.lib Sample.w 404
            (@Json.dumps CPython.lib
               (JObj [ (lit "requested_status", JInt 404);
                       (lit "message", JStr message);
                       (lit "timestamp", JFloat (clock Sample.w 0)) ])))
         1)
  /\ run (@_handle_status CPython.lib http_1 Sample.w (lit "abc"))
     = finished
         (@reply CPython.lib Sample.w 400
            (@Json.dumps CPython.lib
               (JObj [ (lit "error", JStr (lit "Invalid status code"));
                       (lit "provided", JStr (lit "abc")) ])))
         0.
Proof.
  split.
  - apply (proj1 (@status_scenario CPython.lib Sample.w (lit "404")) 404).
    + vm_compute. reflexivity.
    + lia.
  - apply (proj2 (@status_scenario CPython.lib Sample.w (lit "abc"))).
    intros code H. vm_compute in H. discriminate H.
Defined.

Section StatusTwice.
Context {lib : PyLib}.

(** C9. The status scenario is deterministic up to the timestamp: two
    invocations with the same segment, in whatever two worlds (clock, date,
    environment), answer with the same status and with JSON objects that
    have the same keys and the same value under every key but
    [timestamp]. *)
Theorem status_deterministic (code_str : str) (w1 w2 : world) :
  exists status v1 v2 ticks,
    run (_handle_status w1 code_str) = finished (reply w1 status (Json.dumps v1)) ticks
    /\ run (_handle_status w2 code_str) = finished (reply w2 status (Json.dumps v2)) ticks
    /\ json_keys v1 = json_keys v2
    /\ forall key, key <> lit "timestamp" -> json_field key v1 = json_field key v2.
Proof.
  destruct (py_int code_str) as [code|msg] eqn:E.
  - destruct ((100 <=? code) && (code <=? 599)) eqn:Hr.
    + apply andb_true_iff in Hr as [Hlo Hhi].
      apply Z.leb_le in Hlo. apply Z.leb_le in Hhi.
      exists code, (status_response code (clock w1 0)),
             (status_response code (clock w2 0)), 1%nat.
      unfold run.
      rewrite !(ScenarioFacts._handle_status_valid _ code_str code initial E)
        by lia.
      repeat split.
      intros key Hkey. unfold json_field, status_response. cbn [dict_get].
      rewrite (ScenarioFacts.str_eqb_neq key (lit "timestamp") Hkey).
      reflexivity.
    + exists 400, (status_error code_str), (status_error code_str), 0%nat.
      unfold run.
      rewrite !(ScenarioFacts._handle_status_invalid _ code_str initial).
      * repeat split.
      * intros c Hc. assert (c = code) by congruence. subst c.
        apply andb_false_iff in Hr as [H|H];
          [apply Z.leb_gt in H | apply Z.leb_gt in H]; lia.
      * intros c Hc. assert (c = code) by congruence. subst c.
        apply andb_false_iff in Hr as [H|H];
          [apply Z.leb_gt in H | apply Z.leb_gt in H]; lia.
  - exists 400, (status_error code_str), (status_error code_str), 0%nat.
    unfold run.
    rewrite !(ScenarioFacts._handle_status_invalid _ code_str initial)
      by (intros c Hc; congruence).
    repeat split.
Qed.

End StatusTwice.

Section DelayScenario.
Context {lib : PyLib} (w : world).

(** C5. For every path segment [delay_str]: when it parses as a float
    [delay] with 0 <= delay <= 300, the delay scenario waits exactly
    [delay] seconds and then writes one response of status 200 whose body is
    the JSON object [{message, delay, timestamp}] with [delay] the parsed
    value; when it does not parse, or parses to a value that is not within
    [0, 300], it writes one response of status 400 with a JSON error body and
    waits for nothing. *)
Theorem delay_scenario (delay_str : str) :
  (forall delay, py_float delay_str = Parsed delay ->
     fle (float_of_int 0) delay = true -> fle delay (float_of_int 300) = true ->
     exists message,
       run (_handle_delay w delay_str)
       = finished
           (Sleep delay
            :: reply w 200
                 (Json.dumps (JObj [ (lit "message", JStr message);
                                     (lit "delay", JFloat delay);
                                     (lit "timestamp", JFloat (clock w 0)) ])))
           1)
  /\
  ((forall delay, py_float delay_str = Parsed delay ->
      ~ (fle (float_of_int 0) delay = true /\ fle delay (float_of_int 300) = true)) ->
     exists error,
       run (_handle_delay w delay_str)
       = finished
           (reply w 400
              (Json.dumps (JObj [ (lit "error", JStr error);
                                  (lit "provided", JStr delay_str) ])))
           0).
Proof.
  split.
  - intros delay Hp H0 H300. eexists. unfold run.
    rewrite (ScenarioFacts._handle_delay_valid w delay_str delay initial Hp H0 H300).
    reflexivity.
  - intros Hp. unfold run.
    destruct (ScenarioFacts._handle_delay_invalid w delay_str initial Hp) as [e ->].
    eexists. reflexivity.
Qed.

End DelayScenario.

(** The theorem at the segments [1.5] and [-1] of CPython. *)
Lemma delay_scenario_witness :
  (exists message,
     run (@_handle_delay CPython.lib http_1 Sample.w (lit "1.5"))
     = finished
         (Sleep (S754_finite false 6755399441055744 (-52))
          :: @reply CPython.lib Sample.w 200
               (@Json.dumps CPython.lib
                  (JObj [ (lit "message", JStr message);
                          (lit "delay", JFloat (S754_finite false 6755399441055744 (-52)));
                          (lit "timestamp", JFloat (clock Sample.w 0)) ])))
         1)
  /\ (exists error,
        run (@_handle_delay CPython.lib http_1 Sample.w (lit "-1"))
        = finished
            (@reply CPython.lib Sample.w 400
               (@Json.dumps CPython.lib
                  (JObj [ (lit "error", JStr error);
                          (lit "provided", JStr (lit "-1")) ])))
            0).
Proof.
  split.
  - apply (proj1 (@delay_scenario CPython.lib Sample.w (lit "1.5"))).
    + vm_compute. reflexivity.
    + vm_compute. reflexivity.
    + vm_compute. reflexivity.
  - apply (proj2 (@delay_scenario CPython.lib Sample.w (lit "-1"))).
    intros delay H. vm_compute in H. injection H as <-.
    intros [H _]. vm_compute in H. discriminate H.
Defined.

Section TimeoutScenario.
Context {lib : PyLib} (w : world) (self : request).

(** C3. The timeout scenario never produces a response. Routed to it from
    any state of the handler, it waits 3600 seconds and returns, with
    nothing written and nothing added to the header buffer; and a request
    whose path leads to it writes nothing to the connection from its first
    line to its last, whatever else happens to it, and leaves no header
    behind for a later flush. *)
Theorem timeout_never_responds (method : str) :
  (forall rest query_params body st,
     dispatch w self method (lit "timeout" :: rest) query_params body st
     = (Ret tt, slept st (float_of_int 3600)))
  /\
  ((forall parts query_params body,
      read_request self method initial = (Ret (parts, query_params, body), initial) ->
      exists rest, parts = lit "timeout" :: rest) ->
   written (trace (snd (run (_handle_request w self method)))) = []
   /\ _headers_buffer (snd (run (_handle_request w self method))) = []).
Proof.
  assert (Hroute : forall rest query_params body st,
             dispatch w self method (lit "timeout" :: rest) query_params body st
             = (Ret tt, slept st (float_of_int 3600))).
  { intros rest qp body st.
    change (dispatch w self method (lit "timeout" :: rest) qp body)
      with _handle_timeout.
    apply ScenarioFacts._handle_timeout_run. }
  split; [exact Hroute|].
  intros Hparts.
  destruct (ScenarioFacts._handle_request_cases w self method)
    as [(e & tr & -> & Htr) | (parts & qp & body & tr & Hread & Htr & ->)].
  - auto.
  - destruct (Hparts parts qp body Hread) as [rest ->].
    rewrite Hroute. cbn [snd slept trace _headers_buffer].
    rewrite ScenarioFacts.written_app, Htr. auto.
Qed.

End TimeoutScenario.

(** The theorem at [GET /timeout] of CPython. *)
Lemma timeout_never_responds_witness :
  written (trace (snd (run (@_handle_request CPython.lib http_1 Sample.w
                              (Sample.bare "/timeout") (lit "GET"))))) = []
  /\ _headers_buffer (snd (run (@_handle_request CPython.lib http_1 Sample.w
                                  (Sample.bare "/timeout") (lit "GET")))) = [].
Proof.
  apply (proj2 (@timeout_never_responds CPython.lib Sample.w
                  (Sample.bare "/timeout") (lit "GET"))).
  intros parts query_params body H. vm_compute in H.
  injection H as <- _ _. exists []. reflexivity.
Defined.

Section GlobalDelay.
Context {lib : PyLib} (w : world) (self : request).

(** C2. For every request that has been read (path parsed, body of a POST
    read) and every delay [d0 >= 0] of the environment that [time.sleep]
    takes, the wait of [d0] seconds is the one thing the handler has done
    when the routes are tried, whatever the route (the timeout and delay
    scenarios included); and on the delay scenario the two waits add up: the
    request waits [d0] and then the requested seconds, [d0 + seconds] in
    all, before its response of status 200. *)
Theorem global_delay_before_dispatch (method : str) (parts : list str)
    (query_params : dict (list str)) (body : option str) (d0 : float) :
  read_request self method initial = (Ret (parts, query_params, body), initial) ->
  py_float (getenv w "MOCK_HTTP_DELAY" "0") = Parsed d0 ->
  fle (float_of_int 0) d0 = true -> fle d0 sleep_limit = true ->
  run (_handle_request w self method)
  = dispatch w self method parts query_params body
      {| _headers_buffer := []; trace := default_wait d0; time_calls := 0 |}
  /\ (total_suspension (default_wait d0) == float_Q d0)%Q
  /\ forall delay_str rest seconds,
       parts = lit "delay" :: delay_str :: rest ->
       py_float delay_str = Parsed seconds ->
       fle (float_of_int 0) seconds = true ->
       fle seconds (float_of_int 300) = true ->
       exists text,
         run (_handle_request w self method)
         = finished (default_wait d0 ++ Sleep seconds :: reply w 200 text) 1
         /\ (total_suspension (default_wait d0 ++ Sleep seconds :: reply w 200 text)
             == float_Q d0 + float_Q seconds)%Q.
Proof.
  intros Hread Hd0 H0 Hl.
  assert (Hrun : run (_handle_request w self method)
                 = dispatch w self method parts query_params body
                     {| _headers_buffer := []; trace := default_wait d0;
                        time_calls := 0 |}).
  { unfold run.
    apply (ScenarioFacts._handle_request_run w self method parts query_params body).
    - exact Hread.
    - apply (ScenarioFacts.apply_default_delay_run w d0 initial Hd0 H0 Hl). }
  split; [exact Hrun|].
  split; [apply ScenarioFacts.default_wait_total, H0|].
  intros delay_str rest seconds -> Hp Hs0 Hs300.
  rewrite Hrun.
  change (dispatch w self method (lit "delay" :: delay_str :: rest) query_params body)
    with (_handle_delay w delay_str).
  rewrite (ScenarioFacts._handle_delay_valid w delay_str seconds _ Hp Hs0 Hs300).
  eexists. split.
  - unfold replied, finished, slept. cbn [_headers_buffer trace time_calls app].
    rewrite <- app_assoc. reflexivity.
  - rewrite ScenarioFacts.total_suspension_app.
    rewrite (ScenarioFacts.default_wait_total d0 H0).
    unfold total_suspension. cbn.
    now rewrite Qplus_0_r.
Qed.

End GlobalDelay.

(** The theorem at [GET /delay/1.5] of CPython with [MOCK_HTTP_DELAY=2]. *)
Lemma global_delay_before_dispatch_witness :
  exists text,
    run (@_handle_request CPython.lib http_1
           (Sample.world_of [(lit "MOCK_HTTP_DELAY", lit "2")])
           (Sample.bare "/delay/1.5") (lit "GET"))
    = finished
        (default_wait (float_of_int 2)
         ++ Sleep (S754_finite false 6755399441055744 (-52))
            :: @reply CPython.lib
                 (Sample.world_of [(lit "MOCK_HTTP_DELAY", lit "2")]) 200 text)
        1
    /\ (total_suspension
          (default_wait (float_of_int 2)
           ++ Sleep (S754_finite false 6755399441055744 (-52))
              :: @reply CPython.lib
                   (Sample.world_of [(lit "MOCK_HTTP_DELAY", lit "2")]) 200 text)
        == float_Q (float_of_int 2)
           + float_Q (S754_finite false 6755399441055744 (-52)))%Q.
Proof.
  refine (proj2 (proj2 (@global_delay_before_dispatch CPython.lib
                          (Sample.world_of [(lit "MOCK_HTTP_DELAY", lit "2")])
                          (Sample.bare "/delay/1.5") (lit "GET")
                          [lit "delay"; lit "1.5"] [] None (float_of_int 2)
                          _ _ _ _))
            (lit "1.5") [] (S754_finite false 6755399441055744 (-52)) _ _ _ _);
    vm_compute; reflexivity.
Defined.

Section EchoScenario.
Context {lib : PyLib} (w : world) (self : request).

(** C10. For every request whose path leads to the echo scenario, under a
    delay [d0 >= 0] of the environment that [time.sleep] takes, the response
    is status 200 with the JSON object of [_handle_echo], [{method, path,
    headers, query_params, body, client, timestamp}], in which: for a GET
    the [body] field is [null] (the body is read for a POST only); for a
    POST it is the empty string when there is no Content-Length header or
    it is zero (or less), and it is the text of the first Content-Length
    bytes of the request body, decoded as UTF-8, when the header is
    positive, the read of that many bytes is one the runtime converts and
    has the storage for, and the bytes decode. *)
Theorem echo_body_field (parsed : ParseResult) (rest : list str) (d0 : float) :
  urlparse (path self) = Parsed parsed ->
  path_parts_of (pr_path parsed) = lit "echo" :: rest ->
  py_float (getenv w "MOCK_HTTP_DELAY" "0") = Parsed d0 ->
  fle (float_of_int 0) d0 = true -> fle d0 sleep_limit = true ->
  let answered (method : str) (body : option str) :=
    run (_handle_request w self method)
    = finished
        (default_wait d0
         ++ reply w 200
              (Json.dumps_indent 2
                 (JObj
                    [ (lit "method", JStr method);
                      (lit "path", JStr (path self));
                      (lit "headers",
                       JObj (map (fun kv => (fst kv, JStr (snd kv)))
                               (Msg.to_dict (headers self))));
                      (lit "query_params",
                       JObj (map (fun kv => (fst kv, JList (map JStr (snd kv))))
                               (parse_qs (pr_query parsed))));
                      (lit "body",
                       match body with Some b => JStr b | None => JNull end);
                      (lit "client", JStr (fst (client_address self)));
                      (lit "timestamp", JFloat (clock w 0)) ])))
        1 in
  answered (lit "GET") None
  /\ (Msg.get (lit "Content-Length") (headers self) = None ->
      answered (lit "POST") (Some []))
  /\ (forall v n, Msg.get (lit "Content-Length") (headers self) = Some v ->
      py_int v = Parsed n -> n <= 0 ->
      answered (lit "POST") (Some []))
  /\ (forall v n text,
        Msg.get (lit "Content-Length") (headers self) = Some v ->
        py_int v = Parsed n -> 0 < n ->
        n < 2 ^ 63 - 33 -> allocates n = true ->
        decode_utf8 (firstn (Z.to_nat n) (rfile self)) = Ret text ->
        answered (lit "POST") (Some text)).
Proof.
  intros Hp Hparts Hd0 H0 Hl answered.
  assert (Hecho : forall method body,
             read_request self method initial
             = (Ret (path_parts_of (pr_path parsed), parse_qs (pr_query parsed), body),
                initial) ->
             answered method body).
  { intros method body Hread. unfold answered, run.
    rewrite (ScenarioFacts._handle_request_run w self method _ _ _ initial _ Hread
               (ScenarioFacts.apply_default_delay_run w d0 initial Hd0 H0 Hl)).
    rewrite Hparts.
    change (dispatch w self method (lit "echo" :: rest) (parse_qs (pr_query parsed)) body)
      with (_handle_echo w self method (parse_qs (pr_query parsed)) body).
    rewrite ScenarioFacts._handle_echo_run. reflexivity. }
  repeat split.
  - apply (Hecho (lit "GET") None).
    now apply ScenarioFacts.read_request_get.
  - intros Habsent. apply (Hecho (lit "POST") (Some [])).
    apply ScenarioFacts.read_request_post; [exact Hp|].
    now apply ScenarioFacts._read_body_absent.
  - intros v n Hv Hn Hle. apply (Hecho (lit "POST") (Some [])).
    apply ScenarioFacts.read_request_post; [exact Hp|].
    rewrite (ScenarioFacts._read_body_declared self v n initial Hv Hn).
    apply Z.ltb_ge in Hle. now rewrite Hle.
  - intros v n text Hv Hn Hpos Hfit Hmem Hdec.
    apply (Hecho (lit "POST") (Some text)).
    apply ScenarioFacts.read_request_post; [exact Hp|].
    rewrite (ScenarioFacts._read_body_declared self v n initial Hv Hn).
    apply Z.ltb_lt in Hpos.
    now rewrite Hpos, (ScenarioFacts.rfile_read_granted self n Hfit Hmem), Hdec.
Qed.

End EchoScenario.

(** The theorem at [POST /echo] of CPython with the five bytes [hello]. *)
Lemma echo_body_field_witness :
  run (@_handle_request CPython.lib http_1 Sample.w
         (Sample.carrying "/echo" "5" "hello") (lit "POST"))
  = finished
      (default_wait (float_of_int 0)
       ++ @reply CPython.lib Sample.w 200
            (@Json.dumps_indent CPython.lib 2
               (JObj
                  [ (lit "method", JStr (lit "POST"));
                    (lit "path", JStr (lit "/echo"));
                    (lit "headers",
                     JObj [ (lit "Host", JStr (lit "mock:8080"));
                            (lit "content-length", JStr (lit "5")) ]);
                    (lit "query_params", JObj []);
                    (lit "body", JStr (lit "hello"));
                    (lit "client", JStr (lit "127.0.0.1"));
                    (lit "timestamp", JFloat (float_of_int 1700000000)) ])))
      1.
Proof.
  refine (proj2 (proj2 (proj2
            (@echo_body_field CPython.lib Sample.w
               (Sample.carrying "/echo" "5" "hello")
               {| pr_scheme := []; pr_netloc := []; pr_path := lit "/echo";
                  pr_params := []; pr_query := []; pr_fragment := [] |}
               [] (float_of_int 0) _ _ _ _ _)))
            (lit "5") 5 (lit "hello") _ _ _ _ _ _);
    try (vm_compute; reflexivity).
Defined.

Section WhatsappScenario.
Context {lib : PyLib} (w : world).

(** C4. On a query mapping in which no key has an empty list of values
    (as [parse_qs] builds them), the whatsapp scenario answers 400 with
    [{error: "Missing required parameters", required: ["phone", "apikey",
    "text"], provided: <the supplied keys>}] if and only if one of [phone],
    [apikey], [text] is missing or empty; otherwise it answers 200 with the
    JSON object [{message, phone, text, timestamp}], where [phone] is the
    supplied value and [text] is the supplied value when it has at most 50
    characters and its first 50 characters followed by [...] when it has
    more. *)
Theorem whatsapp_scenario (query_params : dict (list str)) :
  (forall key, dict_get key query_params <> Some []) ->
  let lacking := missing_or_empty query_params "phone"
                 \/ missing_or_empty query_params "apikey"
                 \/ missing_or_empty query_params "text" in
  (lacking ->
   run (_handle_whatsapp w query_params)
   = finished
       (reply w 400
          (Json.dumps (JObj
             [ (lit "error", JStr (lit "Missing required parameters"));
               (lit "required", JList [JStr (lit "phone"); JStr (lit "apikey");
                                       JStr (lit "text")]);
               (lit "provided", JList (map JStr (dict_keys query_params))) ])))
       0)
  /\ (forall phone apikey text lp la lt,
        dict_get (lit "phone") query_params = Some (phone :: lp) ->
        dict_get (lit "apikey") query_params = Some (apikey :: la) ->
        dict_get (lit "text") query_params = Some (text :: lt) ->
        phone <> [] -> apikey <> [] -> text <> [] ->
        exists message,
          run (_handle_whatsapp w query_params)
          = finished
              (reply w 200
                 (Json.dumps (JObj
                    [ (lit "message", JStr message);
                      (lit "phone", JStr phone);
                      (lit "text",
                       JStr (if (50 <? List.length text)%nat
                             then firstn 50 text ++ lit "..."
                             else text));
                      (lit "timestamp", JFloat (clock w 0)) ])))
              1)
  /\ (statuses (trace (snd (run (_handle_whatsapp w query_params)))) = [400]
      <-> lacking).
Proof.
  intros Hwf lacking.
  assert (H400 : lacking ->
                 run (_handle_whatsapp w query_params)
                 = replied w initial 400 (Json.dumps (whatsapp_error query_params)) 0).
  { intros H. now apply ScenarioFacts._handle_whatsapp_missing. }
  assert (H200 : forall phone apikey text lp la lt,
             dict_get (lit "phone") query_params = Some (phone :: lp) ->
             dict_get (lit "apikey") query_params = Some (apikey :: la) ->
             dict_get (lit "text") query_params = Some (text :: lt) ->
             phone <> [] -> apikey <> [] -> text <> [] ->
             run (_handle_whatsapp w query_params)
             = replied w initial 200
                 (Json.dumps (whatsapp_response phone text (clock w 0))) 1).
  { intros.
    now apply ScenarioFacts._handle_whatsapp_ok
      with (lp := lp) (la := la) (lt := lt) (apikey := apikey). }
  split; [|split].
  - intros H. rewrite (H400 H). reflexivity.
  - intros phone apikey text lp la lt Hp Ha Ht Np Na Nt. eexists.
    rewrite (H200 phone apikey text lp la lt Hp Ha Ht Np Na Nt). reflexivity.
  - split; [|intros H; rewrite (H400 H); reflexivity].
    intros Hst.
    destruct (dict_get (lit "phone") query_params) as [[|[|c p] lp]|] eqn:Ep;
      try (left; unfold missing_or_empty; rewrite Ep; eauto; fail);
      try (exfalso; apply (Hwf _ Ep)).
    destruct (dict_get (lit "apikey") query_params) as [[|[|c' a] la]|] eqn:Ea;
      try (right; left; unfold missing_or_empty; rewrite Ea; eauto; fail);
      try (exfalso; apply (Hwf _ Ea)).
    destruct (dict_get (lit "text") query_params) as [[|[|c'' t] lt]|] eqn:Et;
      try (right; right; unfold missing_or_empty; rewrite Et; eauto; fail);
      try (exfalso; apply (Hwf _ Et)).
    exfalso.
    rewrite (H200 (c :: p) (c' :: a) (c'' :: t) lp la lt eq_refl eq_refl eq_refl)
      in Hst by discriminate.
    discriminate Hst.
Qed.

End WhatsappScenario.

(** The theorem at [phone=123&apikey=abc&text=hi] and at a query without
    [text], as CPython's [parse_qs] reads them. *)
Lemma whatsapp_scenario_witness :
  (exists message,
     run (@_handle_whatsapp CPython.lib http_1 Sample.w
            (CPython.parse_qs (lit "phone=123&apikey=abc&text=hi")))
     = finished
         (@reply CPython.lib Sample.w 200
            (@Json.dumps CPython.lib (JObj
               [ (lit "message", JStr message);
                 (lit "phone", JStr (lit "123"));
                 (lit "text", JStr (lit "hi"));
                 (lit "timestamp", JFloat (clock Sample.w 0)) ])))
         1)
  /\ statuses (trace (snd (run (@_handle_whatsapp CPython.lib http_1 Sample.w
                                  (CPython.parse_qs (lit "phone=123&apikey=abc"))))))
     = [400].
Proof.
  split.
  - refine (proj1 (proj2 (@whatsapp_scenario CPython.lib Sample.w
                            (CPython.parse_qs (lit "phone=123&apikey=abc&text=hi")) _))
              (lit "123") (lit "abc") (lit "hi") [] [] [] _ _ _ _ _ _);
      try (vm_compute; reflexivity); try discriminate.
    apply CPythonFacts.parse_qs_no_empty.
  - refine (proj2 (proj2 (proj2 (@whatsapp_scenario CPython.lib Sample.w
                                   (CPython.parse_qs (lit "phone=123&apikey=abc")) _)))
              _).
    + apply CPythonFacts.parse_qs_no_empty.
    + right. right. left. vm_compute. reflexivity.
Defined.

Section Segments.
Context {lib : PyLib}.

(** C6, amended. For every request path, the segment extraction returns
    the components of the path without its leading and trailing slashes,
    split on [/]: the sequence is never empty; joined by [/] it gives that
    path back, so an empty component stands between two adjacent slashes; a
    path of slashes only (the root [/] among them) yields the one empty
    component, which the router sends to the default scenario; any other
    path yields a first and a last component that are not empty; and the
    components that are not empty are the segments as the specification
    words them. *)
Theorem segments_of_path (p : str) :
  path_parts_of p <> []
  /\ join [slash] (path_parts_of p) = strip slash p
  /\ (strip slash p = [] -> path_parts_of p = [[]])
  /\ (strip slash p <> [] ->
      hd [] (path_parts_of p) <> [] /\ last (path_parts_of p) [] <> [])
  /\ filter nonempty (path_parts_of p) = spec_segments p
  /\ (forall w self method query_params body,
        dispatch w self method [[]] query_params body = _handle_default w).
Proof.
  unfold path_parts_of, spec_segments.
  split; [apply SplitFacts.split_not_nil|].
  split; [apply SplitFacts.join_split|].
  split; [now intros ->|].
  split; [|split; [|reflexivity]].
  - intros Hne. unfold strip in *.
    destruct (SplitFacts.rstrip_repeat slash (lstrip slash p)) as [n Hn].
    split.
    + destruct (rstrip slash (lstrip slash p)) as [|x t] eqn:Et; [congruence|].
      apply SplitFacts.split_head.
      apply (SplitFacts.lstrip_head slash x p (t ++ repeat slash n)).
      now rewrite Hn.
    + destruct (exists_last Hne) as (t & x & Et). rewrite Et.
      apply SplitFacts.split_last.
      exact (SplitFacts.rstrip_last slash x _ _ Et).
  - unfold strip.
    destruct (SplitFacts.lstrip_repeat slash p) as [n Hn].
    destruct (SplitFacts.rstrip_repeat slash (lstrip slash p)) as [m Hm].
    rewrite Hn at 2. rewrite SplitFacts.filter_split_leading.
    rewrite Hm at 2. now rewrite SplitFacts.filter_split_trailing.
Qed.

End Segments.

(** The theorem at the root path and at [/echo//x]. *)
Lemma segments_of_path_witness :
  path_parts_of (lit "/") = [[]]
  /\ hd [] (path_parts_of (lit "/echo//x")) <> []
  /\ last (path_parts_of (lit "/echo//x")) [] <> [].
Proof.
  split.
  - apply (proj1 (proj2 (proj2 (@segments_of_path CPython.lib (lit "/"))))).
    vm_compute. reflexivity.
  - apply (proj1 (proj2 (proj2 (proj2 (@segments_of_path CPython.lib
                                         (lit "/echo//x")))))).
    vm_compute. discriminate.
Defined.

(** C6 as stated fails: the root path yields one empty segment, not the
    empty sequence, and [/echo//x] yields an empty segment between its two
    slashes; CPython's [urlparse] hands both paths over unchanged. *)
Lemma segments_counterexample :
  path_parts_of (lit "/") = [[]]
  /\ path_parts_of (lit "/") <> spec_segments (lit "/")
  /\ path_parts_of (lit "/echo//x") = [lit "echo"; []; lit "x"]
  /\ path_parts_of (lit "/echo//x") <> spec_segments (lit "/echo//x")
  /\ run (@_parse_path CPython.lib (Sample.bare "/echo//x"))
     = (Ret ([lit "echo"; []; lit "x"], []), initial).
Proof.
  repeat split; try (vm_compute; reflexivity); vm_compute; discriminate.
Qed.

Section Envelope.
Context {lib : PyLib} (w : world).

(** C7, amended. For a request of HTTP/1.0 or later, every response built
    by [_send_response], for every status, content type and body, goes out
    as a head followed by the body, the body being the UTF-8 encoding of the
    text, and the head carrying a Content-Length header equal to the number
    of bytes of the body, an Access-Control-Allow-Origin header with value
    [*], the Content-Type header and the Server header of the mock server;
    the helper answers every JSON text, and every response of every request
    through [_handle_request], whatever the scenario, is such a response.
    For an HTTP/0.9 request (a request line without a version) the library
    writes no status line and no header: the response of the helper is the
    body alone, the UTF-8 encoding of the text, with none of the four
    headers, whatever the content type. Under either protocol the helper
    writes nothing when it raises. *)
Theorem response_envelope :
  (forall status_code content_type body st,
     match _send_response (proto := http_1) w status_code content_type body st with
     | (Ret _, st') =>
         exists lines data,
           trace st' = trace st ++ [WriteHead lines; WriteBody data]
           /\ utf8_encode (body_text w status_code body (time_calls st)) = Some data
           /\ In (Header (lit "Content-Length")
                    (str_of_int (Z.of_nat (List.length data)))) lines
           /\ In (Header (lit "Access-Control-Allow-Origin") (lit "*")) lines
           /\ In (Header (lit "Content-Type") content_type) lines
           /\ In (Header (lit "Server") (lit "painlessMesh-MockServer/1.0")) lines
     | (Raise _, st') => trace st' = trace st
     end)
  /\ (forall status_code v st,
        exists st', _send_response (proto := http_1) w status_code
                      application_json (Some (Json.dumps v)) st = (Ret tt, st'))
  /\ (forall self method,
        framed (trace (snd (run (_handle_request (proto := http_1) w self
                                   method)))))
  /\ (forall status_code content_type body st,
        match _send_response (proto := http_0_9) w status_code content_type body
                st with
        | (Ret _, st') =>
            exists data,
              trace st' = trace st ++ [WriteBody data]
              /\ utf8_encode (body_text w status_code body (time_calls st))
                 = Some data
              /\ _headers_buffer st' = _headers_buffer st
        | (Raise _, st') => trace st' = trace st
        end).
Proof.
  split; [|split; [|split]].
  - intros code ct body st.
    pose proof (FramedFacts._send_response_cases w code ct body st) as H.
    destruct (_send_response w code ct body st) as [[[]|e] st']; [|exact H].
    destruct H as (lines & data & Ht & Hd & Hcl & Hac & Hct & Hsv).
    exists lines, data. auto 10.
  - intros code v st. rewrite ScenarioFacts.send_json_replied.
    unfold replied. eauto.
  - intros self method.
    destruct (FramedFacts.adds_handle_request w self method initial)
      as (tr & Ht & Hf).
    unfold run. now rewrite Ht.
  - intros code ct body st.
    unfold _send_response, send_response, send_response_only, send_header,
      end_headers.
    cbn [version_0_9 http_0_9].
    do 4 (erewrite HttpFacts.bind_ret by reflexivity).
    erewrite HttpFacts.bind_ret by apply SendFacts.body_ready.
    unfold call at 1, encode_utf8.
    destruct (utf8_encode (body_text w code body (time_calls st))) as [data|].
    + unfold bind, ret, wfile_write, emit.
      cbn [_headers_buffer trace time_calls]. eauto.
    + unfold bind. reflexivity.
Qed.

End Envelope.

(** C7 as stated fails for a request line without a version: to
    [GET /health] the server of CPython sends the JSON body of the health
    scenario and nothing else, no status line and none of the four
    headers. *)
Lemma envelope_counterexample :
  exists data,
    @handle CPython.lib http_0_9 Sample.w (Sample.bare "/health") "GET"
    = Some (Ret tt, {| _headers_buffer := []; trace := [WriteBody data];
                       time_calls := 2 |})
    /\ data <> []
    /\ ~ framed [WriteBody data].
Proof.
  eexists. split; [vm_compute; reflexivity|].
  split; [discriminate|]. intros H. inversion H.
Qed.

Section Configuration.
Context {lib : PyLib}.

(** C8, amended. The listening address (host and port) is fixed at process
    start, from the environment and the flags of that moment. The global
    delay and the status of the default scenario are not: each request reads
    [MOCK_HTTP_DELAY] and [MOCK_HTTP_STATUS] from the environment as it is
    while the request is handled. Every request read in a world [w], on
    every route, waits the delay of [w] before anything else (when it is
    above zero; nothing when it is not), and then goes to its route; on the
    default scenario it answers with the status of [w]. The delay and the
    status are those of the process start whenever the variable reads the
    same in [w] as it did then. (The delay is one that [float] reads and
    that is no more than the longest wait of the platform: any other ends
    the request before its route.) *)
Theorem config_read_per_request (w0 w : world) (flag_host : option str)
    (flag_port : option Z) (cfg : spec_ServerConfig) :
  spec_startup_config w0 flag_host flag_port = Ret cfg ->
  server_address w0 flag_host flag_port = Ret (host cfg, port cfg)
  /\ (forall self method parts query_params body delay,
        read_request self method initial
        = (Ret (parts, query_params, body), initial) ->
        py_float (getenv w "MOCK_HTTP_DELAY" "0") = Parsed delay ->
        flt sleep_limit delay = false ->
        run (_handle_request w self method)
        = dispatch w self method parts query_params body
            {| _headers_buffer := []; trace := default_wait delay;
               time_calls := 0 |}
        /\ (exists tr,
              trace (snd (run (_handle_request w self method)))
              = default_wait delay ++ tr)
        /\ (getenv w "MOCK_HTTP_DELAY" "0" = getenv w0 "MOCK_HTTP_DELAY" "0" ->
            delay = default_delay_seconds cfg)
        /\ (forall status,
              hd [] parts = [] ->
              py_int (getenv w "MOCK_HTTP_STATUS" "200") = Parsed status ->
              (exists text,
                 run (_handle_request w self method)
                 = finished (default_wait delay ++ reply w status text) 1)
              /\ (getenv w "MOCK_HTTP_STATUS" "200"
                  = getenv w0 "MOCK_HTTP_STATUS" "200" ->
                  status = default_status cfg))).
Proof.
  intros Hcfg. unfold spec_startup_config in Hcfg.
  destruct (server_address w0 flag_host flag_port) as [[h p]|e] eqn:Ha;
    [|discriminate].
  destruct (py_float (getenv w0 "MOCK_HTTP_DELAY" "0")) as [d|m] eqn:Hd;
    [|discriminate].
  destruct (py_int (getenv w0 "MOCK_HTTP_STATUS" "200")) as [s|m] eqn:Hs;
    [|discriminate].
  injection Hcfg as <-. cbn [host port default_delay_seconds default_status].
  split; [reflexivity|].
  intros self method parts qp body delay Hread Hdelay Hl.
  assert (Hrun : run (_handle_request w self method)
                 = dispatch w self method parts qp body
                     {| _headers_buffer := []; trace := default_wait delay;
                        time_calls := 0 |}).
  { unfold run.
    apply (ScenarioFacts._handle_request_run w self method parts qp body).
    - exact Hread.
    - apply (ScenarioFacts.apply_default_delay_within w delay initial Hdelay Hl). }
  split; [exact Hrun|]. split; [|split].
  - destruct (FramedFacts.adds_dispatch w self method parts qp body
                {| _headers_buffer := []; trace := default_wait delay;
                   time_calls := 0 |}) as (tr & Ht & _).
    exists tr. rewrite Hrun. exact Ht.
  - intros E. rewrite E, Hd in Hdelay. now injection Hdelay.
  - intros status Hroot Hstatus. split.
    + eexists. rewrite Hrun.
      assert (Hd' : dispatch w self method parts qp body = _handle_default w).
      { destruct parts as [|p0 rest]; [reflexivity|].
        cbn [hd] in Hroot. subst p0. reflexivity. }
      rewrite Hd', (ScenarioFacts._handle_default_run w status _ Hstatus).
      unfold replied, finished. cbn [_headers_buffer trace time_calls app].
      reflexivity.
    + intros E. rewrite E, Hs in Hstatus. now injection Hstatus.
Qed.

End Configuration.

(** The theorem at CPython, the process started with no variable set and
    the requests handled with [MOCK_HTTP_STATUS=503] and
    [MOCK_HTTP_DELAY=2]: [GET /health] waits the 2 seconds first, and
    [GET /] answers 503 after them. *)
Lemma config_read_per_request_witness :
  (exists tr,
     trace (snd (run (@_handle_request CPython.lib http_1
                        (Sample.world_of [ (lit "MOCK_HTTP_STATUS", lit "503");
                                           (lit "MOCK_HTTP_DELAY", lit "2") ])
                        (Sample.bare "/health") (lit "GET"))))
     = default_wait (float_of_int 2) ++ tr)
  /\ (exists text,
        run (@_handle_request CPython.lib http_1
               (Sample.world_of [ (lit "MOCK_HTTP_STATUS", lit "503");
                                  (lit "MOCK_HTTP_DELAY", lit "2") ])
               (Sample.bare "/") (lit "GET"))
        = finished
            (default_wait (float_of_int 2)
             ++ @reply CPython.lib
                  (Sample.world_of [ (lit "MOCK_HTTP_STATUS", lit "503");
                                     (lit "MOCK_HTTP_DELAY", lit "2") ])
                  503 text)
            1).
Proof.
  split.
  - refine (proj1 (proj2 (proj2
              (@config_read_per_request CPython.lib Sample.w
                 (Sample.world_of [ (lit "MOCK_HTTP_STATUS", lit "503");
                                    (lit "MOCK_HTTP_DELAY", lit "2") ])
                 None None
                 {| host := lit "0.0.0.0"; port := 8080;
                    default_delay_seconds := float_of_int 0;
                    default_status := 200 |} _)
              (Sample.bare "/health") (lit "GET") [lit "health"] [] None
              (float_of_int 2) _ _ _)));
      vm_compute; reflexivity.
  - refine (proj1 (proj2 (proj2 (proj2 (proj2
              (@config_read_per_request CPython.lib Sample.w
                 (Sample.world_of [ (lit "MOCK_HTTP_STATUS", lit "503");
                                    (lit "MOCK_HTTP_DELAY", lit "2") ])
                 None None
                 {| host := lit "0.0.0.0"; port := 8080;
                    default_delay_seconds := float_of_int 0;
                    default_status := 200 |} _)
              (Sample.bare "/") (lit "GET") [[]] [] None (float_of_int 2)
              _ _ _))) 503 _ _));
      vm_compute; reflexivity.
Defined.

(** C8 as stated fails: a process started with no variable set has the
    configuration (delay 0, status 200), yet a request handled after
    [MOCK_HTTP_STATUS] has become 503 and [MOCK_HTTP_DELAY] has become 2 is
    answered 503 after a wait of 2 seconds. *)
Lemma config_counterexample :
  (exists cfg,
     @spec_startup_config CPython.lib Sample.w None None = Ret cfg
     /\ default_status cfg = 200
     /\ default_delay_seconds cfg = float_of_int 0)
  /\ statuses (trace (snd (run (@_handle_request CPython.lib http_1
                                  (Sample.world_of
                                     [ (lit "MOCK_HTTP_STATUS", lit "503");
                                       (lit "MOCK_HTTP_DELAY", lit "2") ])
                                  (Sample.bare "/") (lit "GET")))))
     = [503]
  /\ suspensions (trace (snd (run (@_handle_request CPython.lib http_1
                                     (Sample.world_of
                                        [ (lit "MOCK_HTTP_STATUS", lit "503");
                                          (lit "MOCK_HTTP_DELAY", lit "2") ])
                                     (Sample.bare "/") (lit "GET")))))
     = [float_of_int 2].
Proof.
  split; [|split]; [| vm_compute; reflexivity | vm_compute; reflexivity].
  eexists. split; [vm_compute; reflexivity|]. split; reflexivity.
Qed.

(* ================================================================== *)
(** * Runs of CPython on sample requests                               *)
(* ================================================================== *)

Section Runs.
Let lib := CPython.lib.
Existing Instance lib.

Example run_status_404 :
  handle Sample.w (Sample.bare "/status/404") "GET"
  = Some (finished
            (reply Sample.w 404
               (Json.dumps (JObj
                  [ (lit "requested_status", JInt 404);
                    (lit "message", JStr (lit "Mock response with status 404"));
                    (lit "timestamp", JFloat (float_of_int 1700000000)) ])))
            1).
Proof. vm_compute. reflexivity. Qed.

Example run_status_out_of_range :
  handle Sample.w (Sample.bare "/status/600") "GET"
  = Some (finished
            (reply Sample.w 400
               (Json.dumps (JObj
                  [ (lit "error", JStr (lit "Invalid status code"));
                    (lit "provided", JStr (lit "600")) ])))
            0).
Proof. vm_compute. reflexivity. Qed.

Example run_delay_not_a_number :
  handle Sample.w (Sample.bare "/delay/nan") "GET"
  = Some (finished
            (reply Sample.w 400
               (Json.dumps (JObj
                  [ (lit "error",
                     JStr (lit "Invalid delay: Invalid value NaN (not a number)"));
                    (lit "provided", JStr (lit "nan")) ])))
            0).
Proof. vm_compute. reflexivity. Qed.

Example run_status_without_code :
  option_map (fun r => statuses (trace (snd r)))
    (handle Sample.w (Sample.bare "/status") "GET")
  = Some [404].
Proof. vm_compute. reflexivity. Qed.

Example run_root_of_slashes :
  option_map (fun r => statuses (trace (snd r)))
    (handle Sample.w (Sample.bare "///") "POST")
  = Some [200].
Proof. vm_compute. reflexivity. Qed.

Example run_health :
  handle Sample.w (Sample.bare "/health") "GET"
  = Some (finished
            (reply Sample.w 200
               (Json.dumps (JObj
                  [ (lit "status", JStr (lit "healthy"));
                    (lit "server", JStr (lit "painlessMesh-MockServer"));
                    (lit "version", JStr (lit "1.0.0"));
                    (lit "uptime", JFloat (float_of_int 1000));
                    (lit "timestamp", JFloat (float_of_int 1700000001)) ])))
            2).
Proof. vm_compute. reflexivity. Qed.

Example run_options :
  handle Sample.w (Sample.bare "/anything") "OPTIONS"
  = Some (finished
            [ WriteHead
                [ StatusLine (lit "HTTP/1.0") 200 (lit "OK");
                  Header (lit "Server") (lit "BaseHTTP/0.6 Python/3.11.2");
                  Header (lit "Date") (lit "Tue, 03 Nov 2026 10:00:00 GMT");
                  Header (lit "Access-Control-Allow-Origin") (lit "*");
                  Header (lit "Access-Control-Allow-Methods")
                         (lit "GET, POST, OPTIONS");
                  Header (lit "Access-Control-Allow-Headers") (lit "Content-Type") ] ]
            0).
Proof. vm_compute. reflexivity. Qed.

Example run_other_command :
  handle Sample.w (Sample.bare "/") "DELETE" = None.
Proof. reflexivity. Qed.

(** A request line without a version and with another command than GET
    does not reach the handler. *)
Example run_post_without_version :
  @handle CPython.lib http_0_9 Sample.w (Sample.bare "/echo") "POST" = None.
Proof. reflexivity. Qed.

(** A POST whose Content-Length is no number dies in [_read_body], before
    the delay and before any route. *)
Example run_bad_content_length :
  option_map (fun r => trace (snd r))
    (handle (Sample.world_of [(lit "MOCK_HTTP_DELAY", lit "2")])
            (Sample.carrying "/echo" "five" "hello") "POST")
  = Some [].
Proof. vm_compute. reflexivity. Qed.

End Runs.

(* ================================================================== *)
(** * What the routes leave on the trace                               *)
(* ================================================================== *)

Module RouteFacts.
Import Http Spec Shape PyFacts HttpFacts SendFacts ScenarioFacts Mock.
Local Open Scope py_scope.

Section Routes.
Context {lib : PyLib} (w : world) (self : request).

(** [time.sleep] waits, or raises and leaves the handler as it was. *)
Lemma time_sleep_cases (secs : float) st :
  time_sleep secs st = (Ret tt, slept st secs)
  \/ exists e, time_sleep secs st = (Raise e, st).
Proof.
  unfold time_sleep, raise.
  destruct (is_nan secs); [eauto|].
  destruct (fle convert_limit (SFabs secs)); [eauto|].
  destruct (flt secs (float_of_int 0) || SFeqb secs wrap_point); [eauto|].
  destruct (flt sleep_limit secs); [eauto|].
  now left.
Qed.

Lemma _handle_health_run st :
  _handle_health w st
  = replied w st 200
      (Json.dumps (JObj
         [ (lit "status", JStr (lit "healthy"));
           (lit "server", JStr (lit "painlessMesh-MockServer"));
           (lit "version", JStr (lit "1.0.0"));
           (lit "uptime",
            JFloat (fsub (clock w (time_calls st)) (server_start_time w)));
           (lit "timestamp", JFloat (clock w (S (time_calls st)))) ])) 2.
Proof.
  unfold _handle_health.
  erewrite bind_ret by reflexivity.
  erewrite bind_ret by reflexivity.
  now rewrite send_json_replied.
Qed.

Lemma _handle_not_found_run st :
  _handle_not_found w self st
  = replied w st 404
      (Json.dumps (JObj
         [ (lit "error", JStr (lit "Endpoint not found"));
           (lit "path", JStr (path self));
           (lit "available_endpoints",
            JList (map (fun s => JStr (lit s))
                     [ "/"; "/status/{code}"; "/delay/{seconds}"; "/timeout";
                       "/echo"; "/whatsapp"; "/health" ]%string)) ])) 0.
Proof. apply send_json_replied. Qed.

Lemma _handle_default_invalid (msg : str) st :
  py_int (getenv w "MOCK_HTTP_STATUS" "200") = Invalid msg ->
  _handle_default w st = (Raise (ValueError msg), st).
Proof.
  intros Hs. unfold _handle_default.
  unfold call at 1. rewrite Hs. reflexivity.
Qed.

Lemma routes_replied (m : M unit) :
  (forall st, exists code text ticks, m st = replied w st code text ticks) ->
  routes w m.
Proof.
  intros H st Hb. destruct (H st) as (code & text & ticks & ->).
  exists (reply w code text). unfold replied. cbn [fst snd _headers_buffer trace].
  rewrite Hb. repeat split. constructor.
Qed.

Lemma routes_raised (m : M unit) st e :
  _headers_buffer st = [] -> m st = (Raise e, st) ->
  exists tr, _headers_buffer (snd (m st)) = []
             /\ trace (snd (m st)) = trace st ++ tr
             /\ route_trace w (fst (m st)) tr.
Proof.
  intros Hb ->. exists []. rewrite app_nil_r. repeat split; auto. constructor.
Qed.

Lemma routes_default : routes w (_handle_default w).
Proof.
  intros st Hb.
  destruct (py_int (getenv w "MOCK_HTTP_STATUS" "200")) as [status|msg] eqn:E.
  - revert st Hb. apply routes_replied. intros st.
    rewrite (_handle_default_run w status st E). eauto.
  - apply routes_raised with (e := ValueError msg); [exact Hb|].
    now apply _handle_default_invalid.
Qed.

Lemma routes_status (code_str : str) : routes w (_handle_status w code_str).
Proof.
  apply routes_replied. intros st.
  destruct (py_int code_str) as [code|msg] eqn:E.
  - destruct (Z_lt_dec code 100) as [Hlo|Hlo];
      [|destruct (Z_lt_dec 599 code) as [Hhi|Hhi]].
    + rewrite _handle_status_invalid; [eauto|].
      intros c Hc. rewrite E in Hc. injection Hc as <-. auto.
    + rewrite _handle_status_invalid; [eauto|].
      intros c Hc. rewrite E in Hc. injection Hc as <-. auto.
    + rewrite (_handle_status_valid w code_str code st E); [eauto|lia].
  - rewrite _handle_status_invalid; [eauto|]. intros c Hc. rewrite E in Hc. discriminate.
Qed.

Lemma routes_delay (delay_str : str) : routes w (_handle_delay w delay_str).
Proof.
  intros st Hb.
  assert (Hbad : (forall delay, py_float delay_str = Parsed delay ->
                    ~ (fle (float_of_int 0) delay = true
                       /\ fle delay (float_of_int 300) = true)) ->
                 exists tr,
                   _headers_buffer (snd (_handle_delay w delay_str st)) = []
                   /\ trace (snd (_handle_delay w delay_str st)) = trace st ++ tr
                   /\ route_trace w (fst (_handle_delay w delay_str st)) tr).
  { intros H. destruct (_handle_delay_invalid w delay_str st H) as [e ->].
    eexists. unfold replied. cbn [fst snd _headers_buffer trace].
    rewrite Hb. repeat split. constructor. }
  destruct (py_float delay_str) as [delay|msg] eqn:E.
  - destruct (fle (float_of_int 0) delay) eqn:H0;
      [destruct (fle delay (float_of_int 300)) eqn:H300|].
    + rewrite (_handle_delay_valid w delay_str delay st E H0 H300).
      exists (Sleep delay :: reply w 200
                (Json.dumps (delay_response delay (clock w (time_calls st))))).
      unfold replied, slept. cbn [fst snd _headers_buffer trace].
      rewrite Hb, <- app_assoc. repeat split. now constructor.
    + apply Hbad. intros d Hd. injection Hd as <-. intros [_ H]. congruence.
    + apply Hbad. intros d Hd. injection Hd as <-. intros [H _]. congruence.
  - apply Hbad. intros d Hd. discriminate.
Qed.

Lemma routes_timeout : routes w _handle_timeout.
Proof.
  intros st Hb. rewrite _handle_timeout_run.
  exists [Sleep (float_of_int 3600)]. repeat split; auto. constructor.
Qed.

Lemma routes_echo method qp body : routes w (_handle_echo w self method qp body).
Proof.
  apply routes_replied. intros st. rewrite _handle_echo_run. eauto.
Qed.

Lemma routes_whatsapp qp : routes w (_handle_whatsapp w qp).
Proof.
  intros st Hb. unfold _handle_whatsapp.
  assert (Hreply : forall code v ticks (st' : hstate),
             _headers_buffer st' = [] -> trace st' = trace st ->
             exists tr,
               _headers_buffer
                 (snd (replied w st' code (Json.dumps v) ticks)) = []
               /\ trace (snd (replied w st' code (Json.dumps v) ticks))
                  = trace st ++ tr
               /\ route_trace w (fst (replied w st' code (Json.dumps v) ticks)) tr).
  { intros code v ticks st' Hb' Ht. eexists. unfold replied.
    cbn [fst snd _headers_buffer trace]. rewrite Hb', Ht.
    repeat split. constructor. }
  assert (Hraise : forall e,
             exists tr,
               _headers_buffer (snd (Raise e : outcome unit, st)) = []
               /\ trace (snd (Raise e : outcome unit, st)) = trace st ++ tr
               /\ route_trace w (fst (Raise e : outcome unit, st)) tr).
  { intros e. exists []. rewrite app_nil_r. repeat split; auto. constructor. }
  unfold get_first.
  destruct (dict_get (lit "phone") qp) as [[|p lp]|];
    [apply Hraise| |];
    (erewrite bind_ret by reflexivity);
    (destruct (dict_get (lit "apikey") qp) as [[|a la]|];
     [apply Hraise| |]);
    (erewrite bind_ret by reflexivity);
    (destruct (dict_get (lit "text") qp) as [[|t lt]|];
     [apply Hraise| |]);
    (erewrite bind_ret by reflexivity);
    try (rewrite send_json_replied; now apply Hreply);
    destruct p; try (rewrite send_json_replied; now apply Hreply);
    destruct a; try (rewrite send_json_replied; now apply Hreply);
    destruct t; try (rewrite send_json_replied; now apply Hreply).
  erewrite bind_ret by reflexivity.
  rewrite send_json_replied. now apply Hreply.
Qed.

Lemma routes_health : routes w (_handle_health w).
Proof.
  apply routes_replied. intros st. rewrite _handle_health_run. eauto.
Qed.

Lemma routes_not_found : routes w (_handle_not_found w self).
Proof.
  apply routes_replied. intros st. rewrite _handle_not_found_run. eauto.
Qed.

Lemma routes_dispatch method parts qp body :
  routes w (dispatch w self method parts qp body).
Proof.
  unfold dispatch. destruct parts as [|p0 rest]; [apply routes_default|].
  destruct (str_eqb p0 []); [apply routes_default|].
  destruct (_ && _); [apply routes_status|].
  destruct (_ && _); [apply routes_delay|].
  destruct (str_eqb p0 _); [apply routes_timeout|].
  destruct (str_eqb p0 _); [apply routes_echo|].
  destruct (str_eqb p0 _); [apply routes_whatsapp|].
  destruct (str_eqb p0 _); [apply routes_health|apply routes_not_found].
Qed.

(** The delay of the environment: nothing, one wait of a number above
    zero, or an exception that leaves the handler as it was. *)
Lemma apply_default_delay_cases st :
  apply_default_delay w st = (Ret tt, st)
  \/ (exists d, flt (float_of_int 0) d = true
                /\ apply_default_delay w st = (Ret tt, slept st d))
  \/ exists e, apply_default_delay w st = (Raise e, st).
Proof.
  destruct (py_float (getenv w "MOCK_HTTP_DELAY" "0")) as [d|msg] eqn:E.
  - assert (Hrun : apply_default_delay w st
                   = if flt (float_of_int 0) d then time_sleep d st
                     else (Ret tt, st)).
    { unfold apply_default_delay, bind, call. rewrite E. cbn [of_parse].
      now destruct (flt _ _). }
    rewrite Hrun.
    destruct (flt (float_of_int 0) d) eqn:Hd; [|now left].
    destruct (time_sleep_cases d st) as [H|[e H]]; rewrite H; eauto.
  - right. right. exists (ValueError msg).
    unfold apply_default_delay, bind, call. now rewrite E.
Qed.

End Routes.
End RouteFacts.

(* ================================================================== *)
(** * What a request reads                                             *)
(* ================================================================== *)

Module RequestFacts.
Import Http Spec Shape PyFacts HttpFacts SendFacts ScenarioFacts Mock.
Local Open Scope py_scope.

(** A wait above [sleep_limit] is refused: by the conversion when its
    count of nanoseconds is over 2^63, as a negative wait when the count is
    2^63, and by the platform otherwise. *)
Lemma time_sleep_too_long (secs : float) st :
  flt sleep_limit secs = true ->
  time_sleep secs st
  = (Raise
       (if fle convert_limit secs
        then OverflowError (lit "timestamp too large to convert to C _PyTime_t")
        else if SFeqb secs wrap_point
             then ValueError (lit "sleep length must be non-negative")
             else OSError (lit "[Errno 22] Invalid argument")),
     st).
Proof.
  intros H. unfold time_sleep.
  destruct secs as [s|s| |s m e]; try discriminate.
  - destruct s; [discriminate|]. reflexivity.
  - destruct s; [discriminate|].
    cbn [is_nan SFabs].
    destruct (fle convert_limit (S754_finite false m e)); [reflexivity|].
    change (flt (S754_finite false m e) (float_of_int 0)) with false.
    cbn [orb].
    destruct (SFeqb (S754_finite false m e) wrap_point); [reflexivity|].
    now rewrite H.
Qed.

Section Requests.
Context {lib : PyLib} (w : world) (self : request).

(** The segments and the query that [read_request] returns are those of
    the parsed request target. *)
Lemma read_request_parts (method : str) parts qp body st st' :
  read_request self method st = (Ret (parts, qp, body), st') ->
  exists parsed,
    urlparse (path self) = Parsed parsed
    /\ parts = path_parts_of (pr_path parsed)
    /\ qp = parse_qs (pr_query parsed).
Proof.
  unfold read_request, _parse_path, bind, call, ret.
  destruct (urlparse (path self)) as [parsed|msg]; cbn [of_parse];
    [|discriminate].
  intros H. exists parsed. split; [reflexivity|].
  destruct (str_eqb method (lit "POST")).
  - destruct (_read_body self st) as [[b|e] st'']; [|discriminate].
    injection H as <- <- _ _. auto.
  - injection H as <- <- _ _. auto.
Qed.

Lemma read_request_refused (method : str) (msg : str) st :
  urlparse (path self) = Invalid msg ->
  read_request self method st = (Raise (ValueError msg), st).
Proof.
  intros H. unfold read_request, _parse_path, bind, call. now rewrite H.
Qed.

Lemma read_request_post_raises (parsed : ParseResult) (e : exn) st :
  urlparse (path self) = Parsed parsed ->
  _read_body self st = (Raise e, st) ->
  read_request self (lit "POST") st = (Raise e, st).
Proof.
  intros Hp Hb. unfold read_request.
  erewrite bind_ret
    by (unfold _parse_path, call; rewrite Hp; reflexivity).
  change (str_eqb (lit "POST") (lit "POST")) with true. cbv iota.
  erewrite bind_raise by (erewrite bind_raise by exact Hb; reflexivity).
  reflexivity.
Qed.

(** The routes read the environment at the root only. *)
Lemma dispatch_with_environ (env : dict str) method parts qp body :
  hd [] parts <> []
  \/ getenv (with_environ w env) "MOCK_HTTP_STATUS" "200"
     = getenv w "MOCK_HTTP_STATUS" "200" ->
  dispatch (with_environ w env) self method parts qp body
  = dispatch w self method parts qp body.
Proof.
  intros [H|H].
  - destruct parts as [|p0 rest]; [now contradict H|]. cbn [hd] in H.
    unfold dispatch. rewrite (str_eqb_neq p0 [] H). reflexivity.
  - assert (Hd : _handle_default (with_environ w env) = _handle_default w).
    { unfold _handle_default. rewrite H. reflexivity. }
    unfold dispatch. destruct parts as [|p0 rest]; [exact Hd|].
    destruct (str_eqb p0 []); [exact Hd|reflexivity].
Qed.

Lemma apply_default_delay_with_environ (env : dict str) :
  getenv (with_environ w env) "MOCK_HTTP_DELAY" "0" = getenv w "MOCK_HTTP_DELAY" "0" ->
  apply_default_delay (with_environ w env) = apply_default_delay w.
Proof. intros H. unfold apply_default_delay. now rewrite H. Qed.

Lemma apply_default_delay_ignored (d : float) st :
  py_float (getenv w "MOCK_HTTP_DELAY" "0") = Parsed d ->
  flt (float_of_int 0) d = false ->
  apply_default_delay w st = (Ret tt, st).
Proof.
  intros Hp Hd. unfold apply_default_delay, bind, call.
  rewrite Hp. cbn [of_parse]. now rewrite Hd.
Qed.

Lemma apply_default_delay_too_long (d : float) st :
  py_float (getenv w "MOCK_HTTP_DELAY" "0") = Parsed d ->
  flt sleep_limit d = true ->
  apply_default_delay w st
  = (Raise
       (if fle convert_limit d
        then OverflowError (lit "timestamp too large to convert to C _PyTime_t")
        else if SFeqb d wrap_point
             then ValueError (lit "sleep length must be non-negative")
             else OSError (lit "[Errno 22] Invalid argument")),
     st).
Proof.
  intros Hp Hd. unfold apply_default_delay, bind, call.
  rewrite Hp. cbn [of_parse].
  assert (H0 : flt (float_of_int 0) d = true).
  { destruct d as [s|s| |s m e]; try discriminate.
    - now destruct s.
    - now destruct s. }
  rewrite H0. now apply time_sleep_too_long.
Qed.

Lemma apply_default_delay_invalid (msg : str) st :
  py_float (getenv w "MOCK_HTTP_DELAY" "0") = Invalid msg ->
  apply_default_delay w st = (Raise (ValueError msg), st).
Proof.
  intros Hp. unfold apply_default_delay, bind, call. now rewrite Hp.
Qed.

End Requests.
End RequestFacts.

(* ================================================================== *)
(** * UTF-8: decoding what was encoded                                 *)
(* ================================================================== *)

Module Utf8Facts.
Local Open Scope N_scope.

Lemma to_N_byte_of (n : N) : n < 256 -> Byte.to_N (byte_of n) = n.
Proof.
  intros H. unfold byte_of. rewrite N.mod_small by exact H.
  destruct (Byte.of_N n) as [b|] eqn:E.
  - now apply Byte.to_of_N.
  - apply Byte.of_N_None_iff in E. lia.
Qed.

Ltac tests :=
  repeat match goal with
         | |- context [(?a <? ?b)%N] => destruct (N.ltb_spec a b); try lia
         | |- context [(?a <=? ?b)%N] => destruct (N.leb_spec a b); try lia
         | |- context [(?a =? ?b)%N] => destruct (N.eqb_spec a b); try lia
         end.

Lemma decode_one (c : N) (rest : list N) :
  c < 128 ->
  utf8_decode_N (c :: rest) = option_map (cons c) (utf8_decode_N rest).
Proof. intros H. cbn [utf8_decode_N]. now tests. Qed.

Lemma decode_two (x y : N) (rest : list N) :
  2 <= x < 32 -> y < 64 ->
  utf8_decode_N (192 + x :: 128 + y :: rest)
  = option_map (cons (x * 64 + y)) (utf8_decode_N rest).
Proof.
  intros Hx Hy. cbn [utf8_decode_N]. unfold between, cont. tests;
    cbn [andb]; do 2 f_equal; lia.
Qed.

Lemma decode_three (x y z : N) (rest : list N) :
  x < 16 -> y < 64 -> z < 64 ->
  (x = 0 -> 32 <= y) -> (x = 13 -> y < 32) ->
  utf8_decode_N (224 + x :: 128 + y :: 128 + z :: rest)
  = option_map (cons (x * 4096 + y * 64 + z)) (utf8_decode_N rest).
Proof.
  intros Hx Hy Hz H0 H13. cbn [utf8_decode_N]. unfold between, cont. tests;
    cbn [andb]; do 2 f_equal; lia.
Qed.

Lemma decode_four (x y z u : N) (rest : list N) :
  x <= 4 -> y < 64 -> z < 64 -> u < 64 ->
  (x = 0 -> 16 <= y) -> (x = 4 -> y < 16) ->
  utf8_decode_N (240 + x :: 128 + y :: 128 + z :: 128 + u :: rest)
  = option_map (cons (x * 262144 + y * 4096 + z * 64 + u)) (utf8_decode_N rest).
Proof.
  intros Hx Hy Hz Hu H0 H4. cbn [utf8_decode_N]. unfold between, cont. tests;
    cbn [andb]; do 2 f_equal; lia.
Qed.

(** The bytes of one code point decode to it. *)
Lemma decode_char (c : N) (b : bytes) (rest : list N) :
  utf8_char c = Some b ->
  utf8_decode_N (map Byte.to_N b ++ rest)
  = option_map (cons c) (utf8_decode_N rest).
Proof.
  unfold utf8_char.
  pose proof (N.div_mod c 64 ltac:(lia)) as E1.
  pose proof (N.mod_lt c 64 ltac:(lia)) as L1.
  pose proof (N.div_mod (c / 64) 64 ltac:(lia)) as E2.
  pose proof (N.mod_lt (c / 64) 64 ltac:(lia)) as L2.
  pose proof (N.div_mod (c / 4096) 64 ltac:(lia)) as E3.
  pose proof (N.mod_lt (c / 4096) 64 ltac:(lia)) as L3.
  assert (D2 : c / 64 / 64 = c / 4096) by (rewrite N.Div0.div_div; reflexivity).
  assert (D3 : c / 4096 / 64 = c / 262144) by (rewrite N.Div0.div_div; reflexivity).
  rewrite D2 in E2. rewrite D3 in E3. clear D2 D3.
  set (r2 := (c / 64) mod 64) in *. set (r3 := (c / 4096) mod 64) in *.
  set (r1 := c mod 64) in *. set (q1 := c / 64) in *.
  set (q2 := c / 4096) in *. set (q3 := c / 262144) in *.
  clearbody r1 r2 r3 q1 q2 q3.
  destruct (N.ltb_spec c 128) as [H1|H1].
  { intros H. replace b with [byte_of c] by congruence. cbn [map app].
    rewrite to_N_byte_of by lia. now apply decode_one. }
  destruct (N.ltb_spec c 2048) as [H2|H2].
  { intros H.
    replace b with [byte_of (192 + q1); byte_of (128 + r1)]
      by congruence.
    cbn [map app]. rewrite !to_N_byte_of by lia.
    rewrite decode_two by lia. do 2 f_equal. lia. }
  destruct (N.ltb_spec c 65536) as [H3|H3].
  { assert (Hs : (55296 <=? c) && (c <? 57344) = true -> 55296 <= c < 57344).
    { intros Hs. apply andb_true_iff in Hs as [Ha Hb].
      apply N.leb_le in Ha. apply N.ltb_lt in Hb. lia. }
    assert (Hn : (55296 <=? c) && (c <? 57344) = false -> c < 55296 \/ 57344 <= c).
    { intros Hn. apply andb_false_iff in Hn as [Ha|Hb];
        [apply N.leb_gt in Ha | apply N.ltb_ge in Hb]; lia. }
    destruct ((55296 <=? c) && (c <? 57344)); [discriminate|].
    specialize (Hn eq_refl). clear Hs.
    intros H.
    replace b with [byte_of (224 + q2); byte_of (128 + r2); byte_of (128 + r1)] by congruence.
    cbn [map app]. rewrite !to_N_byte_of by lia.
    rewrite decode_three by lia. do 2 f_equal. lia. }
  destruct (N.ltb_spec c 1114112) as [H4|H4]; [|discriminate].
  intros H.
  replace b with [byte_of (240 + q3); byte_of (128 + r3); byte_of (128 + r2);
                  byte_of (128 + r1)]
    by congruence.
  cbn [map app]. rewrite !to_N_byte_of by lia.
  rewrite decode_four by lia. do 2 f_equal. lia.
Qed.

(** Decoding undoes encoding. *)
Lemma decode_encode (s : str) (b : bytes) :
  utf8_encode s = Some b -> utf8_decode_N (map Byte.to_N b) = Some s.
Proof.
  revert b. induction s as [|c s IH]; intros b; cbn [utf8_encode].
  - intros H. injection H as <-. reflexivity.
  - destruct (utf8_char c) as [bc|] eqn:Ec; [|discriminate].
    destruct (utf8_encode s) as [bs|]; [|discriminate].
    intros H. injection H as <-.
    rewrite map_app, (decode_char c bc _ Ec), (IH bs eq_refl). reflexivity.
Qed.

End Utf8Facts.

(* ================================================================== *)
(** * Dictionaries and the headers of a message                        *)
(* ================================================================== *)

Module DictFacts.
Import Spec Shape ScenarioFacts.

Section Dict.
Context {V : Type}.

Lemma dict_get_set_same (k : str) (v : V) (d : dict V) :
  dict_get k (dict_set k v d) = Some v.
Proof.
  induction d as [|[k' v'] d IH]; cbn [dict_set dict_get].
  - now rewrite str_eqb_refl.
  - destruct (str_eqb k k') eqn:E; cbn [dict_get]; rewrite E; auto.
Qed.

Lemma dict_get_set_other (k k' : str) (v : V) (d : dict V) :
  k <> k' -> dict_get k' (dict_set k v d) = dict_get k' d.
Proof.
  intros Hne. induction d as [|[k0 v0] d IH]; cbn [dict_set dict_get].
  - rewrite str_eqb_neq; auto.
  - destruct (str_eqb k k0) eqn:E; cbn [dict_get].
    + apply str_eqb_eq in E. subst k0.
      rewrite (str_eqb_neq k' k); auto.
    + now rewrite IH.
Qed.

Lemma dict_keys_set (k : str) (v : V) (d : dict V) :
  dict_keys (dict_set k v d)
  = if existsb (str_eqb k) (dict_keys d) then dict_keys d else dict_keys d ++ [k].
Proof.
  unfold dict_keys.
  induction d as [|[k' v'] d IH]; cbn [dict_set map existsb]; [reflexivity|].
  cbn [fst]. destruct (str_eqb k k') eqn:E; cbn [orb map fst]; [reflexivity|].
  rewrite IH. now destruct (existsb _ _).
Qed.

Lemma dict_get_absent (k : str) (d : dict V) :
  ~ In k (dict_keys d) -> dict_get k d = None.
Proof.
  unfold dict_keys. induction d as [|[k' v'] d IH]; cbn [map fst In dict_get];
    [reflexivity|].
  intros H. rewrite str_eqb_neq by (intros ->; auto). apply IH. auto.
Qed.

End Dict.

Lemma existsb_str_eqb (k : str) (l : list str) :
  existsb (str_eqb k) l = true <-> In k l.
Proof.
  rewrite existsb_exists. split.
  - intros (x & Hin & E). apply str_eqb_eq in E. now subst.
  - intros H. exists k. split; [exact H | apply str_eqb_refl].
Qed.

Lemma first_occurrences_spec (seen names : list str) :
  NoDup seen ->
  NoDup (seen ++ first_occurrences seen names)
  /\ forall k, In k (seen ++ first_occurrences seen names)
               <-> In k seen \/ In k names.
Proof.
  revert seen. induction names as [|k names IH]; intros seen Hs;
    cbn [first_occurrences].
  - rewrite app_nil_r. split; [exact Hs|]. intros k. cbn [In]. tauto.
  - destruct (existsb (str_eqb k) seen) eqn:E.
    + apply existsb_str_eqb in E. destruct (IH seen Hs) as [Hn Hi].
      split; [exact Hn|]. intros k'. rewrite Hi. cbn [In].
      split; [tauto|]. intros [H|[<-|H]]; auto.
    + assert (Hk : ~ In k seen).
      { intros H. apply existsb_str_eqb in H. congruence. }
      assert (Hs' : NoDup (seen ++ [k])).
      { apply NoDup_app; [exact Hs | repeat constructor; auto | ].
        intros x Hx [<-|[]]. auto. }
      destruct (IH (seen ++ [k]) Hs') as [Hn Hi].
      rewrite <- app_assoc in Hn, Hi. cbn [app] in Hn, Hi.
      split; [exact Hn|]. intros k'. rewrite Hi, in_app_iff. cbn [In]. tauto.
Qed.

(** A message answers for each of its own names. *)
Lemma get_own_name (msg : list (str * str)) (k : str) :
  In k (map fst msg) -> exists v, Msg.get k msg = Some v.
Proof.
  induction msg as [|[k' v'] msg IH]; cbn [map fst In Msg.get]; [intros []|].
  intros [->|H].
  - rewrite str_eqb_refl. eauto.
  - destruct (str_eqb _ _); eauto.
Qed.

(** [dict(msg)], one name after the other. *)
Lemma to_dict_fold (msg : list (str * str)) (names : list str) (d : dict str) :
  (forall k, In k names -> exists v, Msg.get k msg = Some v) ->
  (forall k, In k (dict_keys d) -> dict_get k d = Msg.get k msg) ->
  let d' := fold_left
              (fun d k => match Msg.get k msg with
                          | Some v => dict_set k v d
                          | None => d
                          end) names d in
  dict_keys d' = dict_keys d ++ first_occurrences (dict_keys d) names
  /\ forall k, In k (dict_keys d') -> dict_get k d' = Msg.get k msg.
Proof.
  revert d. induction names as [|k names IH]; intros d Hn Hd;
    cbn [fold_left first_occurrences].
  - rewrite app_nil_r. auto.
  - destruct (Hn k (or_introl eq_refl)) as [v Hv]. rewrite Hv.
    assert (Hd' : forall k', In k' (dict_keys (dict_set k v d)) ->
                    dict_get k' (dict_set k v d) = Msg.get k' msg).
    { intros k' Hin. destruct (list_eq_dec N.eq_dec k k') as [<-|Hne].
      - now rewrite dict_get_set_same.
      - rewrite dict_get_set_other by exact Hne. apply Hd.
        rewrite dict_keys_set in Hin.
        destruct (existsb _ _); [exact Hin|].
        apply in_app_iff in Hin as [H|[H|[]]]; [exact H | contradiction]. }
    destruct (IH (dict_set k v d) (fun k' H => Hn k' (or_intror H)) Hd')
      as [Hk Hg].
    split; [|exact Hg].
    cbv zeta in Hk. rewrite Hk, dict_keys_set.
    destruct (existsb (str_eqb k) (dict_keys d)); [reflexivity|].
    now rewrite <- app_assoc.
Qed.

End DictFacts.

(* ================================================================== *)
(** * Slashes around a path, and texts cut short                       *)
(* ================================================================== *)

Module PaddingFacts.
Import Spec SplitFacts.

Lemma lstrip_padding (c : N) (n : nat) (s : str) :
  lstrip c (repeat c n ++ s) = lstrip c s.
Proof. induction n; simpl; [reflexivity|]. now rewrite N.eqb_refl. Qed.

Lemma rstrip_padding (c : N) (n : nat) (s : str) :
  rstrip c (s ++ repeat c n) = rstrip c s.
Proof.
  unfold rstrip. now rewrite rev_app_distr, rev_repeat, lstrip_padding.
Qed.

Lemma lstrip_app (c : N) (s r : str) :
  lstrip c s <> [] -> lstrip c (s ++ r) = lstrip c s ++ r.
Proof.
  induction s as [|x s IH]; cbn [lstrip app]; [congruence|].
  destruct (x =? c)%N; auto.
Qed.

Lemma lstrip_all (c : N) (s : str) (m : nat) :
  lstrip c s = [] -> lstrip c (s ++ repeat c m) = [].
Proof.
  induction s as [|x s IH]; cbn [lstrip app].
  - intros _. rewrite <- (app_nil_r (repeat c m)). now rewrite lstrip_padding.
  - destruct (x =? c)%N; [exact IH | discriminate].
Qed.

Lemma strip_padding (c : N) (n m : nat) (s : str) :
  strip c (repeat c n ++ s ++ repeat c m) = strip c s.
Proof.
  unfold strip. rewrite lstrip_padding.
  destruct (lstrip c s) as [|x t] eqn:E.
  - now rewrite lstrip_all.
  - rewrite lstrip_app, E by congruence. apply rstrip_padding.
Qed.

Lemma utf8_char_not_nil (c : N) : utf8_char c <> Some [].
Proof.
  unfold utf8_char.
  destruct (c <? 128)%N; [discriminate|].
  destruct (c <? 2048)%N; [discriminate|].
  destruct (c <? 65536)%N;
    [destruct ((55296 <=? c)%N && (c <? 57344)%N); discriminate|].
  destruct (c <? 1114112)%N; discriminate.
Qed.

Lemma utf8_encode_nil (s : str) : utf8_encode s = Some [] -> s = [].
Proof.
  destruct s as [|c s]; [reflexivity|]. cbn [utf8_encode].
  destruct (utf8_char c) as [[|b bc]|] eqn:E; [|destruct (utf8_encode s)|];
    try discriminate.
  now apply utf8_char_not_nil in E.
Qed.

End PaddingFacts.

(* ================================================================== *)
(** * The difference of two readings of the clock                      *)
(* ================================================================== *)

Module UptimeFacts.
Import Shape.

Lemma shr_1_nonneg (mrs : shr_record) :
  0 <= shr_m mrs -> 0 <= shr_m (shr_1 mrs).
Proof.
  destruct mrs as [m r s]. cbn [shr_m shr_1].
  destruct m as [|p|p]; [reflexivity | | lia].
  intros _. destruct p; cbn [shr_m]; lia.
Qed.

Lemma iter_pos_keeps {A} (P : A -> Prop) (f : A -> A) :
  (forall x, P x -> P (f x)) -> forall p x, P x -> P (iter_pos f p x).
Proof.
  intros Hf. induction p as [p IH|p IH|]; intros x Hx; cbn [iter_pos]; auto.
Qed.

Lemma shr_fexp_nonneg (m e : Z) (l : location) :
  0 <= m -> 0 <= shr_m (fst (shr_fexp prec emax m e l)).
Proof.
  intros Hm. unfold shr_fexp, shr.
  assert (H0 : 0 <= shr_m (shr_record_of_loc m l)).
  { destruct l as [|[]]; exact Hm. }
  destruct (fexp prec emax (Zdigits2 m + e) - e) as [|p|p]; cbn [fst]; auto.
  now apply (iter_pos_keeps (fun mrs => 0 <= shr_m mrs) shr_1 shr_1_nonneg).
Qed.

Lemma round_nearest_even_nonneg (m : Z) (l : location) :
  0 <= m -> 0 <= round_nearest_even m l.
Proof.
  intros Hm. destruct l as [|[]]; cbn [round_nearest_even];
    try destruct (Z.even m); lia.
Qed.

(** Rounding a number that is not negative gives a float that is not
    below zero. *)
Lemma binary_round_aux_nonneg (m e : Z) (l : location) :
  0 <= m ->
  fle (float_of_int 0) (binary_round_aux prec emax false m e l) = true.
Proof.
  intros Hm. unfold binary_round_aux.
  pose proof (shr_fexp_nonneg m e l Hm) as H1.
  destruct (shr_fexp prec emax m e l) as [mrs' e']. cbn [fst] in H1.
  pose proof (shr_fexp_nonneg _ e' loc_Exact
                (round_nearest_even_nonneg _ (loc_of_shr_record mrs') H1)) as H2.
  destruct (shr_fexp prec emax _ e' loc_Exact) as [mrs'' e'']. cbn [fst] in H2.
  destruct (shr_m mrs'') as [|p|p]; [reflexivity | | lia].
  now destruct (e'' <=? emax - prec).
Qed.

Lemma binary_normalize_nonneg (m e : Z) :
  0 <= m -> fle (float_of_int 0) (binary_normalize prec emax m e false) = true.
Proof.
  intros Hm. destruct m as [|p|p]; [reflexivity | | lia].
  cbn [binary_normalize]. unfold binary_round.
  destruct (shl_align p e _) as [mz ez].
  now apply binary_round_aux_nonneg.
Qed.

Lemma iter_xO (d m : positive) : Zpos (Pos.iter xO m d) = Zpos m * 2 ^ Zpos d.
Proof.
  induction d as [|d IH] using Pos.peano_ind.
  - cbn [Pos.iter]. lia.
  - rewrite Pos.iter_succ, Pos2Z.inj_succ, Z.pow_succ_r by lia.
    rewrite Pos2Z.inj_xO, IH. lia.
Qed.

Lemma shl_align_value (m : positive) (e ez : Z) :
  ez <= e -> Zpos (fst (shl_align m e ez)) = Zpos m * 2 ^ (e - ez).
Proof.
  intros H. unfold shl_align.
  destruct (ez - e) as [|d|d] eqn:E; cbn [fst]; try lia.
  - replace (e - ez) with 0 by lia. lia.
  - rewrite iter_xO. f_equal. f_equal. lia.
Qed.

Lemma digits2_bounds (m : positive) :
  2 ^ (Zpos (digits2_pos m) - 1) <= Zpos m < 2 ^ Zpos (digits2_pos m).
Proof.
  induction m as [m IH|m IH|]; cbn [digits2_pos];
    [| |cbn; lia];
    rewrite Pos2Z.inj_succ;
    replace (Z.succ (Zpos (digits2_pos m)) - 1) with (Zpos (digits2_pos m)) by lia;
    rewrite Z.pow_succ_r by lia;
    replace (2 ^ Zpos (digits2_pos m)) with (2 * 2 ^ (Zpos (digits2_pos m) - 1)) in *
      by (rewrite <- Z.pow_succ_r by lia; f_equal; lia);
    lia.
Qed.

(** The mantissa of a binary64 number has at most 53 digits, and has 53
    above the least exponent. *)
Lemma bounded_mantissa (m : positive) (e : Z) :
  bounded prec emax m e = true ->
  Zpos m < 2 ^ 53 /\ -1074 <= e /\ (-1074 < e -> 2 ^ 52 <= Zpos m).
Proof.
  unfold bounded, canonical_mantissa, fexp, emin, prec, emax.
  intros H. apply andb_true_iff in H as [H _]. apply Z.eqb_eq in H.
  pose proof (digits2_bounds m) as [Hlo Hhi].
  assert (Hd : Zpos (digits2_pos m) <= 53) by lia.
  split; [|split; [lia|]].
  - apply (Z.lt_le_trans _ _ _ Hhi). apply Z.pow_le_mono_r; lia.
  - intros He. replace (Zpos (digits2_pos m)) with 53 in Hlo by lia. exact Hlo.
Qed.

(** Of two binary64 numbers above zero, the one that compares lower has
    the lower value. *)
Lemma aligned_le (m1 m2 : positive) (e1 e2 : Z) :
  bounded prec emax m1 e1 = true -> bounded prec emax m2 e2 = true ->
  fle (S754_finite false m1 e1) (S754_finite false m2 e2) = true ->
  Zpos (fst (shl_align m1 e1 (Z.min e1 e2)))
  <= Zpos (fst (shl_align m2 e2 (Z.min e1 e2))).
Proof.
  intros B1 B2 H.
  rewrite !shl_align_value by lia.
  destruct (bounded_mantissa m1 e1 B1) as (U1 & L1 & N1).
  destruct (bounded_mantissa m2 e2 B2) as (U2 & L2 & N2).
  unfold fle, SFleb in H. cbn [SFcompare] in H.
  destruct (Z.compare_spec e1 e2) as [E|E|E].
  - subst e2. rewrite Z.min_id, Z.sub_diag. cbn [Z.pow].
    fold (Pos.compare m1 m2) in H.
    destruct (Pos.compare_spec m1 m2); try discriminate; lia.
  - rewrite Z.min_l by lia. rewrite Z.sub_diag. cbn [Z.pow].
    assert (H2 : 2 ^ 1 <= 2 ^ (e2 - e1)) by (apply Z.pow_le_mono_r; lia).
    specialize (N2 ltac:(lia)).
    change (2 ^ 1) with 2 in H2. change (2 ^ 53) with (2 * 2 ^ 52) in U1.
    nia.
  - discriminate.
Qed.

(** The difference of two binary64 numbers is not below zero when the
    second compares lower than the first or equal. *)
Lemma fsub_nonneg (x y : float) :
  reading x = true -> reading y = true -> fle y x = true ->
  fle (float_of_int 0) (fsub x y) = true.
Proof.
  intros Rx Ry H. unfold fsub.
  destruct x as [sx|sx| |sx mx ex]; try discriminate;
    destruct y as [sy|sy| |sy my ey]; try discriminate.
  - now destruct sx, sy.
  - destruct sy; [reflexivity | discriminate].
  - destruct sx; [discriminate | reflexivity].
  - cbn [reading] in Rx, Ry. cbn [SFsub].
    apply binary_normalize_nonneg.
    destruct sx, sy; cbn [cond_Zopp].
    + assert (H' : fle (S754_finite false mx ex) (S754_finite false my ey) = true).
      { unfold fle, SFleb in *. cbn [SFcompare] in *.
        rewrite Z.compare_antisym in H.
        destruct (ex ?= ey); cbn [CompOpp] in H; try discriminate; auto.
        fold (Pos.compare my mx) in H. rewrite Pos.compare_antisym in H.
        fold (Pos.compare mx my).
        now destruct (Pos.compare mx my). }
      pose proof (aligned_le mx my ex ey Rx Ry H'). lia.
    + discriminate.
    + lia.
    + pose proof (aligned_le my mx ey ex Ry Rx H) as Hle.
      rewrite Z.min_comm in Hle. lia.
Qed.

End UptimeFacts.

(* ================================================================== *)
(** * The status codes of the routes                                   *)
(* ================================================================== *)

Module CodeFacts.
Import Http Spec Shape PyFacts HttpFacts SendFacts ScenarioFacts RouteFacts Mock.
Local Open Scope py_scope.

Section Codes.
Context {lib : PyLib} (w : world) (self : request).

Lemma ends_replied (code : Z) text ticks st :
  100 <= code <= 599 -> ends_in_range w (replied w st code text ticks) st.
Proof. intros H. right. right. left. eauto. Qed.

Lemma ends_status (code_str : str) st :
  ends_in_range w (_handle_status w code_str st) st.
Proof.
  destruct (py_int code_str) as [code|msg] eqn:E.
  - destruct (Z_lt_dec code 100) as [Hlo|Hlo];
      [|destruct (Z_lt_dec 599 code) as [Hhi|Hhi]].
    + rewrite _handle_status_invalid; [apply ends_replied; lia|].
      intros c Hc. rewrite E in Hc. injection Hc as <-. auto.
    + rewrite _handle_status_invalid; [apply ends_replied; lia|].
      intros c Hc. rewrite E in Hc. injection Hc as <-. auto.
    + rewrite (_handle_status_valid w code_str code st E); [|lia].
      apply ends_replied. lia.
  - rewrite _handle_status_invalid; [apply ends_replied; lia|].
    intros c Hc. rewrite E in Hc. discriminate.
Qed.

Lemma ends_delay (delay_str : str) st :
  ends_in_range w (_handle_delay w delay_str st) st.
Proof.
  assert (Hbad : (forall delay, py_float delay_str = Parsed delay ->
                    ~ (fle (float_of_int 0) delay = true
                       /\ fle delay (float_of_int 300) = true)) ->
                 ends_in_range w (_handle_delay w delay_str st) st).
  { intros H. destruct (_handle_delay_invalid w delay_str st H) as [e ->].
    apply ends_replied. lia. }
  destruct (py_float delay_str) as [delay|msg] eqn:E.
  - destruct (fle (float_of_int 0) delay) eqn:H0;
      [destruct (fle delay (float_of_int 300)) eqn:H300|].
    + rewrite (_handle_delay_valid w delay_str delay st E H0 H300).
      right. right. right. eauto.
    + apply Hbad. intros d Hd. injection Hd as <-. intros [_ H]. congruence.
    + apply Hbad. intros d Hd. injection Hd as <-. intros [H _]. congruence.
  - apply Hbad. intros d Hd. discriminate.
Qed.

Lemma ends_whatsapp qp st : ends_in_range w (_handle_whatsapp w qp st) st.
Proof.
  unfold _handle_whatsapp, get_first.
  assert (Hraise : forall e, ends_in_range w (Raise e, st) st)
    by (intros e; left; eauto).
  destruct (dict_get (lit "phone") qp) as [[|p lp]|];
    [apply Hraise| |];
    (erewrite bind_ret by reflexivity);
    (destruct (dict_get (lit "apikey") qp) as [[|a la]|];
     [apply Hraise| |]);
    (erewrite bind_ret by reflexivity);
    (destruct (dict_get (lit "text") qp) as [[|t lt]|];
     [apply Hraise| |]);
    (erewrite bind_ret by reflexivity);
    try (rewrite send_json_replied; apply ends_replied; lia);
    destruct p; try (rewrite send_json_replied; apply ends_replied; lia);
    destruct a; try (rewrite send_json_replied; apply ends_replied; lia);
    destruct t; try (rewrite send_json_replied; apply ends_replied; lia).
  erewrite bind_ret by reflexivity.
  rewrite send_json_replied. right. right. left.
  eexists 200, _, 1%nat. split; [lia | reflexivity].
Qed.

Lemma ends_dispatch method parts qp body st :
  hd [] parts <> [] ->
  ends_in_range w (dispatch w self method parts qp body st) st.
Proof.
  intros H. destruct parts as [|p0 rest]; [now contradict H|]. cbn [hd] in H.
  unfold dispatch. rewrite (str_eqb_neq p0 [] H).
  destruct (_ && _); [apply ends_status|].
  destruct (_ && _); [apply ends_delay|].
  destruct (str_eqb p0 _);
    [rewrite _handle_timeout_run; right; now left|].
  destruct (str_eqb p0 _);
    [rewrite _handle_echo_run; apply ends_replied; lia|].
  destruct (str_eqb p0 _); [apply ends_whatsapp|].
  destruct (str_eqb p0 _);
    [rewrite _handle_health_run; apply ends_replied; lia|].
  rewrite _handle_not_found_run. apply ends_replied. lia.
Qed.

(** The status codes such an end adds to a trace that has none, from an
    empty buffer. *)
Lemma ends_statuses (r : outcome unit * hstate) (st : hstate) :
  _headers_buffer st = [] -> statuses (trace st) = [] ->
  ends_in_range w r st ->
  Forall (fun code => 100 <= code <= 599) (statuses (trace (snd r))).
Proof.
  intros Hb Hs [(e & ->)|[->|[(code & text & ticks & Hc & ->)
                              |(d & text & ticks & ->)]]];
    cbn [snd replied slept trace _headers_buffer];
    rewrite ?statuses_app, ?Hb, Hs; cbn; repeat constructor; lia.
Qed.

End Codes.
End CodeFacts.

(* ================================================================== *)
(** * Further properties of the handler                                *)
(* ================================================================== *)

Import Shape.

Section OneAnswer.
Context {lib : PyLib} (w : world) (self : request).

(** X1. Every GET and POST request, whatever the request and the
    environment: the handler first waits at most once (the delay of the
    environment, a number above zero), then does what one route does:
    nothing, when it ends by an exception; the one wait of the timeout
    scenario; one response; or one response of status 200 after the wait of
    the delay scenario, which is between 0 and 300 seconds. So it puts at
    most one status line on the wire, never writes anything before an
    exception, never waits after it has written, and leaves no header in the
    buffer. *)
Theorem one_answer_at_most (method : str) :
  let r := run (_handle_request w self method) in
  (exists pre tr,
     trace (snd r) = pre ++ tr /\ delay_trace pre /\ route_trace w (fst r) tr)
  /\ _headers_buffer (snd r) = []
  /\ (List.length (statuses (trace (snd r))) <= 1)%nat
  /\ (forall e, fst r = Raise e -> written (trace (snd r)) = []).
Proof.
  intros r.
  assert (Hshape : exists pre tr,
             trace (snd r) = pre ++ tr /\ delay_trace pre
             /\ route_trace w (fst r) tr /\ _headers_buffer (snd r) = []).
  { subst r. unfold run, _handle_request.
    destruct (ScenarioFacts.read_request_pure self method initial)
      as [[[[parts qp] body]|e] Hread].
    - erewrite HttpFacts.bind_ret by exact Hread.
      destruct (RouteFacts.apply_default_delay_cases w initial)
        as [Hd|[(d & Hpos & Hd)|(e & Hd)]].
      + erewrite HttpFacts.bind_ret by exact Hd.
        destruct (RouteFacts.routes_dispatch w self method parts qp body
                    initial eq_refl) as (tr & Hb & Ht & Hr).
        exists [], tr. repeat split; auto. now left.
      + erewrite HttpFacts.bind_ret by exact Hd.
        destruct (RouteFacts.routes_dispatch w self method parts qp body
                    (slept initial d) eq_refl) as (tr & Hb & Ht & Hr).
        exists [Sleep d], tr. repeat split; auto. right. eauto.
      + erewrite HttpFacts.bind_raise by exact Hd.
        exists [], []. repeat split; [now left | constructor].
    - erewrite HttpFacts.bind_raise by exact Hread.
      exists [], []. repeat split; [now left | constructor]. }
  destruct Hshape as (pre & tr & Ht & Hpre & Hr & Hb).
  split; [eauto|]. split; [exact Hb|].
  assert (Hpre' : statuses pre = [] /\ written pre = []).
  { destruct Hpre as [->|(d & -> & _)]; split; reflexivity. }
  destruct Hpre' as [Hs Hw].
  rewrite Ht, ScenarioFacts.statuses_app, ScenarioFacts.written_app, Hs, Hw.
  cbn [app]. split.
  - destruct Hr; cbn; lia.
  - intros e He. rewrite He in Hr. now inversion Hr.
Qed.

End OneAnswer.

(** The theorem at a POST of CPython to [/echo] whose Content-Length is
    [five], under a delay of 2 seconds: the request ends by an exception,
    and nothing has been written. *)
Lemma one_answer_at_most_witness :
  written (trace (snd (run (@_handle_request CPython.lib http_1
                              (Sample.world_of [(lit "MOCK_HTTP_DELAY", lit "2")])
                              (Sample.carrying "/echo" "five" "hello")
                              (lit "POST")))))
  = []
  /\ (List.length
        (statuses (trace (snd (run (@_handle_request CPython.lib http_1
                                      (Sample.world_of
                                         [(lit "MOCK_HTTP_DELAY", lit "2")])
                                      (Sample.bare "/health") (lit "GET"))))))
      <= 1)%nat.
Proof.
  split.
  - pose proof (@one_answer_at_most CPython.lib
                  (Sample.world_of [(lit "MOCK_HTTP_DELAY", lit "2")])
                  (Sample.carrying "/echo" "five" "hello") (lit "POST")) as H.
    cbv zeta in H. destruct H as (_ & _ & _ & Hw).
    eapply Hw. vm_compute. reflexivity.
  - pose proof (@one_answer_at_most CPython.lib
                  (Sample.world_of [(lit "MOCK_HTTP_DELAY", lit "2")])
                  (Sample.bare "/health") (lit "GET")) as H.
    cbv zeta in H. destruct H as (_ & _ & Hn & _). exact Hn.
Defined.

Section NotFound.
Context {lib : PyLib} (w : world) (self : request).

(** X2. The routes take nothing else than their names: segments whose
    first one is not empty and is none of [status], [delay], [timeout],
    [echo], [whatsapp], [health], and the segment [status] or [delay] alone
    (no code, no number of seconds after it), are answered 404, whatever the
    method, the query and the body, with the JSON object [{error: "Endpoint
    not found", path: <the request target as received, query included>,
    available_endpoints: <the seven endpoints>}], without a reading of the
    clock. *)
Theorem unrouted_not_found (method : str) (parts : list str)
    (query_params : dict (list str)) (body : option str) (st : hstate) :
  unrouted parts ->
  dispatch w self method parts query_params body st
  = replied w st 404
      (Json.dumps (JObj
         [ (lit "error", JStr (lit "Endpoint not found"));
           (lit "path", JStr (path self));
           (lit "available_endpoints",
            JList (map JStr
                     [ lit "/"; lit "/status/{code}"; lit "/delay/{seconds}";
                       lit "/timeout"; lit "/echo"; lit "/whatsapp";
                       lit "/health" ])) ])) 0.
Proof.
  destruct parts as [|p0 rest]; [intros []|].
  intros [Hne H].
  rewrite <- (RouteFacts._handle_not_found_run w self st).
  unfold dispatch. rewrite (ScenarioFacts.str_eqb_neq p0 [] Hne).
  destruct H as [H|[[->| ->] ->]]; [|reflexivity|reflexivity].
  rewrite !ScenarioFacts.str_eqb_neq; [reflexivity| | | | | |];
    apply H; unfold route_names; simpl; auto 10.
Qed.

End NotFound.

(** The theorem at the segments of [/nope/1] and of [/status]. *)
Lemma unrouted_not_found_witness :
  statuses (trace (snd (@dispatch CPython.lib http_1 Sample.w (Sample.bare "/nope/1")
                          (lit "GET") [lit "nope"; lit "1"] [] None initial)))
  = [404]
  /\ statuses (trace (snd (@dispatch CPython.lib http_1 Sample.w (Sample.bare "/status")
                             (lit "POST") [lit "status"] [] (Some []) initial)))
     = [404].
Proof.
  split.
  - rewrite (@unrouted_not_found CPython.lib Sample.w (Sample.bare "/nope/1")
               (lit "GET") [lit "nope"; lit "1"] [] None initial);
      [reflexivity|].
    split; [discriminate|]. left. intros name Hin.
    repeat (destruct Hin as [<-|Hin]; [discriminate|]). destruct Hin.
  - rewrite (@unrouted_not_found CPython.lib Sample.w (Sample.bare "/status")
               (lit "POST") [lit "status"] [] (Some []) initial);
      [reflexivity|].
    split; [discriminate|]. right. split; [now left | reflexivity].
Defined.

Section Preflight.
Context {lib : PyLib} (w : world).

(** X3. An OPTIONS request, whatever the request and the environment, is
    answered by one head and no body: status 200 with the reason phrase of
    the library's table, the library's Server and Date headers, then
    [Access-Control-Allow-Origin: *], [Access-Control-Allow-Methods: GET,
    POST, OPTIONS] and [Access-Control-Allow-Headers: Content-Type]; no
    Content-Length and no Content-Type header. It never waits: the delay of
    the environment does not apply to it, and neither the path nor the
    environment is read. *)
Theorem options_preflight (self : request) :
  handle w self "OPTIONS"
  = Some (finished
            [ WriteHead
                [ StatusLine protocol_version 200 (reason 200);
                  Header (lit "Server") (lit version_string);
                  Header (lit "Date") (lit (date_time_string w));
                  Header (lit "Access-Control-Allow-Origin") (lit "*");
                  Header (lit "Access-Control-Allow-Methods")
                         (lit "GET, POST, OPTIONS");
                  Header (lit "Access-Control-Allow-Headers")
                         (lit "Content-Type") ] ]
            0).
Proof.
  change (handle w self "OPTIONS") with (Some (run (do_OPTIONS w))).
  f_equal. unfold run, do_OPTIONS.
  erewrite HttpFacts.bind_ret by apply HttpFacts.send_response_ok.
  erewrite HttpFacts.bind_ret by (apply HttpFacts.send_header_ok; reflexivity).
  erewrite HttpFacts.bind_ret by (apply HttpFacts.send_header_ok; reflexivity).
  erewrite HttpFacts.bind_ret by (apply HttpFacts.send_header_ok; reflexivity).
  reflexivity.
Qed.

End Preflight.

Section Environment.
Context {lib : PyLib} (w : world) (self : request).

(** X4. Of the environment a request reads two variables and no other:
    [MOCK_HTTP_DELAY], and [MOCK_HTTP_STATUS] on the root route only. A GET
    or POST request handled under another environment in which
    [MOCK_HTTP_DELAY] reads the same ends the same way, with the same waits
    and the same bytes written, when [MOCK_HTTP_STATUS] reads the same too or
    when the first segment of its path is not empty: the status of the
    environment changes no response of the status, delay, timeout, echo,
    whatsapp, health and not-found routes. *)
Theorem environment_read (env : dict str) (method : str) :
  getenv (with_environ w env) "MOCK_HTTP_DELAY" "0" = getenv w "MOCK_HTTP_DELAY" "0" ->
  (getenv (with_environ w env) "MOCK_HTTP_STATUS" "200"
   = getenv w "MOCK_HTTP_STATUS" "200"
   \/ forall parsed, urlparse (path self) = Parsed parsed ->
                     hd [] (path_parts_of (pr_path parsed)) <> []) ->
  run (_handle_request (with_environ w env) self method)
  = run (_handle_request w self method).
Proof.
  intros Hdelay Hstatus. unfold run, _handle_request.
  destruct (ScenarioFacts.read_request_pure self method initial)
    as [[[[parts qp] body]|e] Hread].
  - erewrite HttpFacts.bind_ret by exact Hread.
    symmetry. erewrite HttpFacts.bind_ret by exact Hread. symmetry.
    rewrite (RequestFacts.apply_default_delay_with_environ w env Hdelay).
    cbn [fst snd].
    rewrite (RequestFacts.dispatch_with_environ w self env method parts qp body);
      [reflexivity|].
    destruct Hstatus as [H|H]; [now right|left].
    destruct (RequestFacts.read_request_parts self method _ _ _ _ _ Hread)
      as (parsed & Hp & -> & _).
    now apply H.
  - erewrite HttpFacts.bind_raise by exact Hread.
    symmetry. erewrite HttpFacts.bind_raise by exact Hread. reflexivity.
Qed.

(** X5. A [MOCK_HTTP_STATUS] that [int] refuses makes the root route fail:
    a request whose first segment is empty, under a delay [d0 >= 0] of the
    environment that [time.sleep] takes, waits that delay and then ends by
    the [ValueError] of [int], with nothing written: no 400 and no 500 is
    sent by the handler. *)
Theorem invalid_status_setting (method : str) (parts : list str)
    (query_params : dict (list str)) (body : option str) (d0 : float) (msg : str) :
  read_request self method initial = (Ret (parts, query_params, body), initial) ->
  hd [] parts = [] ->
  py_float (getenv w "MOCK_HTTP_DELAY" "0") = Parsed d0 ->
  fle (float_of_int 0) d0 = true -> fle d0 sleep_limit = true ->
  py_int (getenv w "MOCK_HTTP_STATUS" "200") = Invalid msg ->
  run (_handle_request w self method)
  = (Raise (ValueError msg),
     {| _headers_buffer := []; trace := default_wait d0; time_calls := 0 |}).
Proof.
  intros Hread Hroot Hdelay H0 Hl Hstatus. unfold run.
  rewrite (ScenarioFacts._handle_request_run w self method _ _ _ initial _ Hread
             (ScenarioFacts.apply_default_delay_run w d0 initial Hdelay H0 Hl)).
  assert (Hd : dispatch w self method parts query_params body = _handle_default w).
  { destruct parts as [|p0 rest]; [reflexivity|].
    cbn [hd] in Hroot. subst p0. reflexivity. }
  rewrite Hd. now apply RouteFacts._handle_default_invalid.
Qed.

(** X6. The delay of the environment at its edges, for a request that has
    been read, on every route. A [MOCK_HTTP_DELAY] that [float] reads as a
    number not above zero (zero, a negative number, or NaN) is ignored, the
    request goes to its route at once. One above the longest wait the
    platform takes ([sleep_limit], 9223372036 s) ends the request with no
    wait and nothing written, by the exception of [time.sleep], which no
    route catches: an [OverflowError] when its count of nanoseconds is over
    2^63 (from 9223372036.854778 s on, infinity included), the [OSError] of
    the platform when the count is under 2^63, and a [ValueError] for the
    one float between, whose count of 2^63 wraps to a negative wait. One
    that [float] refuses ends the request by the [ValueError] of [float],
    with no wait and nothing written. *)
Theorem default_delay_edges (method : str) (parts : list str)
    (query_params : dict (list str)) (body : option str) :
  read_request self method initial = (Ret (parts, query_params, body), initial) ->
  (forall d, py_float (getenv w "MOCK_HTTP_DELAY" "0") = Parsed d ->
     flt (float_of_int 0) d = false ->
     run (_handle_request w self method)
     = run (dispatch w self method parts query_params body))
  /\ (forall d, py_float (getenv w "MOCK_HTTP_DELAY" "0") = Parsed d ->
        flt sleep_limit d = true ->
        run (_handle_request w self method)
        = (Raise
             (if fle convert_limit d
              then OverflowError
                     (lit "timestamp too large to convert to C _PyTime_t")
              else if SFeqb d wrap_point
                   then ValueError (lit "sleep length must be non-negative")
                   else OSError (lit "[Errno 22] Invalid argument")),
           initial))
  /\ (forall msg, py_float (getenv w "MOCK_HTTP_DELAY" "0") = Invalid msg ->
        run (_handle_request w self method) = (Raise (ValueError msg), initial)).
Proof.
  intros Hread. unfold run, _handle_request. repeat split.
  - intros d Hp Hd.
    erewrite HttpFacts.bind_ret by exact Hread.
    erewrite HttpFacts.bind_ret
      by exact (RequestFacts.apply_default_delay_ignored w d initial Hp Hd).
    reflexivity.
  - intros d Hp Hd.
    erewrite HttpFacts.bind_ret by exact Hread.
    erewrite HttpFacts.bind_raise
      by exact (RequestFacts.apply_default_delay_too_long w d initial Hp Hd).
    reflexivity.
  - intros msg Hp.
    erewrite HttpFacts.bind_ret by exact Hread.
    erewrite HttpFacts.bind_raise
      by exact (RequestFacts.apply_default_delay_invalid w msg initial Hp).
    reflexivity.
Qed.

(** X7. A request that cannot be read gets no response, on every route and
    under every environment, and before any wait: a request target that
    [urlparse] refuses ends a GET or a POST by its [ValueError]; a POST
    whose Content-Length header [int] refuses ends by the [ValueError] of
    [int]; a POST whose Content-Length is 2^63 - 33 or more ends by the
    [OverflowError] of [rfile.read], which cannot make a [bytes] object of
    that size; a POST whose Content-Length is positive and below that, but
    more than the runtime has storage for, ends by a [MemoryError]; and a
    POST whose first Content-Length bytes, read, are no UTF-8 text ends by
    a [UnicodeDecodeError]. The handler is left as it was: nothing written,
    nothing buffered, the clock not read. *)
Theorem unreadable_request :
  (forall method msg, urlparse (path self) = Invalid msg ->
     run (_handle_request w self method) = (Raise (ValueError msg), initial))
  /\ (forall parsed v msg,
        urlparse (path self) = Parsed parsed ->
        Msg.get (lit "Content-Length") (headers self) = Some v ->
        py_int v = Invalid msg ->
        run (_handle_request w self (lit "POST")) = (Raise (ValueError msg), initial))
  /\ (forall parsed v n,
        urlparse (path self) = Parsed parsed ->
        Msg.get (lit "Content-Length") (headers self) = Some v ->
        py_int v = Parsed n -> 2 ^ 63 - 33 <= n ->
        exists msg,
          run (_handle_request w self (lit "POST"))
          = (Raise (OverflowError msg), initial))
  /\ (forall parsed v n,
        urlparse (path self) = Parsed parsed ->
        Msg.get (lit "Content-Length") (headers self) = Some v ->
        py_int v = Parsed n -> 0 < n -> n < 2 ^ 63 - 33 ->
        allocates n = false ->
        exists msg,
          run (_handle_request w self (lit "POST"))
          = (Raise (MemoryError msg), initial))
  /\ (forall parsed v n,
        urlparse (path self) = Parsed parsed ->
        Msg.get (lit "Content-Length") (headers self) = Some v ->
        py_int v = Parsed n -> 0 < n -> n < 2 ^ 63 - 33 ->
        allocates n = true ->
        utf8_decode_N (map Byte.to_N (firstn (Z.to_nat n) (rfile self))) = None ->
        exists msg,
          run (_handle_request w self (lit "POST"))
          = (Raise (UnicodeDecodeError msg), initial)).
Proof.
  assert (Hbody : forall parsed e,
             urlparse (path self) = Parsed parsed ->
             _read_body self initial = (Raise e, initial) ->
             run (_handle_request w self (lit "POST")) = (Raise e, initial)).
  { intros parsed e Hp Hb. unfold run, _handle_request.
    erewrite HttpFacts.bind_raise; [reflexivity|].
    now apply (RequestFacts.read_request_post_raises self parsed). }
  repeat split.
  - intros method msg Hp. unfold run, _handle_request.
    erewrite HttpFacts.bind_raise
      by exact (RequestFacts.read_request_refused self method msg initial Hp).
    reflexivity.
  - intros parsed v msg Hp Hv Hn. apply (Hbody parsed _ Hp).
    unfold _read_body. rewrite Hv. unfold call at 1. now rewrite Hn.
  - intros parsed v n Hp Hv Hn Hbig.
    assert (Hpos : (0 <? n) = true) by (apply Z.ltb_lt; lia).
    destruct (2 ^ 63 <=? n) eqn:Hidx; eexists; apply (Hbody parsed _ Hp);
      rewrite (ScenarioFacts._read_body_declared self v n initial Hv Hn), Hpos;
      unfold rfile_read; rewrite Hidx; [reflexivity|].
    replace (2 ^ 63 - 33 <=? n) with true by (symmetry; apply Z.leb_le; lia).
    reflexivity.
  - intros parsed v n Hp Hv Hn Hpos Hfit Hmem. eexists.
    apply (Hbody parsed _ Hp).
    rewrite (ScenarioFacts._read_body_declared self v n initial Hv Hn).
    apply Z.ltb_lt in Hpos. rewrite Hpos. unfold rfile_read.
    replace (2 ^ 63 <=? n) with false by (symmetry; apply Z.leb_gt; lia).
    replace (2 ^ 63 - 33 <=? n) with false by (symmetry; apply Z.leb_gt; lia).
    now rewrite Hmem.
  - intros parsed v n Hp Hv Hn Hpos Hfit Hmem Hdec. eexists.
    apply (Hbody parsed _ Hp).
    rewrite (ScenarioFacts._read_body_declared self v n initial Hv Hn).
    apply Z.ltb_lt in Hpos.
    rewrite Hpos, (ScenarioFacts.rfile_read_granted self n Hfit Hmem).
    unfold decode_utf8. now rewrite Hdec.
Qed.

(** X8. Only a POST reads the body: for every other method that reaches
    [_handle_request] (GET is the one the class routes there), the bytes on
    the wire after the head change nothing, the request ends the same way
    with the same trace; and no Content-Length header, not even one that
    [int] refuses and that is fatal to a POST, keeps the request from being
    read, with no body ([None], which the echo scenario prints as
    [null]). *)
Theorem body_read_by_post_only (method : str) (data : bytes) :
  str_eqb method (lit "POST") = false ->
  run (_handle_request w (with_rfile self data) method)
  = run (_handle_request w self method)
  /\ forall parsed,
       urlparse (path self) = Parsed parsed ->
       run (read_request self method)
       = (Ret (path_parts_of (pr_path parsed), parse_qs (pr_query parsed), None),
          initial).
Proof.
  intros Hm. split.
  - unfold run, _handle_request, read_request. rewrite !Hm. reflexivity.
  - intros parsed Hp. now apply ScenarioFacts.read_request_get.
Qed.

End Environment.

(** The theorem at [GET /health], handled with [MOCK_HTTP_STATUS=503] and
    with no variable set. *)
Lemma environment_read_witness :
  run (@_handle_request CPython.lib http_1
         (with_environ Sample.w [(lit "MOCK_HTTP_STATUS", lit "503")])
         (Sample.bare "/health") (lit "GET"))
  = run (@_handle_request CPython.lib http_1 Sample.w (Sample.bare "/health") (lit "GET")).
Proof.
  apply (@environment_read CPython.lib Sample.w (Sample.bare "/health")
           [(lit "MOCK_HTTP_STATUS", lit "503")] (lit "GET")).
  - reflexivity.
  - right. intros parsed H. vm_compute in H. injection H as <-.
    vm_compute. discriminate.
Defined.

(** The theorem at [GET /] of CPython under [MOCK_HTTP_STATUS=teapot]. *)
Lemma invalid_status_setting_witness :
  exists msg,
    run (@_handle_request CPython.lib http_1
           (Sample.world_of [(lit "MOCK_HTTP_STATUS", lit "teapot")])
           (Sample.bare "/") (lit "GET"))
    = (Raise (ValueError msg),
       {| _headers_buffer := [];
          trace := default_wait (float_of_int 0);
          time_calls := 0 |}).
Proof.
  eexists.
  refine (@invalid_status_setting CPython.lib
            (Sample.world_of [(lit "MOCK_HTTP_STATUS", lit "teapot")])
            (Sample.bare "/") (lit "GET") [[]] [] None (float_of_int 0) _
            _ _ _ _ _ _);
    vm_compute; reflexivity.
Defined.

(** The theorem at [GET /health] of CPython under the delays [-1], [inf],
    [9223372036.5] and [soon]. *)
Lemma default_delay_edges_witness :
  run (@_handle_request CPython.lib http_1
         (Sample.world_of [(lit "MOCK_HTTP_DELAY", lit "-1")])
         (Sample.bare "/health") (lit "GET"))
  = run (@dispatch CPython.lib http_1
           (Sample.world_of [(lit "MOCK_HTTP_DELAY", lit "-1")])
           (Sample.bare "/health") (lit "GET") [lit "health"] [] None)
  /\ run (@_handle_request CPython.lib http_1
            (Sample.world_of [(lit "MOCK_HTTP_DELAY", lit "inf")])
            (Sample.bare "/health") (lit "GET"))
     = (Raise (OverflowError (lit "timestamp too large to convert to C _PyTime_t")),
        initial)
  /\ run (@_handle_request CPython.lib http_1
            (Sample.world_of [(lit "MOCK_HTTP_DELAY", lit "9223372036.5")])
            (Sample.bare "/health") (lit "GET"))
     = (Raise (OSError (lit "[Errno 22] Invalid argument")), initial)
  /\ (exists msg,
        run (@_handle_request CPython.lib http_1
               (Sample.world_of [(lit "MOCK_HTTP_DELAY", lit "soon")])
               (Sample.bare "/health") (lit "GET"))
        = (Raise (ValueError msg), initial)).
Proof.
  split; [|split; [|split]].
  - refine (proj1 (@default_delay_edges CPython.lib
                     (Sample.world_of [(lit "MOCK_HTTP_DELAY", lit "-1")])
                     (Sample.bare "/health") (lit "GET") [lit "health"] [] None _)
              (float_of_int (-1)) _ _);
      vm_compute; reflexivity.
  - refine (proj1 (proj2 (@default_delay_edges CPython.lib
                            (Sample.world_of [(lit "MOCK_HTTP_DELAY", lit "inf")])
                            (Sample.bare "/health") (lit "GET") [lit "health"] []
                            None _))
              (S754_infinity false) _ _);
      vm_compute; reflexivity.
  - refine (proj1 (proj2 (@default_delay_edges CPython.lib
                            (Sample.world_of
                               [(lit "MOCK_HTTP_DELAY", lit "9223372036.5")])
                            (Sample.bare "/health") (lit "GET") [lit "health"] []
                            None _))
              (S754_finite false 4835703278272512 (-19)) _ _);
      vm_compute; reflexivity.
  - eexists.
    refine (proj2 (proj2 (@default_delay_edges CPython.lib
                            (Sample.world_of [(lit "MOCK_HTTP_DELAY", lit "soon")])
                            (Sample.bare "/health") (lit "GET") [lit "health"] []
                            None _))
              _ _);
      vm_compute; reflexivity.
Defined.

(** The theorem at a POST of CPython to [/echo] under a delay of 2
    seconds: with the Content-Length [five], with the Content-Length 2^63,
    with a Content-Length of 2^40 on a machine that has not that much, and
    with the Content-Length 1 before the byte FF. *)
Lemma unreadable_request_witness :
  (exists msg,
     run (@_handle_request CPython.lib http_1
            (Sample.world_of [(lit "MOCK_HTTP_DELAY", lit "2")])
            (Sample.carrying "/echo" "five" "hello") (lit "POST"))
     = (Raise (ValueError msg), initial))
  /\ (exists msg,
        run (@_handle_request CPython.lib http_1
               (Sample.world_of [(lit "MOCK_HTTP_DELAY", lit "2")])
               (Sample.carrying "/echo" "9223372036854775808" "hello")
               (lit "POST"))
        = (Raise (OverflowError msg), initial))
  /\ (exists msg,
        run (@_handle_request CPython.lib http_1
               (Sample.world_of [(lit "MOCK_HTTP_DELAY", lit "2")])
               (Sample.carrying "/echo" "1099511627776" "hello")
               (lit "POST"))
        = (Raise (MemoryError msg), initial))
  /\ (exists msg,
        run (@_handle_request CPython.lib http_1
               (Sample.world_of [(lit "MOCK_HTTP_DELAY", lit "2")])
               (with_rfile (Sample.carrying "/echo" "1" "") [Byte.xff])
               (lit "POST"))
        = (Raise (UnicodeDecodeError msg), initial)).
Proof.
  split; [|split; [|split]].
  - eexists.
    refine (proj1 (proj2 (@unreadable_request CPython.lib
                            (Sample.world_of [(lit "MOCK_HTTP_DELAY", lit "2")])
                            (Sample.carrying "/echo" "five" "hello")))
              {| pr_scheme := []; pr_netloc := []; pr_path := lit "/echo";
                 pr_params := []; pr_query := []; pr_fragment := [] |}
              (lit "five") _ _ _ _);
      vm_compute; reflexivity.
  - refine (proj1 (proj2 (proj2
              (@unreadable_request CPython.lib
                 (Sample.world_of [(lit "MOCK_HTTP_DELAY", lit "2")])
                 (Sample.carrying "/echo" "9223372036854775808" "hello"))))
              {| pr_scheme := []; pr_netloc := []; pr_path := lit "/echo";
                 pr_params := []; pr_query := []; pr_fragment := [] |}
              (lit "9223372036854775808") (2 ^ 63) _ _ _ _);
      vm_compute; solve [reflexivity | discriminate].
  - refine (proj1 (proj2 (proj2 (proj2
              (@unreadable_request CPython.lib
                 (Sample.world_of [(lit "MOCK_HTTP_DELAY", lit "2")])
                 (Sample.carrying "/echo" "1099511627776" "hello")))))
              {| pr_scheme := []; pr_netloc := []; pr_path := lit "/echo";
                 pr_params := []; pr_query := []; pr_fragment := [] |}
              (lit "1099511627776") (2 ^ 40) _ _ _ _ _ _);
      vm_compute; solve [reflexivity | discriminate].
  - refine (proj2 (proj2 (proj2 (proj2
              (@unreadable_request CPython.lib
                 (Sample.world_of [(lit "MOCK_HTTP_DELAY", lit "2")])
                 (with_rfile (Sample.carrying "/echo" "1" "") [Byte.xff])))))
              {| pr_scheme := []; pr_netloc := []; pr_path := lit "/echo";
                 pr_params := []; pr_query := []; pr_fragment := [] |}
              (lit "1") 1 _ _ _ _ _ _ _);
      vm_compute; solve [reflexivity | discriminate].
Defined.

(** The theorem at [GET /echo] of CPython with the header [Content-Length:
    five], with five bytes and with none after the head. *)
Lemma body_read_by_post_only_witness :
  run (@_handle_request CPython.lib http_1 Sample.w
         (with_rfile (Sample.carrying "/echo" "five" "hello") []) (lit "GET"))
  = run (@_handle_request CPython.lib http_1 Sample.w
           (Sample.carrying "/echo" "five" "hello") (lit "GET"))
  /\ run (@read_request CPython.lib (Sample.carrying "/echo" "five" "hello")
            (lit "GET"))
     = (Ret ([lit "echo"], [], None), initial).
Proof.
  split.
  - apply (proj1 (@body_read_by_post_only CPython.lib Sample.w
                    (Sample.carrying "/echo" "five" "hello") (lit "GET") []
                    eq_refl)).
  - apply (proj2 (@body_read_by_post_only CPython.lib Sample.w
                    (Sample.carrying "/echo" "five" "hello") (lit "GET") []
                    eq_refl)
             {| pr_scheme := []; pr_netloc := []; pr_path := lit "/echo";
                pr_params := []; pr_query := []; pr_fragment := [] |}).
    vm_compute. reflexivity.
Defined.

Section ReadBody.
Context {lib : PyLib} (self : request).

(** X9. Round trip of the body: when the bytes on the wire are the UTF-8
    encoding of a text and the Content-Length header reads as a number not
    below their count (a length beyond the end of the stream reads what
    there is), of a size that [rfile.read] converts (below 2^63 - 33) and
    that the runtime has the storage for, [_read_body] returns that very
    text, the empty text included, and changes nothing in the handler. *)
Theorem body_round_trip (text v : str) (n : Z) (st : hstate) :
  utf8_encode text = Some (rfile self) ->
  Msg.get (lit "Content-Length") (headers self) = Some v ->
  py_int v = Parsed n ->
  Z.of_nat (List.length (rfile self)) <= n ->
  n < 2 ^ 63 - 33 -> allocates n = true ->
  _read_body self st = (Ret text, st).
Proof.
  intros He Hv Hn Hlen Hfit Hmem.
  rewrite (ScenarioFacts._read_body_declared self v n st Hv Hn).
  destruct (0 <? n) eqn:Hpos.
  - rewrite (ScenarioFacts.rfile_read_granted self n Hfit Hmem).
    rewrite firstn_all2 by lia. unfold decode_utf8.
    now rewrite (Utf8Facts.decode_encode text _ He).
  - apply Z.ltb_ge in Hpos.
    destruct (rfile self) as [|b bs]; [|cbn [List.length] in Hlen; lia].
    now rewrite (PaddingFacts.utf8_encode_nil text He).
Qed.

End ReadBody.

(** The theorem at the five bytes of [hello] under Content-Length 5 and
    under Content-Length 9. *)
Lemma body_round_trip_witness :
  @_read_body CPython.lib (Sample.carrying "/echo" "5" "hello") initial
  = (Ret (lit "hello"), initial)
  /\ @_read_body CPython.lib (Sample.carrying "/echo" "9" "hello") initial
     = (Ret (lit "hello"), initial).
Proof.
  split.
  - apply (@body_round_trip CPython.lib (Sample.carrying "/echo" "5" "hello")
             (lit "hello") (lit "5") 5 initial);
      vm_compute; solve [reflexivity | discriminate].
  - apply (@body_round_trip CPython.lib (Sample.carrying "/echo" "9" "hello")
             (lit "hello") (lit "9") 9 initial);
      vm_compute; solve [reflexivity | discriminate].
Defined.

(** X10. The text that the whatsapp scenario sends back, [text[:50] +
    "..." if len(text) > 50 else text]: it has at most 53 characters; its
    first 50 characters are those of the text; a text of at most 50
    characters is sent back unchanged; the result is longer than the text
    exactly when the text has 51 or 52 characters; and cutting twice is
    cutting once. *)
Theorem shorten_bounds (text : str) :
  (List.length (shorten text) <= 53)%nat
  /\ firstn 50 (shorten text) = firstn 50 text
  /\ ((List.length text <= 50)%nat -> shorten text = text)
  /\ ((List.length text < List.length (shorten text))%nat
      <-> List.length text = 51%nat \/ List.length text = 52%nat)
  /\ shorten (shorten text) = shorten text.
Proof.
  unfold shorten.
  destruct (50 <? List.length text)%nat eqn:E.
  - apply Nat.ltb_lt in E.
    assert (Hl : List.length (firstn 50 text ++ lit "...") = 53%nat).
    { rewrite length_app, firstn_length_le by lia. reflexivity. }
    assert (Hf : firstn 50 (firstn 50 text ++ lit "...") = firstn 50 text).
    { rewrite firstn_app, firstn_firstn, firstn_length_le by lia.
      cbn [Nat.sub Nat.min firstn]. apply app_nil_r. }
    rewrite Hl. repeat split; try lia; try exact Hf.
    cbn [Nat.ltb Nat.leb]. now rewrite Hf.
  - rewrite E. apply Nat.ltb_ge in E. repeat split; try lia; auto.
Qed.

Section EchoedHeaders.
Context (self : request).

(** X11. The [headers] object of the echo response, [dict(self.headers)]:
    its keys are the header names of the request as received, each spelling
    once, in the order of first occurrence; and under each key stands the
    value of the first header of that name compared without case, so that
    of two headers whose names differ by case only both names appear, both
    with the value of the first. *)
Theorem echoed_headers (method : str) (query_params : dict (list str))
    (body : option str) (now : float) :
  exists kv,
    json_field (lit "headers") (echo_response self method query_params body now)
    = Some (JObj kv)
    /\ map fst kv = first_occurrences [] (map fst (headers self))
    /\ NoDup (map fst kv)
    /\ (forall k, In k (map fst kv) <-> In k (map fst (headers self)))
    /\ (forall k, In k (map fst (headers self)) ->
          dict_get k kv = option_map JStr (Msg.get k (headers self))).
Proof.
  exists (map (fun kv => (fst kv, JStr (snd kv))) (Msg.to_dict (headers self))).
  split; [reflexivity|].
  assert (Hk : map fst (map (fun kv : str * str => (fst kv, JStr (snd kv)))
                          (Msg.to_dict (headers self)))
               = dict_keys (Msg.to_dict (headers self))).
  { rewrite map_map. reflexivity. }
  assert (Hg : forall (d : dict str) k,
             dict_get k (map (fun kv : str * str => (fst kv, JStr (snd kv))) d)
             = option_map JStr (dict_get k d)).
  { intros d k. induction d as [|[k' v'] d IH]; cbn [map dict_get fst snd];
      [reflexivity|]. now destruct (str_eqb k k'). }
  destruct (DictFacts.to_dict_fold (headers self) (map fst (headers self)) []
              (DictFacts.get_own_name (headers self)) (fun k H => match H with end))
    as [Hkeys Hget].
  fold (Msg.to_dict (headers self)) in Hkeys, Hget. cbn [dict_keys map app] in Hkeys.
  destruct (DictFacts.first_occurrences_spec [] (map fst (headers self))
              (NoDup_nil _)) as [Hnd Hin].
  cbn [app] in Hnd, Hin.
  rewrite Hk, Hkeys. repeat split; auto.
  - intros H. apply Hin in H. destruct H as [[]|H]. exact H.
  - intros H. apply Hin. now right.
  - intros k H. rewrite Hg. f_equal. apply Hget.
    rewrite Hkeys. apply Hin. now right.
Qed.

End EchoedHeaders.

Section Padding.

(** X12. Slashes around the path do not count: any number of slashes put
    before a path and any number put after it leave the segments that
    [_parse_path] extracts from it unchanged, so that [/echo], [/echo/] and
    [/echo///] (as the path that [urlparse] returns) lead to the same
    route with the same segments. *)
Theorem slashes_around_path (p : str) (n m : nat) :
  path_parts_of (repeat slash n ++ p ++ repeat slash m) = path_parts_of p.
Proof. unfold path_parts_of. now rewrite PaddingFacts.strip_padding. Qed.

End Padding.

Section RoutesRead.
Context {lib : PyLib} (w : world) (self : request).

(** X13. What the routes read of a request. Segments after the second are
    never read: [/status/404/x/y] is [/status/404] and [/echo/a/b] is
    [/echo] to every route. The method and the body are read by the echo
    scenario only, and the query by the echo and the whatsapp scenarios
    only: for any other first segment, requests that differ in method, query
    and body take the same route and get the same response. *)
Theorem routes_read (method : str) (p0 p1 : str) (rest : list str)
    (query_params : dict (list str)) (body : option str) :
  dispatch w self method (p0 :: p1 :: rest) query_params body
  = dispatch w self method [p0; p1] query_params body
  /\ (p0 <> lit "echo" -> p0 <> lit "whatsapp" ->
      forall segments method' query_params' body',
        dispatch w self method (p0 :: segments) query_params body
        = dispatch w self method' (p0 :: segments) query_params' body')
  /\ (p0 <> lit "echo" ->
      forall segments method' body',
        dispatch w self method (p0 :: segments) query_params body
        = dispatch w self method' (p0 :: segments) query_params body').
Proof.
  split; [reflexivity|]. split.
  - intros He Hw segments method' qp' body'. unfold dispatch.
    rewrite (ScenarioFacts.str_eqb_neq p0 (lit "echo") He).
    rewrite (ScenarioFacts.str_eqb_neq p0 (lit "whatsapp") Hw).
    reflexivity.
  - intros He segments method' body'. unfold dispatch.
    rewrite (ScenarioFacts.str_eqb_neq p0 (lit "echo") He).
    reflexivity.
Qed.

End RoutesRead.

(** The theorem at the segments of [/health/x/y], read by a GET without
    query and by a POST with a query and a body. *)
Lemma routes_read_witness :
  @dispatch CPython.lib http_1 Sample.w (Sample.bare "/health/x/y") (lit "GET")
    [lit "health"; lit "x"; lit "y"] [] None
  = @dispatch CPython.lib http_1 Sample.w (Sample.bare "/health/x/y") (lit "POST")
      [lit "health"; lit "x"; lit "y"] [(lit "a", [lit "1"])] (Some (lit "hello")).
Proof.
  apply (proj1 (proj2 (@routes_read CPython.lib Sample.w (Sample.bare "/health/x/y")
                         (lit "GET") (lit "health") (lit "x") [lit "y"] [] None)));
    discriminate.
Defined.

Section DefaultBody.
Context {lib : PyLib} (w : world).

(** X14. [_send_response] without a body, under the JSON content type,
    for every status code: it reads the clock once and sends, in one head
    and one body, the status line with the reason phrase of the library's
    table (empty for a code the table does not have), two Server headers
    (the library's own first, then the mock server's: the second does not
    replace the first), Date, Content-Type, Access-Control-Allow-Origin and
    Content-Length, and as body the JSON object [{status, message,
    timestamp}] whose message is the reason phrase of the table, or
    [Unknown] for a code the table does not have. It never raises. *)
Theorem default_body (status_code : Z) (st : hstate) :
  let text :=
    Json.dumps (JObj
      [ (lit "status", JInt status_code);
        (lit "message", JStr (match responses status_code with
                              | Some phrase => lit phrase
                              | None => lit "Unknown"
                              end));
        (lit "timestamp", JFloat (clock w (time_calls st))) ]) in
  _send_response w status_code application_json None st
  = (Ret tt,
     {| _headers_buffer := [];
        trace :=
          trace st
          ++ [ WriteHead
                 (_headers_buffer st
                  ++ [ StatusLine protocol_version status_code
                         (match responses status_code with
                          | Some phrase => lit phrase
                          | None => []
                          end);
                       Header (lit "Server") (lit version_string);
                       Header (lit "Date") (lit (date_time_string w));
                       Header (lit "Content-Type") (lit "application/json");
                       Header (lit "Access-Control-Allow-Origin") (lit "*");
                       Header (lit "Server") (lit "painlessMesh-MockServer/1.0");
                       Header (lit "Content-Length")
                         (str_of_int (Z.of_nat (List.length (utf8_bytes text)))) ]);
               WriteBody (utf8_bytes text) ];
        time_calls := S (time_calls st) |}).
Proof.
  intros text.
  destruct (PyFacts.utf8_encode_latin1 _
              (PyFacts.latin1_dumps_at None
                 (JObj
                    [ (lit "status", JInt status_code);
                      (lit "message", JStr (match responses status_code with
                                            | Some phrase => lit phrase
                                            | None => lit "Unknown"
                                            end));
                      (lit "timestamp", JFloat (clock w (time_calls st))) ]) 0))
    as [data Hdata].
  fold (Json.dumps (JObj
                    [ (lit "status", JInt status_code);
                      (lit "message", JStr (match responses status_code with
                                            | Some phrase => lit phrase
                                            | None => lit "Unknown"
                                            end));
                      (lit "timestamp", JFloat (clock w (time_calls st))) ])) in Hdata.
  fold text in Hdata.
  rewrite (SendFacts._send_response_ok w status_code application_json None st data
             eq_refl Hdata).
  unfold utf8_bytes. rewrite Hdata. reflexivity.
Qed.

End DefaultBody.

Section Uptime.
Context {lib : PyLib} (w : world).

(** X15. The health scenario reads the clock twice and answers 200 with
    [{status: "healthy", server, version, uptime, timestamp}], the uptime
    being the first reading minus the start time of the server, in binary64
    arithmetic, and the timestamp the second reading. When the first reading
    and the start time are finite numbers and the start time is not above
    the reading (the clock has not been set back since the start), the
    uptime is a number not below zero: never NaN, never negative. *)
Theorem health_uptime (st : hstate) :
  reading (clock w (time_calls st)) = true ->
  reading (server_start_time w) = true ->
  fle (server_start_time w) (clock w (time_calls st)) = true ->
  exists uptime,
    _handle_health w st
    = replied w st 200
        (Json.dumps (JObj
           [ (lit "status", JStr (lit "healthy"));
             (lit "server", JStr (lit "painlessMesh-MockServer"));
             (lit "version", JStr (lit "1.0.0"));
             (lit "uptime", JFloat uptime);
             (lit "timestamp", JFloat (clock w (S (time_calls st)))) ])) 2
    /\ uptime = fsub (clock w (time_calls st)) (server_start_time w)
    /\ fle (float_of_int 0) uptime = true.
Proof.
  intros Rc Rs Hle. eexists. split; [apply RouteFacts._handle_health_run|].
  split; [reflexivity|]. now apply UptimeFacts.fsub_nonneg.
Qed.

End Uptime.

(** The theorem at the sample world: started at 1699999000 s, read at
    1700000000 s, up for 1000 s. *)
Lemma health_uptime_witness :
  exists uptime,
    @_handle_health CPython.lib http_1 Sample.w initial
    = @replied CPython.lib Sample.w initial 200
        (@Json.dumps CPython.lib (JObj
           [ (lit "status", JStr (lit "healthy"));
             (lit "server", JStr (lit "painlessMesh-MockServer"));
             (lit "version", JStr (lit "1.0.0"));
             (lit "uptime", JFloat uptime);
             (lit "timestamp", JFloat (float_of_int 1700000001)) ])) 2
    /\ uptime = float_of_int 1000
    /\ fle (float_of_int 0) uptime = true.
Proof.
  destruct (@health_uptime CPython.lib Sample.w initial eq_refl eq_refl eq_refl)
    as (uptime & Hrun & Hup & Hpos).
  exists uptime. split; [exact Hrun|]. split; [|exact Hpos].
  rewrite Hup. vm_compute. reflexivity.
Defined.

Section StatusCodes.
Context {lib : PyLib} (w : world) (self : request).

(** X16. Only the root route can put a status code outside 100..599 on
    the wire (it sends whatever integer [MOCK_HTTP_STATUS] holds, unchecked):
    for every GET or POST request whose first path segment is not empty,
    under every environment, every status code written is between 100 and
    599. *)
Theorem status_in_range (method : str) (parts : list str)
    (query_params : dict (list str)) (body : option str) :
  read_request self method initial = (Ret (parts, query_params, body), initial) ->
  hd [] parts <> [] ->
  Forall (fun code => 100 <= code <= 599)
    (statuses (trace (snd (run (_handle_request w self method))))).
Proof.
  intros Hread Hparts. unfold run, _handle_request.
  erewrite HttpFacts.bind_ret by exact Hread. cbn [fst snd].
  destruct (RouteFacts.apply_default_delay_cases w initial)
    as [Hd|[(d & Hpos & Hd)|(e & Hd)]].
  - erewrite HttpFacts.bind_ret by exact Hd.
    apply (CodeFacts.ends_statuses w _ initial eq_refl eq_refl).
    now apply CodeFacts.ends_dispatch.
  - erewrite HttpFacts.bind_ret by exact Hd.
    apply (CodeFacts.ends_statuses w _ (slept initial d) eq_refl eq_refl).
    now apply CodeFacts.ends_dispatch.
  - erewrite HttpFacts.bind_raise by exact Hd. constructor.
Qed.

End StatusCodes.

(** The theorem at [GET /status/599] of CPython under
    [MOCK_HTTP_STATUS=999]. *)
Lemma status_in_range_witness :
  Forall (fun code => 100 <= code <= 599)
    (statuses (trace (snd (run (@_handle_request CPython.lib http_1
                                  (Sample.world_of [(lit "MOCK_HTTP_STATUS", lit "999")])
                                  (Sample.bare "/status/599") (lit "GET")))))).
Proof.
  apply (@status_in_range CPython.lib
           (Sample.world_of [(lit "MOCK_HTTP_STATUS", lit "999")])
           (Sample.bare "/status/599") (lit "GET") [lit "status"; lit "599"] [] None).
  - vm_compute. reflexivity.
  - discriminate.
Defined.
